(** * html_log: a shallow embedding of [src/index.js]

    The module exports one class, [Log], that keeps sections of typed log
    entries in memory and rewrites an HTML report on every change.  This
    development embeds the class in Gallina and proves the properties its
    specification states.

    Layout:
    - [JsString]: the string primitives the class relies on
      ([String.prototype.replace] with a string pattern, number to string);
    - [JsDate]: the [Date] getters, after ECMA-262 section 21.4.1;
    - [JsObject]: the plain object [this.sections], with its property
      order and its prototype link;
    - the class itself, method by method, in a state and exception monad;
    - the theorems. *)

From Stdlib Require Import ZArith String Ascii List Bool DecimalString Lia
  Permutation.
Import ListNotations.
Local Open Scope string_scope.
Local Open Scope Z_scope.

(* ================================================================== *)
(** * JavaScript strings *)

Module JsString.

(** [ToString] of an integral Number below 10^21: the decimal numeral,
    with a leading minus sign when negative. *)
Definition ofNumber (n : Z) : string :=
  NilZero.string_of_int (Z.to_int n).

Fixpoint startsWith (pat s : string) : bool :=
  match pat, s with
  | EmptyString, _ => true
  | String _ _, EmptyString => false
  | String a pat', String b s' => Ascii.eqb a b && startsWith pat' s'
  end.

Fixpoint drop (n : nat) (s : string) : string :=
  match n, s with
  | O, _ => s
  | S _, EmptyString => EmptyString
  | S n', String _ s' => drop n' s'
  end.

(** [s.replace(pat, rep)] with a string pattern: only the leftmost
    occurrence of [pat] is replaced.  The replacement text is inserted as
    it is; JavaScript would expand dollar patterns in it, and the class
    only ever passes numerals there. *)
Fixpoint replace (pat rep s : string) : string :=
  if startsWith pat s then rep ++ drop (String.length pat) s
  else match s with
       | EmptyString => EmptyString
       | String c s' => String c (replace pat rep s')
       end.

(** [occursIn pat s]: [pat] occurs somewhere in [s]. *)
Fixpoint occursIn (pat s : string) : bool :=
  startsWith pat s ||
  match s with
  | EmptyString => false
  | String _ s' => occursIn pat s'
  end.

(** Number of characters of [s] equal to [c]. *)
Fixpoint count (c : ascii) (s : string) : nat :=
  match s with
  | EmptyString => O
  | String a s' => (if Ascii.eqb a c then 1 else 0) + count c s'
  end.

(** [s] contains [v] as a contiguous run of characters. *)
Definition Infix (v s : string) : Prop :=
  exists a b, s = a ++ v ++ b.

End JsString.

(* ================================================================== *)
(** * JavaScript dates *)

Module JsDate.

(** A [Date] object holds a time value, milliseconds since the epoch.  The
    class never calls a setter, so a date is its time value. *)
Record Date : Set := mkDate { getTime : Z }.

Definition msPerDay : Z := 86400000.
Definition msPerHour : Z := 3600000.
Definition msPerMinute : Z := 60000.
Definition msPerSecond : Z := 1000.

Definition Day (t : Z) : Z := t / msPerDay.
Definition HourFromTime (t : Z) : Z := (t / msPerHour) mod 24.
Definition MinFromTime (t : Z) : Z := (t / msPerMinute) mod 60.
Definition SecFromTime (t : Z) : Z := (t / msPerSecond) mod 60.

(** Day number of the first day of year [y] (ECMA-262, [DayFromYear]). *)
Definition DayFromYear (y : Z) : Z :=
  365 * (y - 1970) + (y - 1969) / 4 - (y - 1901) / 100 + (y - 1601) / 400.

(** The civil date of a day number, computed era by era (400 years are
    146097 days); years start in March inside the computation, so that the
    leap day comes last. *)
Record Civil : Set := mkCivil { civilYear : Z; civilMonth : Z; civilDay : Z }.

Definition dayOfEra (d : Z) : Z := (d + 719468) mod 146097.
Definition yearOfEra (doe : Z) : Z :=
  (doe - doe / 1460 + doe / 36524 - doe / 146096) / 365.
Definition dayOfYear (doe : Z) : Z :=
  let yoe := yearOfEra doe in
  doe - (365 * yoe + yoe / 4 - yoe / 100).
Definition monthIndex (doy : Z) : Z := (5 * doy + 2) / 153.

Definition civilFromDays (d : Z) : Civil :=
  let era := (d + 719468) / 146097 in
  let doe := dayOfEra d in
  let yoe := yearOfEra doe in
  let doy := dayOfYear doe in
  let mp := monthIndex doy in
  let day := doy - (153 * mp + 2) / 5 + 1 in
  let month := if mp <? 10 then mp + 3 else mp - 9 in
  let year := yoe + era * 400 + (if month <=? 2 then 1 else 0) in
  mkCivil year month day.

Definition YearFromTime (t : Z) : Z := civilYear (civilFromDays (Day t)).
(** Months are numbered from 0, as [MonthFromTime] does. *)
Definition MonthFromTime (t : Z) : Z := civilMonth (civilFromDays (Day t)) - 1.
Definition DateFromTime (t : Z) : Z := civilDay (civilFromDays (Day t)).

Section LocalTime.
(** The offset of local time from UTC, in milliseconds, at a given
    instant: the host's time zone. *)
Variable LocalTZA : Z -> Z.

Definition LocalTime (t : Z) : Z := t + LocalTZA t.

Definition getDate (d : Date) : Z := DateFromTime (LocalTime (getTime d)).
Definition getMonth (d : Date) : Z := MonthFromTime (LocalTime (getTime d)).
Definition getFullYear (d : Date) : Z := YearFromTime (LocalTime (getTime d)).
Definition getHours (d : Date) : Z := HourFromTime (LocalTime (getTime d)).
Definition getMinutes (d : Date) : Z := MinFromTime (LocalTime (getTime d)).
Definition getSeconds (d : Date) : Z := SecFromTime (LocalTime (getTime d)).
End LocalTime.

(** UTC as the local zone. *)
Definition utc : Z -> Z := fun _ => 0.

End JsDate.

Import JsString JsDate.

(* ================================================================== *)
(** * The date formatter *)

Section Formatter.
Variable LocalTZA : Z -> Z.

(** [_dateToString(dateTime, template)], src/index.js lines 342-364.
    [day] and [month] are a string when padded and a number otherwise;
    [replace] turns its second argument into a string either way. *)
Definition _dateToString (dateTime : Date) (template : string) : string :=
  let day := getDate LocalTZA dateTime in
  let day := if day <? 10 then "0" ++ ofNumber day else ofNumber day in
  let month := getMonth LocalTZA dateTime + 1 in
  let month := if month <? 10 then "0" ++ ofNumber month else ofNumber month in
  let year := getFullYear LocalTZA dateTime in
  let hours := getHours LocalTZA dateTime in
  let minutes := getMinutes LocalTZA dateTime in
  let seconds := getSeconds LocalTZA dateTime in
  let template := replace "dd" day template in
  let template := replace "mm" month template in
  let template := replace "yyyy" (ofNumber year) template in
  let template := replace "H" (ofNumber hours) template in
  let template := replace "i" (ofNumber minutes) template in
  let template := replace "s" (ofNumber seconds) template in
  template.
End Formatter.

(* ================================================================== *)
(** * Log entries and sections *)

(** The three entry types the public methods pass to [_pushLog]. *)
Inductive LogType : Set := INFO | ERROR | DEBUG.

Definition typeName (t : LogType) : string :=
  match t with
  | INFO => "INFO"
  | ERROR => "ERROR"
  | DEBUG => "DEBUG"
  end.

(** The object built by [_getLogObject]. *)
Module Entry.
Record t : Set := make { type : LogType; value : string; dateTime : string }.
End Entry.

(** [elapsed] is the empty string until the section is closed, and a
    number of milliseconds afterwards. *)
Inductive Elapsed : Set :=
| NotClosed
| Millis (ms : Z).

(** The object literal of [createSection]; [end] is a keyword here, hence
    [end_]. *)
Module Sect.
Record t : Set := make {
    key : string;
    name : string;
    start : Date;
    end_ : Date;
    elapsed : Elapsed;
    logs : list Entry.t
  }.

Definition close (now : Date) (s : t) : t :=
  make (key s) (name s) (start s) now
       (Millis (getTime now - getTime (start s))) (logs s).

Definition push (log : Entry.t) (s : t) : t :=
  make (key s) (name s) (start s) (end_ s) (elapsed s) (logs s ++ [log]).
End Sect.

(* ================================================================== *)
(** * The object [this.sections]

    [this.sections] starts as the literal [{}]: an ordinary object whose
    prototype is [Object.prototype].  Three rules of the language decide
    what the class observes of it:
    - a [for-in] loop visits the own keys that are array indices first, in
      ascending numeric order, then the other own keys in creation order,
      then the enumerable keys inherited through the prototype chain that
      no own key shadows;
    - an assignment to the key [__proto__] goes to the setter inherited
      from [Object.prototype] and replaces the prototype by the assigned
      object, creating no own property;
    - a read of a key that is not own is answered by the prototype chain. *)

Module JsObject.

Record t : Set := make {
    (** own properties, in creation order *)
    own : list (string * Sect.t);
    (** [Some p] once a section record [p] has been assigned to
        [__proto__]; [None] while the prototype is [Object.prototype] *)
    proto : option Sect.t
  }.

Definition empty : t := make [] None.

(** What a read of [this.sections[k]] can yield. *)
Inductive Value : Set :=
  | VUndefined
  | VSection (s : Sect.t)
  | VObjectPrototype          (* [Object.prototype] itself *)
  | VOther.                   (* any other value: a built-in function, or a
                                 field of the record installed as prototype *)

Fixpoint assoc (k : string) (l : list (string * Sect.t)) : option Sect.t :=
  match l with
  | [] => None
  | (k', v) :: l' => if String.eqb k' k then Some v else assoc k l'
  end.

(** Writing an own property keeps the position of an existing key and
    appends a new one. *)
Fixpoint assign (k : string) (v : Sect.t) (l : list (string * Sect.t))
  : list (string * Sect.t) :=
  match l with
  | [] => [(k, v)]
  | (k', v') :: l' =>
      if String.eqb k' k then (k, v) :: l' else (k', v') :: assign k v l'
  end.

Definition inList (k : string) (l : list string) : bool :=
  existsb (String.eqb k) l.

(** The keys of a section record, in the order of the literal. *)
Definition sectionFields : list string :=
  ["key"; "name"; "start"; "end"; "elapsed"; "logs"].

(** The data properties of [Object.prototype]; all are functions and none
    is enumerable. *)
Definition objectPrototypeMembers : list string :=
  ["constructor"; "__defineGetter__"; "__defineSetter__"; "hasOwnProperty";
   "__lookupGetter__"; "__lookupSetter__"; "isPrototypeOf";
   "propertyIsEnumerable"; "toString"; "valueOf"; "toLocaleString"].

(** [this.sections[k]].  [polluted] tells whether [Object.prototype] has
    been given an [end] property (see [closeSection]). *)
Definition get (polluted : bool) (o : t) (k : string) : Value :=
  match assoc k (own o) with
  | Some s => VSection s
  | None =>
      if String.eqb k "__proto__" then
        match proto o with
        | Some p => VSection p
        | None => VObjectPrototype
        end
      else if inList k objectPrototypeMembers then VOther
      else
        match proto o with
        | Some _ => if inList k sectionFields then VOther else VUndefined
        | None => if polluted && String.eqb k "end" then VOther else VUndefined
        end
  end.

(** [this.sections[k] = v], and also the write back of a record that was
    read through [this.sections[k]] and changed in place. *)
Definition set (o : t) (k : string) (v : Sect.t) : t :=
  if String.eqb k "__proto__" then make (own o) (Some v)
  else make (assign k v (own o)) (proto o).

Definition isDigit (c : ascii) : bool :=
  let n := nat_of_ascii c in (48 <=? n)%nat && (n <=? 57)%nat.

Fixpoint digitsValue (acc : N) (s : string) : option N :=
  match s with
  | EmptyString => Some acc
  | String c s' =>
      if isDigit c
      then digitsValue (acc * 10 + N.of_nat (nat_of_ascii c - 48)) s'
      else None
  end.

(** An array index is a canonical numeral (no sign, no leading zero)
    below 2^32 - 1. *)
Definition arrayIndex (k : string) : option N :=
  match k with
  | EmptyString => None
  | String c rest =>
      if Ascii.eqb c "0" && negb (String.eqb rest "") then None
      else match digitsValue 0 k with
           | Some n => if (n <? 4294967295)%N then Some n else None
           | None => None
           end
  end.

Definition isArrayIndex (k : string) : bool :=
  match arrayIndex k with Some _ => true | None => false end.

Fixpoint insertIndex (n : N) (k : string) (l : list (N * string))
  : list (N * string) :=
  match l with
  | [] => [(n, k)]
  | (m, k') :: l' =>
      if (n <=? m)%N then (n, k) :: l else (m, k') :: insertIndex n k l'
  end.

Fixpoint indexKeys (ks : list string) : list (N * string) :=
  match ks with
  | [] => []
  | k :: ks' =>
      match arrayIndex k with
      | Some n => insertIndex n k (indexKeys ks')
      | None => indexKeys ks'
      end
  end.

(** The own keys in the order [for-in] visits them. *)
Definition ownKeys (o : t) : list string :=
  let ks := map fst (own o) in
  map snd (indexKeys ks) ++ filter (fun k => negb (isArrayIndex k)) ks.

Definition hasOwn (o : t) (k : string) : bool :=
  match assoc k (own o) with Some _ => true | None => false end.

(** The keys inherited and enumerable: the fields of a record installed
    as prototype, or the [end] property put on [Object.prototype]. *)
Definition inheritedKeys (polluted : bool) (o : t) : list string :=
  match proto o with
  | Some _ => sectionFields
  | None => if polluted then ["end"] else []
  end.

(** [for (var i in this.sections)]. *)
Definition forIn (polluted : bool) (o : t) : list string :=
  ownKeys o ++ filter (fun k => negb (hasOwn o k)) (inheritedKeys polluted o).

End JsObject.

(** [for (var j in section.logs)], paired with [section.logs[j]]: the
    elements in index order, then, once [Object.prototype] has an
    enumerable [end], that inherited key, whose value is a date and no
    entry. *)
Definition arrayForIn (polluted : bool) (logs : list Entry.t)
  : list (option Entry.t) :=
  map Some logs ++ (if polluted then [None] else []).

(* ================================================================== *)
(** * The instance, its host, and the monad of the methods *)

Module Log.
Record t : Set := make {
    title : string;
    description : string;
    logsPath : string;
    start : Date;
    end_ : option Date;          (* [null] until the first [save] *)
    sections : JsObject.t
  }.

Definition withEnd (e : Date) (l : t) : t :=
  make (title l) (description l) (logsPath l) (start l) (Some e) (sections l).

Definition withSections (o : JsObject.t) (l : t) : t :=
  make (title l) (description l) (logsPath l) (start l) (end_ l) o.
End Log.

(** What a method can throw: the [TypeError] of a failed property access,
    or an error of the file system. *)
Inductive Error : Set := TypeError | SystemError.

Inductive Result (A : Type) : Type :=
| Ok (a : A)
| Throw (e : Error).
Arguments Ok {A} a.
Arguments Throw {A} e.

(** The part of Node's [fs] module the class calls.  A call returns the
    new state of the disk together with its outcome; [existsSync] never
    throws. *)
Class FileSystem (FS : Type) : Type := {
  existsSync : string -> FS -> bool;
  mkdirSync : string -> FS -> Result unit * FS;
  writeFileSync : string -> string -> FS -> Result unit * FS
}.

Section World.
Context {FS : Type}.

(** One instance of the class together with what it runs against: the
    disk, the system clock as the sequence of the values successive
    [new Date()] calls read, and whether [Object.prototype] carries an
    enumerable [end] property. *)
Record World : Type := mkWorld {
    this : Log.t;
    disk : FS;
    clock : nat -> Z;
    ticks : nat;
    objectPrototypeEnd : bool
  }.

Definition M (A : Type) : Type := World -> Result A * World.

Definition ret {A : Type} (a : A) : M A := fun w => (Ok a, w).

Definition throw {A : Type} (e : Error) : M A := fun w => (Throw e, w).

(** A thrown error skips the rest; what was changed before stays
    changed. *)
Definition bind {A B : Type} (m : M A) (k : A -> M B) : M B :=
  fun w =>
    match m w with
    | (Ok a, w') => k a w'
    | (Throw e, w') => (Throw e, w')
    end.

Definition getThis : M Log.t := fun w => (Ok (this w), w).

Definition putThis (l : Log.t) : M unit :=
  fun w => (Ok tt, mkWorld l (disk w) (clock w) (ticks w) (objectPrototypeEnd w)).

Definition getPolluted : M bool := fun w => (Ok (objectPrototypeEnd w), w).

Definition pollute : M unit :=
  fun w => (Ok tt, mkWorld (this w) (disk w) (clock w) (ticks w) true).

(** [new Date()]. *)
Definition newDate : M Date :=
  fun w =>
    (Ok (mkDate (clock w (ticks w))),
     mkWorld (this w) (disk w) (clock w) (S (ticks w)) (objectPrototypeEnd w)).

Definition onDisk {A : Type} (f : FS -> Result A * FS) : M A :=
  fun w =>
    let (r, d) := f (disk w) in
    (r, mkWorld (this w) d (clock w) (ticks w) (objectPrototypeEnd w)).
End World.
Arguments World FS : clear implicits.
Arguments M FS A : clear implicits.

Declare Scope js_scope.
Delimit Scope js_scope with js.
Notation "x <- c1 ;; c2" := (bind c1 (fun x => c2))
  (at level 61, c1 at next level, right associativity) : js_scope.
Notation "c1 ;; c2" := (bind c1 (fun _ => c2))
  (at level 61, right associativity) : js_scope.

(* ================================================================== *)
(** * The text of the page

    The constant parts of the template literal of [_render], cut at its
    interpolations.  [dq] is the double quote. *)

Definition dq : string := String "034"%char EmptyString.

(** Lines 183-187, up to the title. *)
Definition tplOpen : string :=
  "
			<html>
				<head>
					<title>
						".

(** Lines 187-260: the style sheet and the script of the page, up to the heading. *)
Definition tplHead : string :=
  "
					</title>
					<style>
						.INFO{
							color: green;
						}

						.ERROR{
							color: red;
						}

						.DEBUG{
							color: #0790b9;
						}

						.WARNING{
							color: yellow;
						}
					</style>
					<meta charset=" ++ dq ++ "utf-8" ++ dq ++ " />
					<script src=" ++ dq ++ "https://ajax.googleapis.com/ajax/libs/jquery/3.1.1/jquery.min.js" ++ dq ++ "></script>
					<script>
						function changeConfig(){
							if ($('#infocheck').is(':checked')) {
								$('.INFO').show();
							}else{
								$('.INFO').hide();
							}

							if ($('#debugcheck').is(':checked')) {
								$('.DEBUG').show();
							}else{
								$('.DEBUG').hide();
							}

							if ($('#warningcheck').is(':checked')) {
								$('.WARNING').show();
							}else{
								$('.WARNING').hide();
							}

							if ($('#errorcheck').is(':checked')) {
								$('.ERROR').show();
							}else{
								$('.ERROR').hide();
							}

							if (window.autoRefreshInterval !== undefined){
								clearInterval(window.autoRefreshInterval);
							}

							if ($('#refreshconfig').val() > 0){
								window.autoRefreshInterval = setInterval(function(){location.reload();}, $('#refreshconfig').val()*1000);
							}
							localStorage.refreshConfig = $('#refreshconfig').val();

							$(" ++ dq ++ ".section" ++ dq ++ ").show();
							if ($('#hidecategoriescheck').is(':checked')) 
								$(" ++ dq ++ ".section:not(:has(div.islog:visible))" ++ dq ++ ").hide();
							
						}

						$( document ).ready(function() {
							if (localStorage.refreshConfig !== undefined && localStorage.refreshConfig !== '0'){
								$('#refreshconfig option[value=" ++ dq ++ "'+localStorage.refreshConfig+'" ++ dq ++ "]').attr(" ++ dq ++ "selected" ++ dq ++ "," ++ dq ++ "selected" ++ dq ++ ");
							}

							changeConfig();
						});

					</script>
				</head>
				<body>
					<h1>".

(** Lines 260-261. *)
Definition tplDescription : string :=
  " log</h1>
					<p>".

(** Lines 261-263. *)
Definition tplStarted : string :=
  "</p>
					<h2 id=" ++ dq ++ "summary" ++ dq ++ ">Summary</h2>
					<p>Started at: ".

(** Lines 263-264. *)
Definition tplFinished : string :=
  "</p>
					<p>Finished at: ".

(** Lines 264-293: the control panel and the heading of the table of contents. *)
Definition tplControls : string :=
  "</p>
					<div style=" ++ dq ++ "position: fixed; right: 50px; background-color:#e2e2e2;" ++ dq ++ ">
						<div>
							<select id=" ++ dq ++ "refreshconfig" ++ dq ++ " onchange=" ++ dq ++ "changeConfig()" ++ dq ++ ">
								<option value=" ++ dq ++ "0" ++ dq ++ ">No auto-refresh</option>
								<option value=" ++ dq ++ "5" ++ dq ++ ">Refresh every 5 seconds</option>
								<option value=" ++ dq ++ "10" ++ dq ++ ">Refresh every 10 seconds</option>
								<option value=" ++ dq ++ "20" ++ dq ++ ">Refresh every 20 seconds</option>
								<option value=" ++ dq ++ "30" ++ dq ++ ">Refresh every 30 seconds</option>
							</select>
						</div>
						<div>
							<input type=" ++ dq ++ "checkbox" ++ dq ++ " id=" ++ dq ++ "hidecategoriescheck" ++ dq ++ " onchange=" ++ dq ++ "changeConfig()" ++ dq ++ " /> Do not show empty categories
						</div>
						<div>
							<input type=" ++ dq ++ "checkbox" ++ dq ++ " id=" ++ dq ++ "infocheck" ++ dq ++ " checked onchange=" ++ dq ++ "changeConfig()" ++ dq ++ " />Show INFO logs
						</div>
						<div>
							<input type=" ++ dq ++ "checkbox" ++ dq ++ " id=" ++ dq ++ "debugcheck" ++ dq ++ " checked onchange=" ++ dq ++ "changeConfig()" ++ dq ++ " />Show DEBUG logs
						</div>
						<div>
							<input type=" ++ dq ++ "checkbox" ++ dq ++ " id=" ++ dq ++ "warningcheck" ++ dq ++ " checked onchange=" ++ dq ++ "changeConfig()" ++ dq ++ " />Show WARNING logs
						</div>
						<div>
							<input type=" ++ dq ++ "checkbox" ++ dq ++ " id=" ++ dq ++ "errorcheck" ++ dq ++ " checked onchange=" ++ dq ++ "changeConfig()" ++ dq ++ " />Show ERROR logs
						</div>
					</div>
					<h2>Sections of this report</h2>
					<ul>
						".

(** Lines 302-304. *)
Definition tplBetween : string :=
  "
					</ul>
					".

(** Lines 328-331. *)
Definition tplClose : string :=
  "
				</body>
			</html>
			".

(** Lines 297-298. *)
Definition tocOpen : string :=
  "
									<li><a href=" ++ dq ++ "#".

(** Line 298. *)
Definition tocMiddle : string :=
  "" ++ dq ++ ">".

(** Lines 298-299. *)
Definition tocClose : string :=
  "</a></li>
								".

(** Lines 308-310. *)
Definition blockOpen : string :=
  "
								<div class=" ++ dq ++ "section" ++ dq ++ ">
									<h2 id=" ++ dq ++ "".

(** Line 310. *)
Definition blockName : string :=
  "" ++ dq ++ " style=" ++ dq ++ "display: inline-block;" ++ dq ++ ">".

(** Lines 310-312. *)
Definition blockStarted : string :=
  "</h2>
									<p style=" ++ dq ++ "display: inline-block; padding-left: 20px;" ++ dq ++ ">(<a href=" ++ dq ++ "#summary" ++ dq ++ ">Return to summary</a>)</p>
									<p>Started at: ".

(** Lines 312-313. *)
Definition blockFinished : string :=
  "</p>
									<p>Finished at: ".

(** Lines 313-314. *)
Definition blockLogs : string :=
  "</p>
									".

(** Lines 323-325. *)
Definition blockClose : string :=
  "
								</div>
							".

(** Lines 318-319. *)
Definition logOpen : string :=
  "
											<div class=" ++ dq ++ "".

(** Line 319. *)
Definition logClass : string :=
  " islog" ++ dq ++ ">".

(** Line 319. *)
Definition logDate : string :=
  " (".

(** Line 319. *)
Definition logValue : string :=
  "): ".

(** Lines 319-320. *)
Definition logClose : string :=
  "</div>
											".

(* ================================================================== *)
(** * The class [Log] *)

Section Logger.
Context {FS : Type} {fsapi : FileSystem FS}.
Variable LocalTZA : Z -> Z.

Local Open Scope js_scope.

(** The format every date of the page and of the entries is shown in. *)
Definition pageFormat : string := "dd/mm/yyyy H:i:s".

(** [new Log(title, description, logsPath)], lines 14-25, run against a
    host given by its disk, its clock and the state of
    [Object.prototype]. *)
Definition constructor (title description logsPath : string)
           (disk : FS) (clock : nat -> Z) (ticks : nat) (polluted : bool)
  : World FS :=
  mkWorld
    (Log.make title description logsPath (mkDate (clock ticks)) None
              JsObject.empty)
    disk clock (S ticks) polluted.

(** One line of the table of contents, lines 297-299. *)
Definition tocLine (key name : string) : string :=
  tocOpen ++ key ++ tocMiddle ++ name ++ tocClose.

(** One entry line, lines 318-320; the three fields read [undefined]
    when [log] is no entry. *)
Definition logLine (log : option Entry.t) : string :=
  match log with
  | Some l =>
      logOpen ++ typeName (Entry.type l) ++ logClass ++
      typeName (Entry.type l) ++ logDate ++ Entry.dateTime l ++ logValue ++
      Entry.value l ++ logClose
  | None =>
      logOpen ++ "undefined" ++ logClass ++ "undefined" ++ logDate ++
      "undefined" ++ logValue ++ "undefined" ++ logClose
  end.

(** The inner loop, lines 314-323. *)
Definition renderLogs (polluted : bool) (section : Sect.t) : string :=
  fold_left (fun logsStr log => logsStr ++ logLine log)
            (arrayForIn polluted (Sect.logs section)) "".

(** One section block, lines 308-325. *)
Definition renderSection (polluted : bool) (section : Sect.t) : string :=
  blockOpen ++ Sect.key section ++ blockName ++ Sect.name section ++
  blockStarted ++ _dateToString LocalTZA (Sect.start section) pageFormat ++
  blockFinished ++ _dateToString LocalTZA (Sect.end_ section) pageFormat ++
  blockLogs ++ renderLogs polluted section ++ blockClose.

(** The first loop, lines 293-302.  A value that is no section record
    has neither [key] nor [name], and both print as [undefined]. *)
Definition renderToc (polluted : bool) (sections : JsObject.t) : string :=
  fold_left
    (fun sectionsStr i =>
       match JsObject.get polluted sections i with
       | JsObject.VSection section =>
           sectionsStr ++ tocLine (Sect.key section) (Sect.name section)
       | _ => sectionsStr ++ tocLine "undefined" "undefined"
       end)
    (JsObject.forIn polluted sections) "".

(** The second loop, lines 304-328.  For a value that is no section
    record [section.start] is [undefined], and [_dateToString] throws on
    its first getter. *)
Definition renderBody (polluted : bool) (sections : JsObject.t)
  : Result string :=
  fold_left
    (fun acc i =>
       match acc with
       | Throw e => Throw e
       | Ok sectionsStr =>
           match JsObject.get polluted sections i with
           | JsObject.VSection section =>
               Ok (sectionsStr ++ renderSection polluted section)
           | _ => Throw TypeError
           end
       end)
    (JsObject.forIn polluted sections) (Ok "").

(** [_render()], lines 182-334.  It reads the instance and changes
    nothing; [this.end] is [null] before the first [save], and
    formatting it throws. *)
Definition _render (polluted : bool) (log : Log.t) : Result string :=
  match Log.end_ log with
  | None => Throw TypeError
  | Some finished =>
      let toc := renderToc polluted (Log.sections log) in
      match renderBody polluted (Log.sections log) with
      | Throw e => Throw e
      | Ok body =>
          Ok (tplOpen ++ Log.title log ++ " - " ++
              _dateToString LocalTZA (Log.start log) pageFormat ++
              tplHead ++ Log.title log ++ tplDescription ++
              Log.description log ++ tplStarted ++
              _dateToString LocalTZA (Log.start log) pageFormat ++
              tplFinished ++ _dateToString LocalTZA finished pageFormat ++
              tplControls ++ toc ++ tplBetween ++ body ++ tplClose)
      end
  end.

(** The directory is created when [existsSync] denies it, lines
    164-172. *)
Definition ensureDirectory (path : string) : M FS unit :=
  found <- onDisk (fun d => (Ok (existsSync path d), d)) ;;
  if found then ret tt else onDisk (mkdirSync path).

(** [_prepareSave()], lines 152-176. *)
Definition _prepareSave : M FS string :=
  now <- newDate ;;
  log <- getThis ;;
  putThis (Log.withEnd now log) ;;
  log <- getThis ;;
  let day := _dateToString LocalTZA (Log.start log) "dd" in
  let month := _dateToString LocalTZA (Log.start log) "mm" in
  let year := _dateToString LocalTZA (Log.start log) "yyyy" in
  let fileName :=
    Log.title log ++ "_" ++
    _dateToString LocalTZA (Log.start log) "yyyymmdd_His" in
  let base := Log.logsPath log in
  ensureDirectory (base ++ "/" ++ year) ;;
  ensureDirectory (base ++ "/" ++ year ++ "/" ++ month) ;;
  ensureDirectory (base ++ "/" ++ year ++ "/" ++ month ++ "/" ++ day) ;;
  let fullFilePath :=
    base ++ "/" ++ year ++ "/" ++ month ++ "/" ++ day ++ "/" ++
    fileName ++ ".html" in
  ret fullFilePath.

(** [save()], lines 111-116. *)
Definition save : M FS unit :=
  fullFilePath <- _prepareSave ;;
  log <- getThis ;;
  polluted <- getPolluted ;;
  match _render polluted log with
  | Throw e => throw e
  | Ok fileContent => onDisk (writeFileSync fullFilePath fileContent)
  end.

Definition getSection (key : string) : M FS JsObject.Value :=
  log <- getThis ;;
  polluted <- getPolluted ;;
  ret (JsObject.get polluted (Log.sections log) key).

Definition putSection (key : string) (section : Sect.t) : M FS unit :=
  log <- getThis ;;
  putThis (Log.withSections (JsObject.set (Log.sections log) key section) log).

(** [createSection(name, key)], lines 32-42.  The literal reads the
    clock twice. *)
Definition createSection (name key : string) : M FS unit :=
  started <- newDate ;;
  ended <- newDate ;;
  putSection key (Sect.make key name started ended NotClosed []) ;;
  save.

(** [closeSection(key)], lines 48-53.  The right-hand side [new Date()]
    is evaluated before the assignment is attempted.
    - [undefined]: the assignment to [section.end] throws.
    - A section record: both fields are written, and the record is the
      one the object holds.
    - [Object.prototype] (the key [__proto__] while no record is
      installed there): the assignment succeeds and gives every object
      an enumerable [end]; then [section.start] is [undefined] and
      [getTime] throws.
    - Any other value: a string or a number refuses the assignment in
      strict mode; a function, a date or an array takes it and then
      fails on [section.start] in the same way.  What was written on
      such an object is read by nothing in the class. *)
Definition closeSection (key : string) : M FS unit :=
  section <- getSection key ;;
  now <- newDate ;;
  match section with
  | JsObject.VSection s => putSection key (Sect.close now s) ;; save
  | JsObject.VObjectPrototype => pollute ;; throw TypeError
  | JsObject.VOther => throw TypeError
  | JsObject.VUndefined => throw TypeError
  end.

(** [_getLogObject(type, value)], lines 101-106. *)
Definition _getLogObject (type : LogType) (value : string) : M FS Entry.t :=
  now <- newDate ;;
  let dateString := _dateToString LocalTZA now pageFormat in
  ret (Entry.make type value dateString).

(** [_pushLog(type, sectionKey, value)], lines 89-93.  Only a section
    record has a [logs] array; on anything else [logs] is [undefined]
    and the call of [push] throws. *)
Definition _pushLog (type : LogType) (sectionKey value : string) : M FS unit :=
  log <- _getLogObject type value ;;
  section <- getSection sectionKey ;;
  match section with
  | JsObject.VSection s => putSection sectionKey (Sect.push log s) ;; save
  | _ => throw TypeError
  end.

Definition info (sectionKey value : string) : M FS unit :=
  _pushLog INFO sectionKey value.

Definition error (sectionKey value : string) : M FS unit :=
  _pushLog ERROR sectionKey value.

Definition debug (sectionKey value : string) : M FS unit :=
  _pushLog DEBUG sectionKey value.

(** [_logException(type, message)], lines 139-146. *)
Definition _logException (type : LogType) (message : string) : M FS unit :=
  section <- getSection "EXCEPTIONS" ;;
  match section with
  | JsObject.VUndefined => createSection "Unhandled exceptions" "EXCEPTIONS"
  | _ => ret tt
  end ;;
  _pushLog type "EXCEPTIONS" message ;;
  closeSection "EXCEPTIONS".

Definition errorException (exceptionMessage : string) : M FS unit :=
  _logException ERROR exceptionMessage.

Definition debugException (exceptionMessage : string) : M FS unit :=
  _logException DEBUG exceptionMessage.

(** ** Sequences of calls *)

(** A call of a public method. *)
Inductive Call : Set :=
  | CreateSection (name key : string)
  | CloseSection (key : string)
  | Info (sectionKey value : string)
  | Error_ (sectionKey value : string)
  | Debug (sectionKey value : string)
  | ErrorException (exceptionMessage : string)
  | DebugException (exceptionMessage : string)
  | Save.

Definition call (c : Call) : M FS unit :=
  match c with
  | CreateSection name key => createSection name key
  | CloseSection key => closeSection key
  | Info k v => info k v
  | Error_ k v => error k v
  | Debug k v => debug k v
  | ErrorException m => errorException m
  | DebugException m => debugException m
  | Save => save
  end.

(** The calls are made one after the other by a caller that catches
    what they throw. *)
Fixpoint run (cs : list Call) (w : World FS) : World FS :=
  match cs with
  | [] => w
  | c :: cs' => run cs' (snd (call c w))
  end.

End Logger.

(* ================================================================== *)
(** * A file system in memory

    Directories as a list of paths and files as a list of paths with their
    contents.  [mkdirSync] refuses a path that exists; nothing else
    fails.  This is laxer than Node's [fs], which also refuses a
    directory or a file whose parent directory is missing: the theorems
    are stated for every file system, and this one serves the examples
    only. *)

Module MemFs.
Record t : Set := make {
    dirs : list string;
    files : list (string * string)
  }.

Definition empty : t := make [] [].

Definition exists_ (path : string) (d : t) : bool :=
  existsb (String.eqb path) (dirs d) ||
  existsb (fun f => String.eqb path (fst f)) (files d).

Definition mkdir (path : string) (d : t) : Result unit * t :=
  if exists_ path d then (Throw SystemError, d)
  else (Ok tt, make (dirs d ++ [path]) (files d)).

Definition write (path content : string) (d : t) : Result unit * t :=
  (Ok tt,
   make (dirs d)
        ((path, content) ::
         filter (fun f => negb (String.eqb path (fst f))) (files d))).

Definition read (path : string) (d : t) : option string :=
  match filter (fun f => String.eqb path (fst f)) (files d) with
  | (_, c) :: _ => Some c
  | [] => None
  end.
End MemFs.

#[export] Instance memFs : FileSystem MemFs.t := {
  existsSync := MemFs.exists_;
  mkdirSync := MemFs.mkdir;
  writeFileSync := MemFs.write
}.

(** A clock that advances by one second at every reading, starting at
    2024-03-05T09:07:03 UTC. *)
Definition sampleClock (n : nat) : Z := Z.of_nat n * 1000 + 1709629623000.

(** The instance of the scenario of the specification. *)
Definition sampleWorld : World MemFs.t :=
  constructor "Import" "desc" "/tmp/logs" MemFs.empty sampleClock 0 false.

(* ================================================================== *)
(** * Definitions the statements use *)

(** The six placeholders of the formatter, in the order it handles them. *)
Definition tokens : list string := ["dd"; "mm"; "yyyy"; "H"; "i"; "s"].

(** A number zero-padded to two digits. *)
Definition pad2 (n : Z) : string :=
  if n <? 10 then "0" ++ ofNumber n else ofNumber n.

(** Each placeholder with the text that stands for it at a given date. *)
Definition tokenValues (LocalTZA : Z -> Z) (d : Date) : list (string * string) :=
  [("dd", pad2 (getDate LocalTZA d));
   ("mm", pad2 (getMonth LocalTZA d + 1));
   ("yyyy", ofNumber (getFullYear LocalTZA d));
   ("H", ofNumber (getHours LocalTZA d));
   ("i", ofNumber (getMinutes LocalTZA d));
   ("s", ofNumber (getSeconds LocalTZA d))].

(** The letter a placeholder is made of. *)
Definition tokenLetter (tok : string) : ascii :=
  match tok with
  | String c _ => c
  | EmptyString => "000"%char
  end.

Definition isTokenLetter (c : ascii) : bool :=
  existsb (Ascii.eqb c) ["d"; "m"; "y"; "H"; "i"; "s"]%char.

(** No character of [s] is a letter of a placeholder. *)
Fixpoint tokenFree (s : string) : bool :=
  match s with
  | EmptyString => true
  | String c s' => negb (isTokenLetter c) && tokenFree s'
  end.

(** [pat] occurs in [s] at offset [length a] and nowhere before. *)
Definition FirstOccurrence (pat s a b : string) : Prop :=
  s = a ++ pat ++ b /\
  forall a' b', s = a' ++ pat ++ b' -> (String.length a <= String.length a')%nat.

(** The characters of a decimal numeral. *)
Definition isNumeralChar (c : ascii) : bool :=
  existsb (Ascii.eqb c) ["0"; "1"; "2"; "3"; "4"; "5"; "6"; "7"; "8"; "9"; "-"]%char.

Fixpoint isNumeral (s : string) : bool :=
  match s with
  | EmptyString => true
  | String c s' => isNumeralChar c && isNumeral s'
  end.

(** Length of the run of [c] that [s] starts with, and of the longest run
    of [c] in [s]. *)
Fixpoint run_ (c : ascii) (s : string) : nat :=
  match s with
  | EmptyString => O
  | String a s' => if Ascii.eqb a c then S (run_ c s') else O
  end.

Fixpoint maxRun (c : ascii) (s : string) : nat :=
  match s with
  | EmptyString => O
  | String a s' => Nat.max (run_ c s) (maxRun c s')
  end.

(** [p] holds of the [2^k] integers from [lo] on. *)
Fixpoint allFrom (k : nat) (lo : Z) (p : Z -> bool) : bool :=
  match k with
  | O => p lo
  | S k' => allFrom k' lo p && allFrom k' (lo + 2 ^ Z.of_nat k') p
  end.

Definition pad2HasTwoDigits (n : Z) : bool :=
  (100 <=? n) || (String.length (pad2 n) =? 2)%nat.

Definition oneDigitBelowTen (n : Z) : bool :=
  (10 <=? n) || (String.length (ofNumber n) =? 1)%nat.

(** Every character of [s] is [c]. *)
Fixpoint allOf (c : ascii) (s : string) : bool :=
  match s with
  | EmptyString => true
  | String a s' => Ascii.eqb a c && allOf c s'
  end.

(** The sample instance after [createSection("Phase 1", "P1")]. *)
Definition sampleOpen : World MemFs.t :=
  Eval vm_compute in run utc [CreateSection "Phase 1" "P1"] sampleWorld.

(** Number of places of [s] where [pat] starts. *)
Fixpoint occurrences (pat s : string) : nat :=
  ((if startsWith pat s then 1 else 0) +
   match s with
   | EmptyString => 0
   | String _ s' => occurrences pat s'
   end)%nat.

(** Every entry the object holds: those of the own sections and those of
    a record installed as prototype. *)
Definition recordedEntries (o : JsObject.t) : list Entry.t :=
  (flat_map (fun r => Sect.logs (snd r)) (JsObject.own o) ++
   match JsObject.proto o with
   | Some p => Sect.logs p
   | None => []
   end)%list.

(* ================================================================== *)
(** * The methods seen from outside *)

Section Views.
Context {FS : Type} {fsapi : FileSystem FS}.
Variable LocalTZA : Z -> Z.

Local Open Scope js_scope.

(** [w'] differs from [w] by the disk at most. *)
Definition SameButDisk (w w' : World FS) : Prop :=
  this w' = this w /\ clock w' = clock w /\ ticks w' = ticks w /\
  objectPrototypeEnd w' = objectPrototypeEnd w.

(** What a world is, the disk apart. *)
Definition Shape (w : World FS) (l : Log.t) (c : nat -> Z) (n : nat) (p : bool)
  : Prop :=
  this w = l /\ clock w = c /\ ticks w = n /\ objectPrototypeEnd w = p.

(** [this.sections[key]] in a world. *)
Definition lookup (w : World FS) (key : string) : JsObject.Value :=
  JsObject.get (objectPrototypeEnd w) (Log.sections (this w)) key.

(** The path [_prepareSave] returns, as a function of the instance. *)
Definition filePath (log : Log.t) : string :=
  Log.logsPath log ++ "/" ++
  _dateToString LocalTZA (Log.start log) "yyyy" ++ "/" ++
  _dateToString LocalTZA (Log.start log) "mm" ++ "/" ++
  _dateToString LocalTZA (Log.start log) "dd" ++ "/" ++
  (Log.title log ++ "_" ++
   _dateToString LocalTZA (Log.start log) "yyyymmdd_His") ++ ".html".

(** The path as the specification words it: the time of day in the file
    name in two digits each. *)
Definition specFilePath (log : Log.t) : string :=
  let d := Log.start log in
  Log.logsPath log ++ "/" ++
  ofNumber (getFullYear LocalTZA d) ++ "/" ++
  pad2 (getMonth LocalTZA d + 1) ++ "/" ++
  pad2 (getDate LocalTZA d) ++ "/" ++
  Log.title log ++ "_" ++
  ofNumber (getFullYear LocalTZA d) ++ pad2 (getMonth LocalTZA d + 1) ++
  pad2 (getDate LocalTZA d) ++ "_" ++
  pad2 (getHours LocalTZA d) ++ pad2 (getMinutes LocalTZA d) ++
  pad2 (getSeconds LocalTZA d) ++ ".html".

(** The instance as [save] leaves it. *)
Definition saved (w : World FS) : Log.t :=
  Log.withEnd (mkDate (clock w (ticks w))) (this w).

(** The three directories and the returned path, lines 163-175. *)
Definition directories (log : Log.t) (fullFilePath : string) : M FS string :=
  let day := _dateToString LocalTZA (Log.start log) "dd" in
  let month := _dateToString LocalTZA (Log.start log) "mm" in
  let year := _dateToString LocalTZA (Log.start log) "yyyy" in
  let base := Log.logsPath log in
  ensureDirectory (base ++ "/" ++ year) ;;
  ensureDirectory (base ++ "/" ++ year ++ "/" ++ month) ;;
  ensureDirectory (base ++ "/" ++ year ++ "/" ++ month ++ "/" ++ day) ;;
  ret fullFilePath.

(** The world [createSection] hands to [save]. *)
Definition created (name key : string) (w : World FS) : World FS :=
  mkWorld
    (Log.withSections
       (JsObject.set (Log.sections (this w)) key
          (Sect.make key name (mkDate (clock w (ticks w)))
                     (mkDate (clock w (S (ticks w)))) NotClosed []))
       (this w))
    (disk w) (clock w) (S (S (ticks w))) (objectPrototypeEnd w).

(** The world [closeSection] hands to [save] when it found a record. *)
Definition closed (key : string) (s : Sect.t) (w : World FS) : World FS :=
  mkWorld
    (Log.withSections
       (JsObject.set (Log.sections (this w)) key
          (Sect.close (mkDate (clock w (ticks w))) s))
       (this w))
    (disk w) (clock w) (S (ticks w)) (objectPrototypeEnd w).

(** The entry [_getLogObject] builds from the clock of [w]. *)
Definition entryAt (type : LogType) (value : string) (w : World FS) : Entry.t :=
  Entry.make type value
             (_dateToString LocalTZA (mkDate (clock w (ticks w))) pageFormat).

(** The world [_pushLog] hands to [save] when it found a record. *)
Definition pushed (type : LogType) (key value : string) (s : Sect.t)
           (w : World FS) : World FS :=
  mkWorld
    (Log.withSections
       (JsObject.set (Log.sections (this w)) key
          (Sect.push (entryAt type value w) s))
       (this w))
    (disk w) (clock w) (S (ticks w)) (objectPrototypeEnd w).

(** ** The page, as the specification describes it *)

Definition joinAll (l : list string) : string := fold_right append "" l.

(** One line per entry: its type as class and as text, its date, its
    value. *)
Definition entryLine (e : Entry.t) : string :=
  logOpen ++ typeName (Entry.type e) ++ logClass ++
  typeName (Entry.type e) ++ logDate ++ Entry.dateTime e ++ logValue ++
  Entry.value e ++ logClose.

(** One block per section: anchor, name, both dates, then the lines of
    its entries in the order of [logs]. *)
Definition sectionBlock (s : Sect.t) : string :=
  blockOpen ++ Sect.key s ++ blockName ++ Sect.name s ++
  blockStarted ++ _dateToString LocalTZA (Sect.start s) pageFormat ++
  blockFinished ++ _dateToString LocalTZA (Sect.end_ s) pageFormat ++
  blockLogs ++ joinAll (map entryLine (Sect.logs s)) ++ blockClose.

Definition tocEntry (s : Sect.t) : string :=
  tocLine (Sect.key s) (Sect.name s).

(** The whole page for the sections [shown], in that order, with
    [block] for the block of a section. *)
Definition pageWith (block : Sect.t -> string) (log : Log.t)
           (finished : Date) (shown : list Sect.t) : string :=
  tplOpen ++ Log.title log ++ " - " ++
  _dateToString LocalTZA (Log.start log) pageFormat ++
  tplHead ++ Log.title log ++ tplDescription ++
  Log.description log ++ tplStarted ++
  _dateToString LocalTZA (Log.start log) pageFormat ++
  tplFinished ++ _dateToString LocalTZA finished pageFormat ++
  tplControls ++ joinAll (map tocEntry shown) ++ tplBetween ++
  joinAll (map block shown) ++ tplClose.

Definition page (log : Log.t) (finished : Date) (shown : list Sect.t)
  : string :=
  pageWith sectionBlock log finished shown.

(** The section records the loops of [_render] meet, in the order they
    meet them. *)
Definition selectSection (polluted : bool) (o : JsObject.t) (i : string)
  : list Sect.t :=
  match JsObject.get polluted o i with
  | JsObject.VSection s => [s]
  | _ => []
  end.

Definition shownSections (polluted : bool) (o : JsObject.t) : list Sect.t :=
  flat_map (selectSection polluted o) (JsObject.forIn polluted o).

Definition isSection (v : JsObject.Value) : bool :=
  match v with
  | JsObject.VSection _ => true
  | _ => false
  end.

(** ** Keys named by a call *)

(** One [createSection] per pair of a name and a key. *)
Definition creations (nks : list (string * string)) : list Call :=
  map (fun nk => CreateSection (fst nk) (snd nk)) nks.

(** The key a call creates a section under. *)
Definition creates (c : Call) (k : string) : bool :=
  match c with
  | CreateSection _ key => String.eqb key k
  | ErrorException _ | DebugException _ => String.eqb "EXCEPTIONS" k
  | _ => false
  end.

(** The key a call reads a section under. *)
Definition reads (c : Call) (k : string) : bool :=
  match c with
  | CloseSection key | Info key _ | Error_ key _ | Debug key _ =>
      String.eqb key k
  | ErrorException _ | DebugException _ => String.eqb "EXCEPTIONS" k
  | _ => false
  end.

Definition names (c : Call) (k : string) : bool := creates c k || reads c k.


(** ** What the methods can do to the instance

    A step relation on the instance and the flag of [Object.prototype];
    [C] holds of the keys a section may be created under and [U] of the
    keys a section may be read and changed under. *)
Inductive Trans (C U : string -> Prop)
    : Log.t * bool -> Log.t * bool -> Prop :=
  | TEnd l p e : Trans C U (l, p) (Log.withEnd e l, p)
  | TCreate l p name key t1 t2 :
      C key ->
      Trans C U (l, p)
            (Log.withSections
               (JsObject.set (Log.sections l) key
                             (Sect.make key name t1 t2 NotClosed [])) l, p)
  | TClose l p key s now :
      U key ->
      JsObject.get p (Log.sections l) key = JsObject.VSection s ->
      Trans C U (l, p)
            (Log.withSections
               (JsObject.set (Log.sections l) key (Sect.close now s)) l, p)
  | TPush l p key s e :
      U key ->
      JsObject.get p (Log.sections l) key = JsObject.VSection s ->
      Trans C U (l, p)
            (Log.withSections
               (JsObject.set (Log.sections l) key (Sect.push e s)) l, p)
  | TPollute l p :
      U "__proto__" ->
      JsObject.get p (Log.sections l) "__proto__" = JsObject.VObjectPrototype ->
      Trans C U (l, p) (l, true)
  | TRefl x : Trans C U x x
  | TTrans x y z : Trans C U x y -> Trans C U y z -> Trans C U x z.

(** The own keys stay distinct, and none is [__proto__]. *)
Definition WellFormed (o : JsObject.t) : Prop :=
  NoDup (map fst (JsObject.own o)) /\
  JsObject.assoc "__proto__" (JsObject.own o) = None.

(** A file system that creates every directory that does not exist and
    writes every file. *)
Definition Accepting : Prop :=
  (forall path d, existsSync path d = false ->
                  fst (mkdirSync path d) = Ok tt) /\
  (forall path content d, fst (writeFileSync path content d) = Ok tt).

Definition view (w : World FS) : Log.t * bool :=
  (this w, objectPrototypeEnd w).

(** A world whose [this.sections] has its first prototype and whose
    [Object.prototype] is untouched. *)
Definition Plain (w : World FS) : Prop :=
  JsObject.proto (Log.sections (this w)) = None /\
  objectPrototypeEnd w = false.

End Views.

(* ================================================================== *)
(** * Further views of the instance *)

(** A disk with nothing on it that refuses every write. *)
Definition refusingFs : FileSystem unit := {|
  existsSync := fun _ _ => false;
  mkdirSync := fun _ d => (Throw SystemError, d);
  writeFileSync := fun _ _ d => (Throw SystemError, d)
|}.

Section Coverage.
Variable LocalTZA : Z -> Z.

(** The three directories [_prepareSave] makes sure of, lines 164-172. *)
Definition yearDirectory (log : Log.t) : string :=
  Log.logsPath log ++ "/" ++ _dateToString LocalTZA (Log.start log) "yyyy".

Definition monthDirectory (log : Log.t) : string :=
  Log.logsPath log ++ "/" ++ _dateToString LocalTZA (Log.start log) "yyyy" ++
  "/" ++ _dateToString LocalTZA (Log.start log) "mm".

Definition dayDirectory (log : Log.t) : string :=
  Log.logsPath log ++ "/" ++ _dateToString LocalTZA (Log.start log) "yyyy" ++
  "/" ++ _dateToString LocalTZA (Log.start log) "mm" ++
  "/" ++ _dateToString LocalTZA (Log.start log) "dd".

End Coverage.

(** Every section record the object holds: the own ones and the one
    installed as prototype. *)
Definition records (o : JsObject.t) : list Sect.t :=
  (map snd (JsObject.own o) ++
   match JsObject.proto o with
   | Some p => [p]
   | None => []
   end)%list.

(** A clock that never goes back. *)
Definition Monotone (c : nat -> Z) : Prop :=
  forall i j : nat, (i <= j)%nat -> c i <= c j.

(** The dates of a section are in order and not after [bound], and its
    elapsed time, once set, is the distance between them. *)
Definition Timely (bound : Z) (s : Sect.t) : Prop :=
  getTime (Sect.start s) <= getTime (Sect.end_ s) /\
  getTime (Sect.end_ s) <= bound /\
  (Sect.elapsed s = NotClosed \/
   Sect.elapsed s =
     Millis (getTime (Sect.end_ s) - getTime (Sect.start s))).

(** A world whose clock never goes back and whose sections all have
    their dates in order, none after the coming reading of the clock. *)
Definition Ordered {FS : Type} (w : World FS) : Prop :=
  Monotone (clock w) /\
  Forall (Timely (clock w (ticks w))) (records (Log.sections (this w))).

(** [Q], told the clock and the number of readings taken, holds of every
    section record of a world. *)
Definition Everywhere {FS : Type}
           (Q : (nat -> Z) -> nat -> Sect.t -> Prop) (w : World FS) : Prop :=
  Forall (Q (clock w) (ticks w)) (records (Log.sections (this w))).

(** The numbers of [ns] grow strictly, and none is below [lo]. *)
Fixpoint increasing (lo : nat) (ns : list nat) : Prop :=
  match ns with
  | [] => True
  | n :: ns' => (lo <= n)%nat /\ increasing (S n) ns'
  end.

(** The entries of a section carry, in their order, the dates of
    readings of the clock taken one after the other, all among the first
    [bound] readings. *)
Definition Stamped (LocalTZA : Z -> Z) (c : nat -> Z) (bound : nat)
           (s : Sect.t) : Prop :=
  exists ns,
    map Entry.dateTime (Sect.logs s) =
      map (fun n => _dateToString LocalTZA (mkDate (c n)) pageFormat) ns /\
    increasing 0 ns /\
    Forall (fun n => (n < bound)%nat) ns.

(** Every record is kept under the key it carries. *)
Definition Keyed (o : JsObject.t) : Prop :=
  (forall k s, JsObject.assoc k (JsObject.own o) = Some s -> Sect.key s = k) /\
  (forall p, JsObject.proto o = Some p -> Sect.key p = "__proto__").

(** [l] is in ascending order. *)
Fixpoint ascending (l : list N) : Prop :=
  match l with
  | [] => True
  | a :: t =>
      match t with
      | [] => True
      | b :: _ => (a <= b)%N
      end /\ ascending t
  end.

(** The number an array index stands for; 0 for any other key. *)
Definition indexOf (k : string) : N :=
  match JsObject.arrayIndex k with
  | Some n => n
  | None => 0%N
  end.

(** The call is a [createSection] under the key [k]. *)
Definition resets (c : Call) (k : string) : bool :=
  match c with
  | CreateSection _ key => String.eqb key k
  | _ => false
  end.

(** An instance as the constructor leaves it but for its sections, started
    at [start]. *)
Definition startedAt (title description logsPath : string) (start : Z)
  : Log.t :=
  Log.make title description logsPath (mkDate start) None JsObject.empty.

(* ================================================================== *)
(** * The journal of a sequence of calls

    What a sequence of calls records, told without the instance, as the
    specification describes the methods: [createSection] opens a section
    with no entry under its key, anew when the key is taken; [info],
    [error] and [debug] add an entry to the section of their key when
    there is one and record nothing otherwise; [closeSection] and [save]
    record nothing.  The exception helpers are left out: what they record
    depends on the file system. *)

Module Journal.

Definition t : Type := list (string * list (LogType * string)).

Fixpoint find (k : string) (j : t) : option (list (LogType * string)) :=
  match j with
  | [] => None
  | (k', l) :: j' => if String.eqb k' k then Some l else find k j'
  end.

(** The entries of a section are replaced where the section stands; a
    new section comes last. *)
Fixpoint put (k : string) (l : list (LogType * string)) (j : t) : t :=
  match j with
  | [] => [(k, l)]
  | (k', l') :: j' =>
      if String.eqb k' k then (k, l) :: j' else (k', l') :: put k l j'
  end.

Definition add (type : LogType) (k v : string) (j : t) : t :=
  match find k j with
  | Some l => put k (l ++ [(type, v)]) j
  | None => j
  end.

Definition record (j : t) (c : Call) : t :=
  match c with
  | CreateSection _ key => put key [] j
  | Info key v => add INFO key v j
  | Error_ key v => add ERROR key v j
  | Debug key v => add DEBUG key v j
  | CloseSection _ | Save | ErrorException _ | DebugException _ => j
  end.

Definition after (cs : list Call) : t := fold_left record cs [].

End Journal.

(** A call other than the exception helpers. *)
Definition isBasic (c : Call) : bool :=
  match c with
  | ErrorException _ | DebugException _ => false
  | _ => true
  end.

(** The entries of a record, by type and value. *)
Definition entriesOf (s : Sect.t) : list (LogType * string) :=
  map (fun e => (Entry.type e, Entry.value e)) (Sect.logs s).

(** The own sections of the object as a journal. *)
Definition told (o : JsObject.t) : Journal.t :=
  map (fun r => (fst r, entriesOf (snd r))) (JsObject.own o).

(** A section as the page shows it: its anchor and its entries. *)
Definition summary (s : Sect.t) : string * list (LogType * string) :=
  (Sect.key s, entriesOf s).

(** The proofs below never look inside the formatter or the text of the
    page unless they ask for it. *)
Arguments _dateToString : simpl never.
Global Opaque tplOpen tplHead tplDescription tplStarted tplFinished
   tplControls tplBetween tplClose tocOpen tocMiddle tocClose blockOpen
   blockName blockStarted blockFinished blockLogs blockClose logOpen
   logClass logDate logValue logClose.

(* ================================================================== *)
(** * Facts about strings *)

Section StringFacts.

Lemma append_nil_r (s : string) : s ++ "" = s.
Proof. induction s as [|c s IH]; simpl; [reflexivity | now rewrite IH]. Qed.

Lemma append_assoc (a b c : string) : (a ++ b) ++ c = a ++ b ++ c.
Proof. induction a as [|x a IH]; simpl; [reflexivity | now rewrite IH]. Qed.

Lemma length_append (a b : string) :
  String.length (a ++ b) = (String.length a + String.length b)%nat.
Proof. induction a as [|x a IH]; simpl; [reflexivity | now rewrite IH]. Qed.

Lemma startsWith_append (pat s : string) : startsWith pat (pat ++ s) = true.
Proof.
  induction pat as [|c pat IH]; simpl; [reflexivity|].
  now rewrite Ascii.eqb_refl, IH.
Qed.

Lemma drop_append (pat s : string) : drop (String.length pat) (pat ++ s) = s.
Proof. induction pat as [|c pat IH]; simpl; [now destruct s | exact IH]. Qed.

Lemma startsWith_split (pat s : string) :
  startsWith pat s = true -> s = pat ++ drop (String.length pat) s.
Proof.
  revert s; induction pat as [|c pat IH]; intros s H; simpl in *.
  - now destruct s.
  - destruct s as [|b s]; [discriminate|].
    apply andb_prop in H as [Hc Hs].
    apply Ascii.eqb_eq in Hc; subst b.
    simpl. f_equal. now apply IH.
Qed.

Lemma replace_unfold (pat rep s : string) :
  replace pat rep s =
  if startsWith pat s then rep ++ drop (String.length pat) s
  else match s with
       | EmptyString => EmptyString
       | String c s' => String c (replace pat rep s')
       end.
Proof. destruct s; reflexivity. Qed.

Lemma replace_here (pat rep s : string) :
  replace pat rep (pat ++ s) = rep ++ s.
Proof. now rewrite replace_unfold, startsWith_append, drop_append. Qed.

Lemma count_append (c : ascii) (a b : string) :
  count c (a ++ b) = (count c a + count c b)%nat.
Proof. induction a as [|x a IH]; simpl; [reflexivity | rewrite IH; lia]. Qed.

(** A pattern whose first letter is absent from a prefix is searched
    after that prefix. *)
Lemma replace_skip (c : ascii) (pat rep a s : string) :
  count c a = O ->
  replace (String c pat) rep (a ++ s) = a ++ replace (String c pat) rep s.
Proof.
  induction a as [|x a IH]; intros H; [reflexivity|].
  simpl in H.
  destruct (Ascii.eqb x c) eqn:E; [discriminate|].
  rewrite replace_unfold. simpl. rewrite Ascii.eqb_sym, E. simpl.
  now rewrite IH.
Qed.

Lemma replace_absent_letter (c : ascii) (pat rep s : string) :
  count c s = O -> replace (String c pat) rep s = s.
Proof.
  intros H.
  rewrite <- (append_nil_r s) at 1.
  rewrite replace_skip by assumption.
  simpl. apply append_nil_r.
Qed.

(** [replace] changes the leftmost occurrence and nothing else. *)
Lemma replace_first_occurrence (pat rep s a b : string) :
  FirstOccurrence pat s a b -> replace pat rep s = a ++ rep ++ b.
Proof.
  revert s; induction a as [|c a IH]; intros s [Hs Hmin].
  - simpl in Hs; subst s. simpl. apply replace_here.
  - subst s. rewrite replace_unfold.
    destruct (startsWith pat (String c a ++ pat ++ b)) eqn:E.
    + apply startsWith_split in E.
      specialize (Hmin "" _ E). simpl in Hmin. lia.
    + simpl. f_equal. apply IH. split; [reflexivity|].
      intros a' b' H.
      specialize (Hmin (String c a') b'). simpl in Hmin.
      rewrite H in Hmin. specialize (Hmin eq_refl). lia.
Qed.

Lemma occursIn_split (pat s : string) :
  occursIn pat s = true -> exists a b, s = a ++ pat ++ b.
Proof.
  induction s as [|c s IH]; intros H.
  - destruct pat; [|discriminate]. now exists "", "".
  - simpl in H. apply orb_prop in H as [H|H].
    + exists "", (drop (String.length pat) (String c s)).
      now apply startsWith_split.
    + destruct (IH H) as (a & b & ->). now exists (String c a), b.
Qed.

Lemma split_occursIn (pat a b : string) : occursIn pat (a ++ pat ++ b) = true.
Proof.
  induction a as [|c a IH].
  - simpl. destruct (pat ++ b) eqn:E; simpl.
    + destruct pat; [reflexivity | discriminate].
    + rewrite <- E, startsWith_append. reflexivity.
  - simpl. rewrite IH. apply orb_true_r.
Qed.

Lemma replace_absent (pat rep s : string) :
  occursIn pat s = false -> replace pat rep s = s.
Proof.
  induction s as [|c s IH]; intros H.
  - destruct pat; [discriminate | reflexivity].
  - simpl in H. apply orb_false_elim in H as [H1 H2].
    rewrite replace_unfold, H1. f_equal. now apply IH.
Qed.

(** Character counts across a replacement. *)
Lemma count_replace (c : ascii) (pat rep s : string) :
  occursIn pat s = true ->
  (count c (replace pat rep s) + count c pat = count c s + count c rep)%nat.
Proof.
  induction s as [|x s IH]; intros H.
  - destruct pat; [|discriminate]. simpl. rewrite count_append. simpl. lia.
  - destruct (startsWith pat (String x s)) eqn:E.
    + pose proof (startsWith_split _ _ E) as Hs.
      rewrite replace_unfold, E. rewrite Hs at 2.
      rewrite !count_append. lia.
    + rewrite replace_unfold, E.
      change (occursIn pat (String x s))
        with (startsWith pat (String x s) || occursIn pat s) in H.
      rewrite E in H. simpl in H. specialize (IH H).
      simpl. lia.
Qed.

Lemma count_replace_other (c : ascii) (pat rep s : string) :
  count c pat = O -> count c rep = O ->
  count c (replace pat rep s) = count c s.
Proof.
  intros Hp Hr.
  destruct (occursIn pat s) eqn:E.
  - pose proof (count_replace c pat rep s E). lia.
  - now rewrite replace_absent.
Qed.

End StringFacts.

(* ================================================================== *)
(** * Facts about numerals and dates *)

Section NumeralFacts.

Lemma allFrom_spec (k : nat) (p : Z -> bool) :
  forall lo, allFrom k lo p = true ->
  forall z, lo <= z < lo + 2 ^ Z.of_nat k -> p z = true.
Proof.
  induction k as [|k IH]; intros lo H z Hz.
  - simpl in *. replace z with lo by lia. exact H.
  - simpl allFrom in H. apply andb_prop in H as [H1 H2].
    rewrite Nat2Z.inj_succ, Z.pow_succ_r in Hz by lia.
    destruct (Z_lt_le_dec z (lo + 2 ^ Z.of_nat k)) as [Hlt|Hge].
    + apply (IH lo H1). lia.
    + apply (IH _ H2). lia.
Qed.

Lemma isNumeral_uint (u : Decimal.uint) :
  isNumeral (NilEmpty.string_of_uint u) = true.
Proof. induction u; simpl; auto. Qed.

Lemma isNumeral_ofNumber (n : Z) : isNumeral (ofNumber n) = true.
Proof.
  unfold ofNumber.
  destruct (Z.to_int n) as [u|u]; simpl.
  - destruct u; try reflexivity; apply (isNumeral_uint (_ u)).
  - destruct u; try reflexivity; apply (isNumeral_uint (_ u)).
Qed.

Lemma ofNumber_not_empty (n : Z) : ofNumber n <> "".
Proof.
  unfold ofNumber.
  destruct (Z.to_int n) as [u|u]; simpl; [destruct u|]; discriminate.
Qed.

Lemma isNumeral_append (a b : string) :
  isNumeral (a ++ b) = isNumeral a && isNumeral b.
Proof.
  induction a as [|c a IH]; simpl; [reflexivity|].
  now rewrite IH, andb_assoc.
Qed.

Lemma isNumeral_pad2 (n : Z) : isNumeral (pad2 n) = true.
Proof.
  unfold pad2. destruct (n <? 10); [|apply isNumeral_ofNumber].
  simpl. apply isNumeral_ofNumber.
Qed.

Lemma pad2_not_empty (n : Z) : pad2 n <> "".
Proof.
  unfold pad2. destruct (n <? 10); [discriminate | apply ofNumber_not_empty].
Qed.

(** A numeral holds no letter. *)
Lemma count_numeral (c : ascii) (s : string) :
  isNumeralChar c = false -> isNumeral s = true -> count c s = O.
Proof.
  intros Hc. induction s as [|x s IH]; intros H; [reflexivity|].
  simpl in *. apply andb_prop in H as [Hx Hs].
  destruct (Ascii.eqb x c) eqn:E.
  - apply Ascii.eqb_eq in E; subst x. congruence.
  - now apply IH.
Qed.

Lemma pad2_length (n : Z) : 0 <= n < 100 -> String.length (pad2 n) = 2%nat.
Proof.
  intros Hn.
  assert (H : allFrom 7 0 pad2HasTwoDigits = true) by (vm_compute; reflexivity).
  pose proof (allFrom_spec _ _ _ H n) as Hp.
  unfold pad2HasTwoDigits in Hp.
  assert (Hr : 0 <= n < 0 + 2 ^ Z.of_nat 7) by (simpl; lia).
  specialize (Hp Hr). apply orb_prop in Hp as [Hp|Hp].
  - apply Z.leb_le in Hp. lia.
  - now apply Nat.eqb_eq in Hp.
Qed.

Lemma ofNumber_one_digit (n : Z) :
  0 <= n < 10 -> String.length (ofNumber n) = 1%nat.
Proof.
  intros Hn.
  assert (H : allFrom 4 0 oneDigitBelowTen = true) by (vm_compute; reflexivity).
  pose proof (allFrom_spec _ _ _ H n) as Hp.
  unfold oneDigitBelowTen in Hp.
  assert (Hr : 0 <= n < 0 + 2 ^ Z.of_nat 4) by (simpl; lia).
  specialize (Hp Hr). apply orb_prop in Hp as [Hp|Hp].
  - apply Z.leb_le in Hp. lia.
  - now apply Nat.eqb_eq in Hp.
Qed.

End NumeralFacts.

Section DateFacts.
Variable LocalTZA : Z -> Z.

Lemma dayOfYear_range (doe : Z) :
  0 <= doe < 146097 -> 0 <= dayOfYear doe <= 365.
Proof.
  intros H. unfold dayOfYear, yearOfEra.
  Z.div_mod_to_equations. lia.
Qed.

Lemma monthIndex_range (doy : Z) :
  0 <= doy <= 365 ->
  0 <= monthIndex doy <= 11 /\
  1 <= doy - (153 * monthIndex doy + 2) / 5 + 1 <= 31.
Proof.
  intros H. unfold monthIndex.
  Z.div_mod_to_equations. lia.
Qed.

Lemma civilFromDays_range (d : Z) :
  1 <= civilDay (civilFromDays d) <= 31 /\
  1 <= civilMonth (civilFromDays d) <= 12.
Proof.
  assert (Hr : 0 <= dayOfEra d < 146097)
    by (unfold dayOfEra; apply Z.mod_pos_bound; lia).
  pose proof (monthIndex_range _ (dayOfYear_range _ Hr)) as [Hm Hd].
  unfold civilFromDays. cbn [civilDay civilMonth].
  split; [exact Hd|].
  destruct (monthIndex (dayOfYear (dayOfEra d)) <? 10) eqn:E;
    [apply Z.ltb_lt in E | apply Z.ltb_ge in E]; lia.
Qed.

(** The year computed is the one ECMA-262 defines: the last year that
    starts no later than the day. *)
Lemma civilYear_spec (d : Z) :
  DayFromYear (civilYear (civilFromDays d)) <= d
  < DayFromYear (civilYear (civilFromDays d) + 1).
Proof.
  unfold civilFromDays. cbn [civilYear].
  unfold DayFromYear, dayOfYear, yearOfEra, monthIndex, dayOfEra.
  match goal with
  | |- context [if ?a <? 10 then _ else _] =>
      destruct (Z.ltb_spec a 10) as [Hm|Hm]
  end.
  - match goal with
    | |- context [if ?a <=? 2 then _ else _] =>
        destruct (Z.leb_spec a 2) as [Hy|Hy]
    end; Z.div_mod_to_equations; lia.
  - match goal with
    | |- context [if ?a <=? 2 then _ else _] =>
        destruct (Z.leb_spec a 2) as [Hy|Hy]
    end; Z.div_mod_to_equations; lia.
Qed.

Lemma getDate_range (d : Date) : 1 <= getDate LocalTZA d <= 31.
Proof. apply civilFromDays_range. Qed.

Lemma getMonth_range (d : Date) : 0 <= getMonth LocalTZA d <= 11.
Proof.
  unfold getMonth, MonthFromTime.
  pose proof (civilFromDays_range (Day (LocalTime LocalTZA (getTime d)))). lia.
Qed.

Lemma getHours_range (d : Date) : 0 <= getHours LocalTZA d < 24.
Proof. apply Z.mod_pos_bound. lia. Qed.

Lemma getMinutes_range (d : Date) : 0 <= getMinutes LocalTZA d < 60.
Proof. apply Z.mod_pos_bound. lia. Qed.

Lemma getSeconds_range (d : Date) : 0 <= getSeconds LocalTZA d < 60.
Proof. apply Z.mod_pos_bound. lia. Qed.

End DateFacts.

(* ================================================================== *)
(** * Runs of a letter, and what a replacement leaves of them *)

Section RunFacts.

Lemma startsWith_run (c : ascii) (tok : string) :
  allOf c tok = true ->
  forall s, startsWith tok s = (String.length tok <=? run_ c s)%nat.
Proof.
  induction tok as [|a tok IH]; intros H s; [reflexivity|].
  simpl in H. apply andb_prop in H as [Ha Ht].
  apply Ascii.eqb_eq in Ha; subst a.
  destruct s as [|b s]; [reflexivity|].
  simpl. rewrite (Ascii.eqb_sym c b).
  destruct (Ascii.eqb b c); simpl; [now apply IH | reflexivity].
Qed.

Lemma occursIn_maxRun (c : ascii) (tok : string) :
  allOf c tok = true -> tok <> "" ->
  forall s, occursIn tok s = (String.length tok <=? maxRun c s)%nat.
Proof.
  intros H Hne. induction s as [|b s IH].
  - destruct tok; [congruence | reflexivity].
  - change (occursIn tok (String b s))
      with (startsWith tok (String b s) || occursIn tok s).
    rewrite IH, (startsWith_run c tok H).
    change (maxRun c (String b s))
      with (Nat.max (run_ c (String b s)) (maxRun c s)).
    destruct (Nat.leb_spec (String.length tok) (run_ c (String b s)));
      destruct (Nat.leb_spec (String.length tok) (maxRun c s));
      destruct (Nat.leb_spec (String.length tok)
                             (Nat.max (run_ c (String b s)) (maxRun c s)));
      simpl; try reflexivity; lia.
Qed.

Lemma run_free_append (c : ascii) (x r : string) :
  count c x = O -> x <> "" -> run_ c (x ++ r) = O.
Proof.
  destruct x as [|a x]; intros H Hne; [congruence|].
  simpl in *. now destruct (Ascii.eqb a c).
Qed.

Lemma maxRun_free_append (c : ascii) (x r : string) :
  count c x = O -> maxRun c (x ++ r) = maxRun c r.
Proof.
  induction x as [|a x IH]; intros H; [reflexivity|].
  simpl in H. destruct (Ascii.eqb a c) eqn:E; [discriminate|].
  change (maxRun c (String a x ++ r))
    with (Nat.max (run_ c (String a (x ++ r))) (maxRun c (x ++ r))).
  simpl. rewrite E. simpl. now apply IH.
Qed.

Section Replacement.
Variables (c : ascii) (pat rep : string).
Hypothesis pat_free : count c pat = O.
Hypothesis rep_free : count c rep = O.
Hypothesis pat_not_empty : pat <> "".
Hypothesis rep_not_empty : rep <> "".

Lemma run_replace (s : string) : run_ c (replace pat rep s) = run_ c s.
Proof.
  induction s as [|b s IH]; rewrite replace_unfold.
  - destruct (startsWith pat "") eqn:E; [|reflexivity].
    apply startsWith_split in E. destruct pat; [congruence | discriminate].
  - destruct (startsWith pat (String b s)) eqn:E.
    + apply startsWith_split in E. rewrite E at 2.
      now rewrite !run_free_append.
    + simpl. now rewrite IH.
Qed.

Lemma maxRun_replace (s : string) : maxRun c (replace pat rep s) = maxRun c s.
Proof.
  induction s as [|b s IH]; rewrite replace_unfold.
  - destruct (startsWith pat "") eqn:E; [|reflexivity].
    apply startsWith_split in E. destruct pat; [congruence | discriminate].
  - destruct (startsWith pat (String b s)) eqn:E.
    + apply startsWith_split in E. rewrite E at 2.
      now rewrite !maxRun_free_append.
    + change (maxRun c (String b (replace pat rep s)))
        with (Nat.max (run_ c (String b (replace pat rep s)))
                      (maxRun c (replace pat rep s))).
      change (maxRun c (String b s))
        with (Nat.max (run_ c (String b s)) (maxRun c s)).
      rewrite IH. simpl. now rewrite run_replace.
Qed.

(** Replacing a pattern made of other letters neither removes nor
    creates an occurrence of a placeholder made of [c]. *)
Lemma occursIn_replace_other (tok s : string) :
  allOf c tok = true -> tok <> "" ->
  occursIn tok (replace pat rep s) = occursIn tok s.
Proof.
  intros H Hne.
  now rewrite !(occursIn_maxRun c tok H Hne), maxRun_replace.
Qed.
End Replacement.

Lemma count_replace_token (c : ascii) (pat rep s : string) :
  count c rep = O ->
  (count c (replace pat rep s) +
   (if occursIn pat s then count c pat else 0) = count c s)%nat.
Proof.
  intros Hr. destruct (occursIn pat s) eqn:E.
  - pose proof (count_replace c pat rep s E). lia.
  - rewrite replace_absent by assumption. lia.
Qed.

Lemma count_tokenFree (c : ascii) (s : string) :
  isTokenLetter c = true -> tokenFree s = true -> count c s = O.
Proof.
  intros Hc. induction s as [|x s IH]; intros H; [reflexivity|].
  simpl in *. apply andb_prop in H as [Hx Hs].
  destruct (Ascii.eqb x c) eqn:E.
  - apply Ascii.eqb_eq in E; subst x. rewrite Hc in Hx. discriminate.
  - now apply IH.
Qed.

End RunFacts.

(* ================================================================== *)
(** * The formatter on the templates the class uses *)

Ltac numeral_free :=
  first
    [ reflexivity
    | apply count_numeral;
      [ reflexivity
      | first [ apply isNumeral_pad2 | apply isNumeral_ofNumber ] ] ].

Section FormatterFacts.
Variable LocalTZA : Z -> Z.
Variable d : Date.

Let DD := pad2 (getDate LocalTZA d).
Let MM := pad2 (getMonth LocalTZA d + 1).
Let YYYY := ofNumber (getFullYear LocalTZA d).
Let H := ofNumber (getHours LocalTZA d).
Let I := ofNumber (getMinutes LocalTZA d).
Let S := ofNumber (getSeconds LocalTZA d).

(** The body of [_dateToString] is six replacements, one inside the
    other. *)
Lemma dateToString_unfold (template : string) :
  _dateToString LocalTZA d template =
  replace "s" S (replace "i" I (replace "H" H
    (replace "yyyy" YYYY (replace "mm" MM (replace "dd" DD template))))).
Proof. reflexivity. Qed.

Lemma dateToString_fold (template : string) :
  _dateToString LocalTZA d template =
  fold_left (fun t p => replace (fst p) (snd p) t)
            (tokenValues LocalTZA d) template.
Proof. reflexivity. Qed.

Lemma dateToString_dd : _dateToString LocalTZA d "dd" = DD.
Proof.
  rewrite dateToString_unfold.
  change "dd" with ("dd" ++ "") at 2. rewrite replace_here, append_nil_r.
  rewrite (replace_absent_letter "m" "m" MM DD) by numeral_free.
  rewrite (replace_absent_letter "y" "yyy" YYYY DD) by numeral_free.
  rewrite (replace_absent_letter "H" "" H DD) by numeral_free.
  rewrite (replace_absent_letter "i" "" I DD) by numeral_free.
  rewrite (replace_absent_letter "s" "" S DD) by numeral_free.
  reflexivity.
Qed.

Lemma dateToString_mm : _dateToString LocalTZA d "mm" = MM.
Proof.
  rewrite dateToString_unfold.
  rewrite (replace_absent_letter "d" "d" DD "mm") by reflexivity.
  change "mm" with ("mm" ++ "") at 2. rewrite replace_here, append_nil_r.
  rewrite (replace_absent_letter "y" "yyy" YYYY MM) by numeral_free.
  rewrite (replace_absent_letter "H" "" H MM) by numeral_free.
  rewrite (replace_absent_letter "i" "" I MM) by numeral_free.
  rewrite (replace_absent_letter "s" "" S MM) by numeral_free.
  reflexivity.
Qed.

Lemma dateToString_yyyy : _dateToString LocalTZA d "yyyy" = YYYY.
Proof.
  rewrite dateToString_unfold.
  rewrite (replace_absent_letter "d" "d" DD "yyyy") by reflexivity.
  rewrite (replace_absent_letter "m" "m" MM "yyyy") by reflexivity.
  change "yyyy" with ("yyyy" ++ "") at 2. rewrite replace_here, append_nil_r.
  rewrite (replace_absent_letter "H" "" H YYYY) by numeral_free.
  rewrite (replace_absent_letter "i" "" I YYYY) by numeral_free.
  rewrite (replace_absent_letter "s" "" S YYYY) by numeral_free.
  reflexivity.
Qed.

Lemma dateToString_H : _dateToString LocalTZA d "H" = H.
Proof.
  rewrite dateToString_unfold.
  rewrite (replace_absent_letter "d" "d" DD "H") by reflexivity.
  rewrite (replace_absent_letter "m" "m" MM "H") by reflexivity.
  rewrite (replace_absent_letter "y" "yyy" YYYY "H") by reflexivity.
  change "H"%string with ("H" ++ "") at 2. rewrite replace_here, append_nil_r.
  rewrite (replace_absent_letter "i" "" I H) by numeral_free.
  rewrite (replace_absent_letter "s" "" S H) by numeral_free.
  reflexivity.
Qed.

Lemma dateToString_i : _dateToString LocalTZA d "i" = I.
Proof.
  rewrite dateToString_unfold.
  rewrite (replace_absent_letter "d" "d" DD "i") by reflexivity.
  rewrite (replace_absent_letter "m" "m" MM "i") by reflexivity.
  rewrite (replace_absent_letter "y" "yyy" YYYY "i") by reflexivity.
  rewrite (replace_absent_letter "H" "" H "i") by reflexivity.
  change "i"%string with ("i" ++ "") at 2. rewrite replace_here, append_nil_r.
  rewrite (replace_absent_letter "s" "" S I) by numeral_free.
  reflexivity.
Qed.

Lemma dateToString_s : _dateToString LocalTZA d "s" = S.
Proof.
  rewrite dateToString_unfold.
  rewrite (replace_absent_letter "d" "d" DD "s") by reflexivity.
  rewrite (replace_absent_letter "m" "m" MM "s") by reflexivity.
  rewrite (replace_absent_letter "y" "yyy" YYYY "s") by reflexivity.
  rewrite (replace_absent_letter "H" "" H "s") by reflexivity.
  rewrite (replace_absent_letter "i" "" I "s") by reflexivity.
  change "s"%string with ("s" ++ "") at 2. now rewrite replace_here, append_nil_r.
Qed.

(** The template of the file name. *)
Lemma dateToString_fileStamp :
  _dateToString LocalTZA d "yyyymmdd_His" =
  YYYY ++ MM ++ DD ++ "_" ++ H ++ I ++ S.
Proof.
  rewrite dateToString_unfold.
  change "yyyymmdd_His" with ("yyyymm" ++ "dd" ++ "_His").
  rewrite (replace_skip "d" "d" DD "yyyymm") by reflexivity.
  rewrite replace_here.
  change ("yyyymm" ++ DD ++ "_His") with ("yyyy" ++ "mm" ++ DD ++ "_His").
  rewrite (replace_skip "m" "m" MM "yyyy") by reflexivity.
  rewrite replace_here.
  rewrite replace_here.
  change "_His" with ("_" ++ "H" ++ "is").
  rewrite !(replace_skip "H" "" H) by numeral_free.
  rewrite replace_here.
  change "is" with ("i" ++ "s").
  rewrite !(replace_skip "i" "" I) by numeral_free.
  rewrite replace_here.
  change "s"%string with ("s" ++ "") at 2.
  rewrite !(replace_skip "s" "" S) by numeral_free.
  now rewrite replace_here, append_nil_r.
Qed.

(** The template of the page and of the entries. *)
Lemma dateToString_pageFormat :
  _dateToString LocalTZA d "dd/mm/yyyy H:i:s" =
  DD ++ "/" ++ MM ++ "/" ++ YYYY ++ " " ++ H ++ ":" ++ I ++ ":" ++ S.
Proof.
  rewrite dateToString_unfold.
  change "dd/mm/yyyy H:i:s" with ("dd" ++ "/" ++ "mm" ++ "/yyyy H:i:s").
  rewrite replace_here.
  rewrite !(replace_skip "m" "m" MM) by numeral_free.
  rewrite replace_here.
  change "/yyyy H:i:s" with ("/" ++ "yyyy" ++ " H:i:s").
  rewrite !(replace_skip "y" "yyy" YYYY) by numeral_free.
  rewrite replace_here.
  change " H:i:s" with (" " ++ "H" ++ ":i:s").
  rewrite !(replace_skip "H" "" H) by numeral_free.
  rewrite replace_here.
  change ":i:s" with (":" ++ "i" ++ ":s").
  rewrite !(replace_skip "i" "" I) by numeral_free.
  rewrite replace_here.
  change ":s" with (":" ++ "s" ++ "").
  rewrite !(replace_skip "s" "" S) by numeral_free.
  now rewrite replace_here, append_nil_r.
Qed.

End FormatterFacts.

(** ** One occurrence of each placeholder is consumed *)

Ltac count_zero :=
  rewrite ?count_append;
  repeat match goal with
         | |- context [count ?c ?x] =>
             first
               [ rewrite (count_tokenFree c x) by (first [reflexivity | assumption])
               | rewrite (count_numeral c x)
                   by (first [ reflexivity | apply isNumeral_pad2
                             | apply isNumeral_ofNumber ])
               | progress (let n := eval vm_compute in (count c x) in
                           change (count c x) with n) ]
         end;
  reflexivity.

Section Occurrences.
Variable LocalTZA : Z -> Z.
Variable d : Date.

Let DD := pad2 (getDate LocalTZA d).
Let MM := pad2 (getMonth LocalTZA d + 1).
Let YYYY := ofNumber (getFullYear LocalTZA d).
Let H := ofNumber (getHours LocalTZA d).
Let I := ofNumber (getMinutes LocalTZA d).
Let S := ofNumber (getSeconds LocalTZA d).

Let DD_ne : DD <> "" := pad2_not_empty _.
Let MM_ne : MM <> "" := pad2_not_empty _.
Let YYYY_ne : YYYY <> "" := ofNumber_not_empty _.
Let H_ne : H <> "" := ofNumber_not_empty _.
Let I_ne : I <> "" := ofNumber_not_empty _.

Lemma dateToString_count (template tok v : string) :
  In (tok, v) (tokenValues LocalTZA d) ->
  (count (tokenLetter tok) (_dateToString LocalTZA d template) +
   (if occursIn tok template then String.length tok else 0) =
   count (tokenLetter tok) template)%nat.
Proof.
  intros Hin. rewrite dateToString_unfold.
  fold DD MM YYYY H I S.
  set (t1 := replace "dd" DD template).
  set (t2 := replace "mm" MM t1).
  set (t3 := replace "yyyy" YYYY t2).
  set (t4 := replace "H" H t3).
  set (t5 := replace "i" I t4).
  simpl in Hin.
  destruct Hin as [E|[E|[E|[E|[E|[E|[]]]]]]]; inversion E; subst tok v; clear E;
    cbn [tokenLetter String.length].
  - (* dd *)
    rewrite (count_replace_other "d" "s" S t5) by numeral_free.
    unfold t5. rewrite (count_replace_other "d" "i" I t4) by numeral_free.
    unfold t4. rewrite (count_replace_other "d" "H" H t3) by numeral_free.
    unfold t3. rewrite (count_replace_other "d" "yyyy" YYYY t2) by numeral_free.
    unfold t2. rewrite (count_replace_other "d" "mm" MM t1) by numeral_free.
    unfold t1.
    exact (count_replace_token "d" "dd" DD template ltac:(numeral_free)).
  - (* mm *)
    rewrite (count_replace_other "m" "s" S t5) by numeral_free.
    unfold t5. rewrite (count_replace_other "m" "i" I t4) by numeral_free.
    unfold t4. rewrite (count_replace_other "m" "H" H t3) by numeral_free.
    unfold t3. rewrite (count_replace_other "m" "yyyy" YYYY t2) by numeral_free.
    unfold t2.
    pose proof (count_replace_token "m" "mm" MM t1 ltac:(numeral_free)) as Hc.
    unfold t1 in Hc.
    rewrite (occursIn_replace_other "m" "dd" DD) in Hc
      by (first [numeral_free | discriminate | assumption]).
    rewrite (count_replace_other "m" "dd" DD template) in Hc by numeral_free.
    exact Hc.
  - (* yyyy *)
    rewrite (count_replace_other "y" "s" S t5) by numeral_free.
    unfold t5. rewrite (count_replace_other "y" "i" I t4) by numeral_free.
    unfold t4. rewrite (count_replace_other "y" "H" H t3) by numeral_free.
    unfold t3.
    pose proof (count_replace_token "y" "yyyy" YYYY t2 ltac:(numeral_free)) as Hc.
    unfold t2 in Hc.
    rewrite (occursIn_replace_other "y" "mm" MM) in Hc
      by (first [numeral_free | discriminate | assumption]).
    rewrite (count_replace_other "y" "mm" MM t1) in Hc by numeral_free.
    unfold t1 in Hc.
    rewrite (occursIn_replace_other "y" "dd" DD) in Hc
      by (first [numeral_free | discriminate | assumption]).
    rewrite (count_replace_other "y" "dd" DD template) in Hc by numeral_free.
    exact Hc.
  - (* H *)
    rewrite (count_replace_other "H" "s" S t5) by numeral_free.
    unfold t5. rewrite (count_replace_other "H" "i" I t4) by numeral_free.
    unfold t4.
    pose proof (count_replace_token "H" "H" H t3 ltac:(numeral_free)) as Hc.
    unfold t3 in Hc.
    rewrite (occursIn_replace_other "H" "yyyy" YYYY) in Hc
      by (first [numeral_free | discriminate | assumption]).
    rewrite (count_replace_other "H" "yyyy" YYYY t2) in Hc by numeral_free.
    unfold t2 in Hc.
    rewrite (occursIn_replace_other "H" "mm" MM) in Hc
      by (first [numeral_free | discriminate | assumption]).
    rewrite (count_replace_other "H" "mm" MM t1) in Hc by numeral_free.
    unfold t1 in Hc.
    rewrite (occursIn_replace_other "H" "dd" DD) in Hc
      by (first [numeral_free | discriminate | assumption]).
    rewrite (count_replace_other "H" "dd" DD template) in Hc by numeral_free.
    exact Hc.
  - (* i *)
    rewrite (count_replace_other "i" "s" S t5) by numeral_free.
    unfold t5.
    pose proof (count_replace_token "i" "i" I t4 ltac:(numeral_free)) as Hc.
    unfold t4 in Hc.
    rewrite (occursIn_replace_other "i" "H" H) in Hc
      by (first [numeral_free | discriminate | assumption]).
    rewrite (count_replace_other "i" "H" H t3) in Hc by numeral_free.
    unfold t3 in Hc.
    rewrite (occursIn_replace_other "i" "yyyy" YYYY) in Hc
      by (first [numeral_free | discriminate | assumption]).
    rewrite (count_replace_other "i" "yyyy" YYYY t2) in Hc by numeral_free.
    unfold t2 in Hc.
    rewrite (occursIn_replace_other "i" "mm" MM) in Hc
      by (first [numeral_free | discriminate | assumption]).
    rewrite (count_replace_other "i" "mm" MM t1) in Hc by numeral_free.
    unfold t1 in Hc.
    rewrite (occursIn_replace_other "i" "dd" DD) in Hc
      by (first [numeral_free | discriminate | assumption]).
    rewrite (count_replace_other "i" "dd" DD template) in Hc by numeral_free.
    exact Hc.
  - (* s *)
    pose proof (count_replace_token "s" "s" S t5 ltac:(numeral_free)) as Hc.
    unfold t5 in Hc.
    rewrite (occursIn_replace_other "s" "i" I) in Hc
      by (first [numeral_free | discriminate | assumption]).
    rewrite (count_replace_other "s" "i" I t4) in Hc by numeral_free.
    unfold t4 in Hc.
    rewrite (occursIn_replace_other "s" "H" H) in Hc
      by (first [numeral_free | discriminate | assumption]).
    rewrite (count_replace_other "s" "H" H t3) in Hc by numeral_free.
    unfold t3 in Hc.
    rewrite (occursIn_replace_other "s" "yyyy" YYYY) in Hc
      by (first [numeral_free | discriminate | assumption]).
    rewrite (count_replace_other "s" "yyyy" YYYY t2) in Hc by numeral_free.
    unfold t2 in Hc.
    rewrite (occursIn_replace_other "s" "mm" MM) in Hc
      by (first [numeral_free | discriminate | assumption]).
    rewrite (count_replace_other "s" "mm" MM t1) in Hc by numeral_free.
    unfold t1 in Hc.
    rewrite (occursIn_replace_other "s" "dd" DD) in Hc
      by (first [numeral_free | discriminate | assumption]).
    rewrite (count_replace_other "s" "dd" DD template) in Hc by numeral_free.
    exact Hc.
Qed.

(** Between texts that hold no letter of a placeholder, the first of two
    occurrences is replaced and the second is left as it was. *)
Lemma dateToString_twice (tok v a b c : string) :
  In (tok, v) (tokenValues LocalTZA d) ->
  tokenFree a = true -> tokenFree b = true -> tokenFree c = true ->
  _dateToString LocalTZA d (a ++ tok ++ b ++ tok ++ c) =
  a ++ v ++ b ++ tok ++ c.
Proof.
  intros Hin Ha Hb Hc. rewrite dateToString_unfold.
  fold DD MM YYYY H I S.
  simpl in Hin.
  destruct Hin as [E|[E|[E|[E|[E|[E|[]]]]]]]; inversion E; subst tok v; clear E.
  - (* dd *)
    rewrite (replace_skip "d" "d" DD a) by count_zero.
    rewrite replace_here.
    rewrite (replace_absent_letter "m" "m" MM (a ++ DD ++ b ++ "dd" ++ c)) by count_zero.
    rewrite (replace_absent_letter "y" "yyy" YYYY (a ++ DD ++ b ++ "dd" ++ c)) by count_zero.
    rewrite (replace_absent_letter "H" "" H (a ++ DD ++ b ++ "dd" ++ c)) by count_zero.
    rewrite (replace_absent_letter "i" "" I (a ++ DD ++ b ++ "dd" ++ c)) by count_zero.
    rewrite (replace_absent_letter "s" "" S (a ++ DD ++ b ++ "dd" ++ c)) by count_zero.
    reflexivity.
  - (* mm *)
    rewrite (replace_absent_letter "d" "d" DD (a ++ "mm" ++ b ++ "mm" ++ c)) by count_zero.
    rewrite (replace_skip "m" "m" MM a) by count_zero.
    rewrite replace_here.
    rewrite (replace_absent_letter "y" "yyy" YYYY (a ++ MM ++ b ++ "mm" ++ c)) by count_zero.
    rewrite (replace_absent_letter "H" "" H (a ++ MM ++ b ++ "mm" ++ c)) by count_zero.
    rewrite (replace_absent_letter "i" "" I (a ++ MM ++ b ++ "mm" ++ c)) by count_zero.
    rewrite (replace_absent_letter "s" "" S (a ++ MM ++ b ++ "mm" ++ c)) by count_zero.
    reflexivity.
  - (* yyyy *)
    rewrite (replace_absent_letter "d" "d" DD (a ++ "yyyy" ++ b ++ "yyyy" ++ c)) by count_zero.
    rewrite (replace_absent_letter "m" "m" MM (a ++ "yyyy" ++ b ++ "yyyy" ++ c)) by count_zero.
    rewrite (replace_skip "y" "yyy" YYYY a) by count_zero.
    rewrite replace_here.
    rewrite (replace_absent_letter "H" "" H (a ++ YYYY ++ b ++ "yyyy" ++ c)) by count_zero.
    rewrite (replace_absent_letter "i" "" I (a ++ YYYY ++ b ++ "yyyy" ++ c)) by count_zero.
    rewrite (replace_absent_letter "s" "" S (a ++ YYYY ++ b ++ "yyyy" ++ c)) by count_zero.
    reflexivity.
  - (* H *)
    rewrite (replace_absent_letter "d" "d" DD (a ++ "H" ++ b ++ "H" ++ c)) by count_zero.
    rewrite (replace_absent_letter "m" "m" MM (a ++ "H" ++ b ++ "H" ++ c)) by count_zero.
    rewrite (replace_absent_letter "y" "yyy" YYYY (a ++ "H" ++ b ++ "H" ++ c)) by count_zero.
    rewrite (replace_skip "H" "" H a) by count_zero.
    rewrite replace_here.
    rewrite (replace_absent_letter "i" "" I (a ++ H ++ b ++ "H" ++ c)) by count_zero.
    rewrite (replace_absent_letter "s" "" S (a ++ H ++ b ++ "H" ++ c)) by count_zero.
    reflexivity.
  - (* i *)
    rewrite (replace_absent_letter "d" "d" DD (a ++ "i" ++ b ++ "i" ++ c)) by count_zero.
    rewrite (replace_absent_letter "m" "m" MM (a ++ "i" ++ b ++ "i" ++ c)) by count_zero.
    rewrite (replace_absent_letter "y" "yyy" YYYY (a ++ "i" ++ b ++ "i" ++ c)) by count_zero.
    rewrite (replace_absent_letter "H" "" H (a ++ "i" ++ b ++ "i" ++ c)) by count_zero.
    rewrite (replace_skip "i" "" I a) by count_zero.
    rewrite replace_here.
    rewrite (replace_absent_letter "s" "" S (a ++ I ++ b ++ "i" ++ c)) by count_zero.
    reflexivity.
  - (* s *)
    rewrite (replace_absent_letter "d" "d" DD (a ++ "s" ++ b ++ "s" ++ c)) by count_zero.
    rewrite (replace_absent_letter "m" "m" MM (a ++ "s" ++ b ++ "s" ++ c)) by count_zero.
    rewrite (replace_absent_letter "y" "yyy" YYYY (a ++ "s" ++ b ++ "s" ++ c)) by count_zero.
    rewrite (replace_absent_letter "H" "" H (a ++ "s" ++ b ++ "s" ++ c)) by count_zero.
    rewrite (replace_absent_letter "i" "" I (a ++ "s" ++ b ++ "s" ++ c)) by count_zero.
    rewrite (replace_skip "s" "" S a) by count_zero.
    rewrite replace_here.
    reflexivity.
Qed.

End Occurrences.

(* ================================================================== *)
(** * Facts about the object [this.sections] *)

Section ObjectFacts.
Import JsObject.

Lemma assoc_assign_same (k : string) (v : Sect.t) (l : list (string * Sect.t)) :
  assoc k (assign k v l) = Some v.
Proof.
  induction l as [|[k' v'] l IH]; simpl.
  - now rewrite String.eqb_refl.
  - destruct (String.eqb k' k) eqn:E; simpl; rewrite ?E, ?String.eqb_refl; auto.
Qed.

Lemma assoc_assign_other (k k' : string) (v : Sect.t)
      (l : list (string * Sect.t)) :
  k' <> k -> assoc k' (assign k v l) = assoc k' l.
Proof.
  intros Hne. induction l as [|[k0 v0] l IH]; simpl.
  - destruct (String.eqb_spec k k'); [congruence | reflexivity].
  - destruct (String.eqb_spec k0 k) as [->|Hk]; simpl.
    + destruct (String.eqb_spec k k'); [congruence | reflexivity].
    + destruct (String.eqb_spec k0 k'); [reflexivity | exact IH].
Qed.

Lemma assoc_None (k : string) (l : list (string * Sect.t)) :
  assoc k l = None <-> ~ In k (map fst l).
Proof.
  induction l as [|[k0 v0] l IH]; simpl; [tauto|].
  destruct (String.eqb_spec k0 k) as [->|Hk].
  - split; [discriminate | tauto].
  - rewrite IH. tauto.
Qed.

Lemma assoc_Some_In (k : string) (s : Sect.t) (l : list (string * Sect.t)) :
  assoc k l = Some s -> In (k, s) l.
Proof.
  induction l as [|[k0 v0] l IH]; simpl; [discriminate|].
  destruct (String.eqb_spec k0 k) as [->|Hk]; intros H.
  - left. congruence.
  - right. auto.
Qed.

Lemma keys_assign_new (k : string) (v : Sect.t) (l : list (string * Sect.t)) :
  assoc k l = None -> map fst (assign k v l) = (map fst l ++ [k])%list.
Proof.
  induction l as [|[k0 v0] l IH]; simpl; [reflexivity|].
  destruct (String.eqb_spec k0 k) as [->|Hk]; [discriminate|].
  intros H. simpl. now rewrite IH.
Qed.

Lemma keys_assign_old (k : string) (v s : Sect.t) (l : list (string * Sect.t)) :
  assoc k l = Some s -> map fst (assign k v l) = map fst l.
Proof.
  induction l as [|[k0 v0] l IH]; simpl; [discriminate|].
  destruct (String.eqb_spec k0 k) as [->|Hk]; [reflexivity|].
  intros H. simpl. now rewrite IH.
Qed.

Lemma NoDup_assign (k : string) (v : Sect.t) (l : list (string * Sect.t)) :
  NoDup (map fst l) -> NoDup (map fst (assign k v l)).
Proof.
  intros H. destruct (assoc k l) as [s|] eqn:E.
  - now rewrite (keys_assign_old k v s l E).
  - rewrite (keys_assign_new k v l E).
    apply assoc_None in E.
    apply NoDup_rev in H. rewrite <- (rev_involutive (map fst l ++ [k])%list).
    apply NoDup_rev. rewrite rev_app_distr. simpl.
    constructor; [|exact H]. now rewrite <- in_rev.
Qed.

(** ** Reading after writing *)

Lemma get_set_same (p : bool) (o : t) (k : string) (v : Sect.t) :
  assoc "__proto__" (own o) = None ->
  get p (set o k v) k = VSection v.
Proof.
  intros Hproto. unfold get, set.
  destruct (String.eqb_spec k "__proto__") as [->|Hk]; cbn [own proto].
  - now rewrite Hproto.
  - now rewrite assoc_assign_same.
Qed.

Lemma get_set_other (p : bool) (o : t) (k k' : string) (v : Sect.t) :
  k <> "__proto__" -> k' <> k ->
  get p (set o k v) k' = get p o k'.
Proof.
  intros Hk Hne. unfold get, set.
  destruct (String.eqb_spec k "__proto__") as [|_]; [congruence|].
  cbn [own proto]. now rewrite assoc_assign_other.
Qed.

Lemma own_set (o : t) (k : string) (v : Sect.t) :
  k <> "__proto__" -> own (set o k v) = assign k v (own o).
Proof.
  intros Hk. unfold set.
  now destruct (String.eqb_spec k "__proto__") as [|_]; [congruence|].
Qed.

Lemma proto_set (o : t) (k : string) (v : Sect.t) :
  k <> "__proto__" -> proto (set o k v) = proto o.
Proof.
  intros Hk. unfold set.
  now destruct (String.eqb_spec k "__proto__") as [|_]; [congruence|].
Qed.

Lemma own_set_proto (o : t) (v : Sect.t) : own (set o "__proto__" v) = own o.
Proof. reflexivity. Qed.

Lemma WellFormed_empty : WellFormed empty.
Proof. split; [constructor | reflexivity]. Qed.

Lemma WellFormed_set (o : t) (k : string) (v : Sect.t) :
  WellFormed o -> WellFormed (set o k v).
Proof.
  intros [Hnd Hp]. unfold set.
  destruct (String.eqb_spec k "__proto__") as [->|Hk]; cbn [own].
  - now split.
  - split; cbn [own]; [now apply NoDup_assign|].
    now rewrite assoc_assign_other by congruence.
Qed.

(** A read that yields a record found it as an own property, or as the
    installed prototype under the key [__proto__]. *)
Lemma get_section (p : bool) (o : t) (k : string) (s : Sect.t) :
  get p o k = VSection s ->
  assoc k (own o) = Some s \/
  (assoc k (own o) = None /\ k = "__proto__" /\ proto o = Some s).
Proof.
  unfold get. destruct (assoc k (own o)) as [s'|] eqn:E.
  - intros H. left. congruence.
  - destruct (String.eqb_spec k "__proto__") as [->|Hk].
    + destruct (proto o) as [q|]; [|discriminate].
      intros H. right. repeat split; congruence.
    + destruct (inList k objectPrototypeMembers); [discriminate|].
      destruct (proto o).
      * destruct (inList k sectionFields); discriminate.
      * destruct (p && String.eqb k "end"); discriminate.
Qed.

Lemma get_own (p : bool) (o : t) (k : string) (s : Sect.t) :
  assoc k (own o) = Some s -> get p o k = VSection s.
Proof. intros H. unfold get. now rewrite H. Qed.

(** ** The order of [for-in] *)

Lemma insertIndex_perm (n : N) (k : string) (l : list (N * string)) :
  Permutation (map snd (insertIndex n k l)) (k :: map snd l).
Proof.
  induction l as [|[m k'] l IH]; simpl; [reflexivity|].
  destruct (n <=? m)%N; simpl; [reflexivity|].
  rewrite IH. apply perm_swap.
Qed.

Lemma indexKeys_perm (ks : list string) :
  Permutation (map snd (indexKeys ks)) (filter isArrayIndex ks).
Proof.
  induction ks as [|k ks IH]; simpl; [reflexivity|].
  unfold isArrayIndex at 1.
  destruct (arrayIndex k) as [n|]; [|exact IH].
  rewrite insertIndex_perm. now constructor.
Qed.

Lemma filter_split_perm {A : Type} (f : A -> bool) (l : list A) :
  Permutation (filter f l ++ filter (fun x => negb (f x)) l) l.
Proof.
  induction l as [|x l IH]; simpl; [reflexivity|].
  destruct (f x); simpl.
  - now constructor.
  - rewrite <- Permutation_middle. now constructor.
Qed.

Lemma ownKeys_perm (o : t) : Permutation (ownKeys o) (map fst (own o)).
Proof.
  unfold ownKeys. rewrite indexKeys_perm. apply filter_split_perm.
Qed.

Lemma indexKeys_none (ks : list string) :
  (forall k, In k ks -> isArrayIndex k = false) -> indexKeys ks = [].
Proof.
  induction ks as [|k ks IH]; intros H; [reflexivity|].
  simpl. pose proof (H k (or_introl eq_refl)) as Hk.
  unfold isArrayIndex in Hk.
  destruct (arrayIndex k); [discriminate|].
  apply IH. intros k' Hin. apply H. now right.
Qed.

Lemma filter_all {A : Type} (f : A -> bool) (l : list A) :
  (forall x, In x l -> f x = true) -> filter f l = l.
Proof.
  induction l as [|x l IH]; intros H; [reflexivity|].
  simpl. rewrite (H x (or_introl eq_refl)). f_equal.
  apply IH. intros y Hy. apply H. now right.
Qed.

(** Without array indices among the keys, [for-in] follows creation. *)
Lemma ownKeys_creation_order (o : t) :
  (forall k, In k (map fst (own o)) -> isArrayIndex k = false) ->
  ownKeys o = map fst (own o).
Proof.
  intros H. unfold ownKeys.
  rewrite (indexKeys_none _ H). simpl.
  apply filter_all. intros k Hk. now rewrite (H k Hk).
Qed.

Lemma forIn_plain (o : t) :
  proto o = None -> forIn false o = ownKeys o.
Proof.
  intros H. unfold forIn, inheritedKeys. rewrite H. simpl.
  apply app_nil_r.
Qed.

Lemma ownKeys_own (o : t) (k : string) :
  In k (ownKeys o) -> exists s, assoc k (own o) = Some s.
Proof.
  intros H.
  apply (Permutation_in _ (ownKeys_perm o)) in H.
  destruct (assoc k (own o)) as [s|] eqn:E; [now exists s|].
  apply assoc_None in E. contradiction.
Qed.

Lemma flat_map_ext_In {A B : Type} (f g : A -> list B) (l : list A) :
  (forall x, In x l -> f x = g x) -> flat_map f l = flat_map g l.
Proof.
  induction l as [|x l IH]; intros H; [reflexivity|].
  simpl. rewrite (H x (or_introl eq_refl)). f_equal.
  apply IH. intros y Hy. apply H. now right.
Qed.

(** Looking up every key of a list without repetition gives back its
    values. *)
Lemma lookup_all (l : list (string * Sect.t)) :
  NoDup (map fst l) ->
  flat_map (fun k => match assoc k l with Some s => [s] | None => [] end)
           (map fst l) = map snd l.
Proof.
  induction l as [|[k v] l IH]; intros H; [reflexivity|].
  simpl in H. inversion H as [|? ? Hnot Hnd]; subst.
  simpl. rewrite String.eqb_refl. simpl. f_equal.
  rewrite <- (IH Hnd).
  apply flat_map_ext_In.
  intros k' Hk'.
  destruct (String.eqb_spec k k') as [->|_]; [contradiction | reflexivity].
Qed.

End ObjectFacts.

(* ================================================================== *)
(** * The loops of [_render] *)

Section RenderFacts.
Variable LocalTZA : Z -> Z.
Import JsObject.

Lemma joinAll_app (l1 l2 : list string) :
  joinAll (l1 ++ l2) = joinAll l1 ++ joinAll l2.
Proof.
  induction l1 as [|x l1 IH]; simpl; [reflexivity|].
  now rewrite IH, append_assoc.
Qed.

Lemma fold_left_append {A : Type} (f : A -> string) (l : list A) :
  forall init,
    fold_left (fun acc x => acc ++ f x) l init = init ++ joinAll (map f l).
Proof.
  induction l as [|x l IH]; intros init; simpl.
  - now rewrite append_nil_r.
  - now rewrite IH, append_assoc.
Qed.

Lemma renderLogs_plain (s : Sect.t) :
  renderLogs false s = joinAll (map entryLine (Sect.logs s)).
Proof.
  unfold renderLogs, arrayForIn.
  rewrite app_nil_r, fold_left_append, map_map. reflexivity.
Qed.

Lemma renderSection_plain (s : Sect.t) :
  renderSection LocalTZA false s = sectionBlock LocalTZA s.
Proof. unfold renderSection, sectionBlock. now rewrite renderLogs_plain. Qed.

Lemma renderToc_keys (p : bool) (o : t) (keys : list string) :
  (forall i, In i keys -> isSection (get p o i) = true) ->
  forall init,
    fold_left
      (fun sectionsStr i =>
         match get p o i with
         | VSection section =>
             sectionsStr ++ tocLine (Sect.key section) (Sect.name section)
         | _ => sectionsStr ++ tocLine "undefined" "undefined"
         end) keys init =
    init ++ joinAll (map tocEntry (flat_map (selectSection p o) keys)).
Proof.
  induction keys as [|i keys IH]; intros H init; simpl.
  - now rewrite append_nil_r.
  - pose proof (H i (or_introl eq_refl)) as Hi.
    rewrite IH by (intros j Hj; apply H; now right).
    unfold selectSection at 2.
    destruct (get p o i); try discriminate.
    simpl. now rewrite append_assoc.
Qed.

Lemma renderBody_throw (p : bool) (o : t) (keys : list string) (e : Error) :
  fold_left
    (fun acc i =>
       match acc with
       | Throw e => Throw e
       | Ok sectionsStr =>
           match get p o i with
           | VSection section =>
               Ok (sectionsStr ++ renderSection LocalTZA p section)
           | _ => Throw TypeError
           end
       end) keys (Throw e) = Throw e.
Proof. induction keys as [|i keys IH]; simpl; [reflexivity | exact IH]. Qed.

Lemma renderBody_keys (p : bool) (o : t) (keys : list string) :
  forall init,
    (forall i, In i keys -> isSection (get p o i) = true) ->
    fold_left
      (fun acc i =>
         match acc with
         | Throw e => Throw e
         | Ok sectionsStr =>
             match get p o i with
             | VSection section =>
                 Ok (sectionsStr ++ renderSection LocalTZA p section)
             | _ => Throw TypeError
             end
         end) keys (Ok init) =
    Ok (init ++
        joinAll (map (renderSection LocalTZA p)
                     (flat_map (selectSection p o) keys))).
Proof.
  induction keys as [|i keys IH]; intros init H; simpl.
  - now rewrite append_nil_r.
  - pose proof (H i (or_introl eq_refl)) as Hi.
    unfold selectSection at 1.
    destruct (get p o i); try discriminate.
    rewrite IH by (intros j Hj; apply H; now right).
    simpl. now rewrite append_assoc.
Qed.

Lemma renderBody_ok_sections (p : bool) (o : t) (keys : list string) :
  forall init body,
    fold_left
      (fun acc i =>
         match acc with
         | Throw e => Throw e
         | Ok sectionsStr =>
             match get p o i with
             | VSection section =>
                 Ok (sectionsStr ++ renderSection LocalTZA p section)
             | _ => Throw TypeError
             end
         end) keys (Ok init) = Ok body ->
    forall i, In i keys -> isSection (get p o i) = true.
Proof.
  induction keys as [|i keys IH]; intros init body H j Hj; [destruct Hj|].
  simpl in H.
  destruct (get p o i) eqn:E;
    try (rewrite renderBody_throw in H; discriminate).
  destruct Hj as [<-|Hj]; [now rewrite E|].
  now apply (IH _ _ H).
Qed.

(** [_render] returns exactly when the instance has been saved once and
    every key of the loop leads to a section record; the page is then
    the one made of those records. *)
Lemma render_sections (p : bool) (log : Log.t) (finished : Date) :
  Log.end_ log = Some finished ->
  (forall i, In i (forIn p (Log.sections log)) ->
             isSection (get p (Log.sections log) i) = true) ->
  _render LocalTZA p log =
  Ok (pageWith LocalTZA (renderSection LocalTZA p) log finished
               (shownSections p (Log.sections log))).
Proof.
  intros He Hall. unfold _render, renderToc, renderBody. rewrite He.
  rewrite (renderBody_keys p _ _ "" Hall).
  rewrite (renderToc_keys p _ _ Hall "").
  reflexivity.
Qed.

Lemma render_ok (p : bool) (log : Log.t) (html : string) :
  _render LocalTZA p log = Ok html ->
  exists finished,
    Log.end_ log = Some finished /\
    (forall i, In i (forIn p (Log.sections log)) ->
               isSection (get p (Log.sections log) i) = true) /\
    html = pageWith LocalTZA (renderSection LocalTZA p) log finished
                    (shownSections p (Log.sections log)).
Proof.
  intros H.
  destruct (Log.end_ log) as [finished|] eqn:He.
  2:{ unfold _render in H. rewrite He in H. discriminate. }
  assert (Hall : forall i, In i (forIn p (Log.sections log)) ->
                           isSection (get p (Log.sections log) i) = true).
  { unfold _render in H. rewrite He in H.
    destruct (renderBody LocalTZA p (Log.sections log)) as [body|e] eqn:Hb;
      [|discriminate].
    exact (renderBody_ok_sections p _ _ _ _ Hb). }
  exists finished. repeat split; try assumption.
  rewrite (render_sections p log finished He Hall) in H. congruence.
Qed.

(** While the object has its first prototype and [Object.prototype] is
    untouched, the loops meet the own keys only, every one a section, and
    the page is the one the specification describes. *)
Lemma plain_keys_are_sections (o : t) :
  proto o = None ->
  forall i, In i (forIn false o) -> isSection (get false o i) = true.
Proof.
  intros Hp i Hi. rewrite (forIn_plain o Hp) in Hi.
  destruct (ownKeys_own o i Hi) as (s & Hs).
  now rewrite (get_own false o i s Hs).
Qed.

Lemma render_plain (log : Log.t) (finished : Date) :
  proto (Log.sections log) = None ->
  Log.end_ log = Some finished ->
  _render LocalTZA false log =
  Ok (page LocalTZA log finished (shownSections false (Log.sections log))).
Proof.
  intros Hp He.
  rewrite (render_sections false log finished He
             (plain_keys_are_sections _ Hp)).
  unfold page, pageWith.
  now rewrite (map_ext _ _ renderSection_plain).
Qed.

(** In that case the sections shown are the own sections, each once. *)
Lemma shown_plain (o : t) :
  proto o = None ->
  shownSections false o =
  flat_map (fun k => match assoc k (own o) with
                     | Some s => [s]
                     | None => []
                     end) (ownKeys o).
Proof.
  intros Hp. unfold shownSections. rewrite (forIn_plain o Hp).
  apply flat_map_ext_In. intros k Hk.
  destruct (ownKeys_own o k Hk) as (s & Hs).
  unfold selectSection. now rewrite (get_own false o k s Hs), Hs.
Qed.

Lemma shown_plain_perm (o : t) :
  proto o = None -> NoDup (map fst (own o)) ->
  Permutation (shownSections false o) (map snd (own o)).
Proof.
  intros Hp Hnd. rewrite (shown_plain o Hp).
  rewrite <- (lookup_all (own o) Hnd).
  apply Permutation_flat_map, ownKeys_perm.
Qed.

Lemma shown_plain_creation_order (o : t) :
  proto o = None -> NoDup (map fst (own o)) ->
  (forall k, In k (map fst (own o)) -> isArrayIndex k = false) ->
  shownSections false o = map snd (own o).
Proof.
  intros Hp Hnd Hidx. rewrite (shown_plain o Hp).
  rewrite (ownKeys_creation_order o Hidx).
  now apply lookup_all.
Qed.

End RenderFacts.

(* ================================================================== *)
(** * What each method does to the instance *)

Section MethodFacts.
Context {FS : Type} {fsapi : FileSystem FS}.
Variable LocalTZA : Z -> Z.

Local Open Scope js_scope.

Lemma SameButDisk_refl (w : World FS) : SameButDisk w w.
Proof. now repeat split. Qed.

Lemma SameButDisk_trans (w1 w2 w3 : World FS) :
  SameButDisk w1 w2 -> SameButDisk w2 w3 -> SameButDisk w1 w3.
Proof.
  intros (A1 & A2 & A3 & A4) (B1 & B2 & B3 & B4).
  repeat split; congruence.
Qed.

Lemma onDisk_frame {A : Type} (f : FS -> Result A * FS) (w : World FS) :
  SameButDisk w (snd (onDisk f w)).
Proof. unfold onDisk. destruct (f (disk w)). now repeat split. Qed.

Lemma ensureDirectory_frame (path : string) (w : World FS) :
  SameButDisk w (snd (ensureDirectory path w)).
Proof.
  unfold ensureDirectory, bind, onDisk, ret. simpl.
  destruct (existsSync path (disk w)); simpl.
  - now repeat split.
  - destruct (mkdirSync path (disk w)). now repeat split.
Qed.

Lemma bind_frame {A B : Type} (m : M FS A) (k : A -> M FS B) (w : World FS) :
  SameButDisk w (snd (m w)) ->
  (forall a w', SameButDisk w' (snd (k a w'))) ->
  SameButDisk w (snd (bind m k w)).
Proof.
  intros Hm Hk. unfold bind.
  destruct (m w) as [[a|e] w']; cbn [snd] in *; [|exact Hm].
  exact (SameButDisk_trans _ _ _ Hm (Hk a w')).
Qed.

Lemma bind_value {A B : Type} (m : M FS A) (k : A -> M FS B) (w : World FS)
      (b : B) :
  fst (bind m k w) = Ok b ->
  exists a, fst (m w) = Ok a /\ fst (k a (snd (m w))) = Ok b.
Proof.
  unfold bind. destruct (m w) as [[a|e] w']; cbn [fst snd]; intros H.
  - now exists a.
  - discriminate.
Qed.

Lemma directories_frame (log : Log.t) (path : string) (w : World FS) :
  SameButDisk w (snd (directories LocalTZA log path w)).
Proof.
  unfold directories.
  apply bind_frame; [apply ensureDirectory_frame|]. intros _ w1.
  apply bind_frame; [apply ensureDirectory_frame|]. intros _ w2.
  apply bind_frame; [apply ensureDirectory_frame|]. intros _ w3.
  apply SameButDisk_refl.
Qed.

Lemma directories_value (log : Log.t) (path p : string) (w : World FS) :
  fst (directories LocalTZA log path w) = Ok p -> p = path.
Proof.
  unfold directories. intros H.
  apply bind_value in H as (_ & _ & H).
  apply bind_value in H as (_ & _ & H).
  apply bind_value in H as (_ & _ & H).
  unfold ret in H. cbn [fst] in H. congruence.
Qed.

Lemma prepareSave_unfold (w : World FS) :
  _prepareSave LocalTZA w =
  directories LocalTZA (saved w) (filePath LocalTZA (this w))
              (mkWorld (saved w) (disk w) (clock w) (S (ticks w))
                       (objectPrototypeEnd w)).
Proof. reflexivity. Qed.

Lemma prepareSave_effect (w : World FS) :
  this (snd (_prepareSave LocalTZA w)) = saved w /\
  clock (snd (_prepareSave LocalTZA w)) = clock w /\
  ticks (snd (_prepareSave LocalTZA w)) = S (ticks w) /\
  objectPrototypeEnd (snd (_prepareSave LocalTZA w)) = objectPrototypeEnd w /\
  (forall path, fst (_prepareSave LocalTZA w) = Ok path ->
                path = filePath LocalTZA (this w)).
Proof.
  rewrite prepareSave_unfold.
  pose proof (directories_frame (saved w) (filePath LocalTZA (this w))
                (mkWorld (saved w) (disk w) (clock w) (S (ticks w))
                         (objectPrototypeEnd w))) as (A & B & C & D).
  cbn [this clock ticks objectPrototypeEnd] in A, B, C, D.
  repeat split; try assumption.
  intros path H. now apply directories_value in H.
Qed.

(** ** [save] *)

Lemma save_unfold (w : World FS) :
  save LocalTZA w =
  match _prepareSave LocalTZA w with
  | (Throw e, w1) => (Throw e, w1)
  | (Ok fullFilePath, w1) =>
      match _render LocalTZA (objectPrototypeEnd w1) (this w1) with
      | Throw e => (Throw e, w1)
      | Ok fileContent => onDisk (writeFileSync fullFilePath fileContent) w1
      end
  end.
Proof.
  unfold save, bind.
  destruct (_prepareSave LocalTZA w) as [[path|e] w1]; [|reflexivity].
  unfold getThis, getPolluted, throw.
  now destruct (_render LocalTZA (objectPrototypeEnd w1) (this w1)).
Qed.

(** [save] sets [this.end] and touches nothing else of the instance. *)
Lemma save_effect (w : World FS) :
  this (snd (save LocalTZA w)) = saved w /\
  clock (snd (save LocalTZA w)) = clock w /\
  ticks (snd (save LocalTZA w)) = S (ticks w) /\
  objectPrototypeEnd (snd (save LocalTZA w)) = objectPrototypeEnd w.
Proof.
  rewrite save_unfold.
  pose proof (prepareSave_effect w) as (A & B & C & D & _).
  destruct (_prepareSave LocalTZA w) as [[path|e] w1]; cbn [snd] in *;
    [|now repeat split].
  destruct (_render LocalTZA (objectPrototypeEnd w1) (this w1));
    cbn [snd]; [|now repeat split].
  pose proof (onDisk_frame (writeFileSync path a) w1) as (A' & B' & C' & D').
  repeat split; congruence.
Qed.

(** When [save] returns, the page of the saved instance was rendered and
    handed to [writeFileSync] at the path computed from the instance. *)
Lemma save_ok (w : World FS) :
  fst (save LocalTZA w) = Ok tt ->
  exists fileContent w1,
    _render LocalTZA (objectPrototypeEnd w) (saved w) = Ok fileContent /\
    SameButDisk (mkWorld (saved w) (disk w) (clock w) (S (ticks w))
                         (objectPrototypeEnd w)) w1 /\
    save LocalTZA w =
      onDisk (writeFileSync (filePath LocalTZA (this w)) fileContent) w1.
Proof.
  rewrite save_unfold.
  pose proof (prepareSave_effect w) as (A & B & C & D & E).
  pose proof (directories_frame (saved w) (filePath LocalTZA (this w))
                (mkWorld (saved w) (disk w) (clock w) (S (ticks w))
                         (objectPrototypeEnd w))) as F.
  rewrite <- prepareSave_unfold in F.
  destruct (_prepareSave LocalTZA w) as [[path|e] w1]; cbn [fst snd] in *;
    [|discriminate].
  rewrite (E path eq_refl). rewrite D, A.
  destruct (_render LocalTZA (objectPrototypeEnd w) (saved w)) as [html|e];
    cbn [fst]; [|discriminate].
  intros _. now exists html, w1.
Qed.

(** A page that cannot be rendered makes [save] throw. *)
Lemma save_render_throws (w : World FS) (e : Error) :
  _render LocalTZA (objectPrototypeEnd w) (saved w) = Throw e ->
  exists e', fst (save LocalTZA w) = Throw e'.
Proof.
  intros H. rewrite save_unfold.
  pose proof (prepareSave_effect w) as (A & B & C & D & _).
  destruct (_prepareSave LocalTZA w) as [[path|e1] w1]; cbn [fst snd] in *;
    [|now exists e1].
  rewrite D, A, H. now exists e.
Qed.

(** ** The methods *)

Lemma createSection_unfold (name key : string) (w : World FS) :
  createSection LocalTZA name key w = save LocalTZA (created name key w).
Proof. reflexivity. Qed.

Lemma closeSection_unfold (key : string) (w : World FS) :
  closeSection LocalTZA key w =
  match lookup w key with
  | JsObject.VSection s => save LocalTZA (closed key s w)
  | JsObject.VObjectPrototype =>
      (Throw TypeError,
       mkWorld (this w) (disk w) (clock w) (S (ticks w)) true)
  | _ =>
      (Throw TypeError,
       mkWorld (this w) (disk w) (clock w) (S (ticks w))
               (objectPrototypeEnd w))
  end.
Proof.
  unfold closeSection, lookup, getSection, bind, getThis, getPolluted, ret,
    newDate.
  now destruct (JsObject.get (objectPrototypeEnd w) (Log.sections (this w)) key).
Qed.

Lemma pushLog_unfold (type : LogType) (key value : string) (w : World FS) :
  _pushLog LocalTZA type key value w =
  match lookup w key with
  | JsObject.VSection s => save LocalTZA (pushed LocalTZA type key value s w)
  | _ =>
      (Throw TypeError,
       mkWorld (this w) (disk w) (clock w) (S (ticks w))
               (objectPrototypeEnd w))
  end.
Proof.
  unfold _pushLog, _getLogObject, lookup, getSection, bind, getThis,
    getPolluted, ret, newDate. cbn [this objectPrototypeEnd].
  now destruct (JsObject.get (objectPrototypeEnd w) (Log.sections (this w)) key).
Qed.

Lemma bind_snd_ok {A B : Type} (m : M FS A) (k : A -> M FS B) (w : World FS)
      (a : A) :
  fst (m w) = Ok a -> bind m k w = k a (snd (m w)).
Proof.
  unfold bind. destruct (m w) as [[a'|e] w']; cbn [fst snd]; intros H.
  - congruence.
  - discriminate.
Qed.

Lemma lookup_save (w : World FS) (k : string) :
  lookup (snd (save LocalTZA w)) k = lookup w k.
Proof.
  unfold lookup. destruct (save_effect w) as (A & _ & _ & D).
  rewrite A, D. reflexivity.
Qed.

(** A missing section makes [closeSection] and [_pushLog] throw. *)
Lemma closeSection_missing (key : string) (w : World FS) :
  isSection (lookup w key) = false ->
  fst (closeSection LocalTZA key w) = Throw TypeError.
Proof.
  intros H. rewrite closeSection_unfold.
  now destruct (lookup w key).
Qed.

Lemma pushLog_missing (type : LogType) (key value : string) (w : World FS) :
  isSection (lookup w key) = false ->
  _pushLog LocalTZA type key value w =
  (Throw TypeError,
   mkWorld (this w) (disk w) (clock w) (S (ticks w)) (objectPrototypeEnd w)).
Proof.
  intros H. rewrite pushLog_unfold.
  now destruct (lookup w key).
Qed.

(** With an accepting file system [save] fails only when the page cannot
    be rendered. *)
Lemma ensureDirectory_accepting (path : string) (w : World FS) :
  Accepting -> fst (ensureDirectory path w) = Ok tt.
Proof.
  intros [Hmk _]. unfold ensureDirectory, bind, onDisk, ret. simpl.
  destruct (existsSync path (disk w)) eqn:E; [reflexivity|]. simpl.
  specialize (Hmk path (disk w) E).
  destruct (mkdirSync path (disk w)). exact Hmk.
Qed.

Lemma directories_accepting (log : Log.t) (path : string) (w : World FS) :
  Accepting -> fst (directories LocalTZA log path w) = Ok path.
Proof.
  intros Hacc. unfold directories.
  rewrite (bind_snd_ok _ _ _ tt) by now apply ensureDirectory_accepting.
  rewrite (bind_snd_ok _ _ _ tt) by now apply ensureDirectory_accepting.
  rewrite (bind_snd_ok _ _ _ tt) by now apply ensureDirectory_accepting.
  reflexivity.
Qed.


End MethodFacts.

(* ================================================================== *)
(** * Steps of the instance *)

Section TransFacts.
Context {FS : Type} {fsapi : FileSystem FS}.
Variable LocalTZA : Z -> Z.
Import JsObject.

Lemma Trans_mono (C U C' U' : string -> Prop) x y :
  (forall k, C k -> C' k) -> (forall k, U k -> U' k) ->
  Trans C U x y -> Trans C' U' x y.
Proof.
  intros HC HU H.
  induction H; econstructor; eauto; fail.
Qed.

(** ** What the steps keep *)

Lemma Trans_identity (C U : string -> Prop) x y :
  Trans C U x y ->
  Log.title (fst y) = Log.title (fst x) /\
  Log.description (fst y) = Log.description (fst x) /\
  Log.logsPath (fst y) = Log.logsPath (fst x) /\
  Log.start (fst y) = Log.start (fst x).
Proof.
  intros H. induction H; cbn [fst]; try (now repeat split).
  destruct IHTrans1 as (A1 & A2 & A3 & A4).
  destruct IHTrans2 as (B1 & B2 & B3 & B4).
  repeat split; congruence.
Qed.

Lemma Trans_wellformed (C U : string -> Prop) x y :
  Trans C U x y ->
  WellFormed (Log.sections (fst x)) -> WellFormed (Log.sections (fst y)).
Proof.
  intros H. induction H; cbn [fst Log.sections Log.withSections Log.withEnd];
    auto using WellFormed_set.
Qed.

(** No call on the key [__proto__]: the prototype and
    [Object.prototype] stay as they are. *)
Lemma Trans_plain (C U : string -> Prop) x y :
  ~ C "__proto__" -> ~ U "__proto__" ->
  Trans C U x y ->
  proto (Log.sections (fst y)) = proto (Log.sections (fst x)) /\
  snd y = snd x.
Proof.
  intros HC HU H.
  induction H; cbn [fst snd Log.sections Log.withSections Log.withEnd].
  - now split.
  - split; [|reflexivity]. apply proto_set. congruence.
  - split; [|reflexivity]. apply proto_set. congruence.
  - split; [|reflexivity]. apply proto_set. congruence.
  - contradiction.
  - now split.
  - destruct IHTrans1, IHTrans2. split; congruence.
Qed.

Lemma isSection_set_other (p p' : bool) (o : t) (key k : string) (v : Sect.t) :
  k <> key ->
  isSection (get p' (set o key v) k) = isSection (get p o k).
Proof.
  intros Hne. unfold get, set.
  destruct (String.eqb_spec key "__proto__") as [->|Hkey]; cbn [own proto].
  - destruct (assoc k (own o)); [reflexivity|].
    destruct (String.eqb_spec k "__proto__"); [congruence|].
    destruct (inList k objectPrototypeMembers); [reflexivity|].
    destruct (inList k sectionFields), (proto o), (p && String.eqb k "end");
      reflexivity.
  - rewrite assoc_assign_other by assumption.
    destruct (assoc k (own o)); [reflexivity|].
    destruct (String.eqb k "__proto__"); [reflexivity|].
    destruct (inList k objectPrototypeMembers); [reflexivity|].
    destruct (proto o); [reflexivity|].
    destruct (p' && String.eqb k "end"), (p && String.eqb k "end");
      reflexivity.
Qed.

Lemma isSection_polluted (p p' : bool) (o : t) (k : string) :
  isSection (get p' o k) = isSection (get p o k).
Proof.
  unfold get.
  destruct (assoc k (own o)); [reflexivity|].
  destruct (String.eqb k "__proto__"); [reflexivity|].
  destruct (inList k objectPrototypeMembers); [reflexivity|].
  destruct (proto o); [reflexivity|].
  destruct (p' && String.eqb k "end"), (p && String.eqb k "end"); reflexivity.
Qed.

(** A key no call creates a section under leads to no section. *)
Lemma Trans_absent (C U : string -> Prop) (k : string) x y :
  ~ C k ->
  Trans C U x y ->
  isSection (get (snd x) (Log.sections (fst x)) k) = false ->
  isSection (get (snd y) (Log.sections (fst y)) k) = false.
Proof.
  intros HC H.
  induction H; cbn [fst snd Log.sections Log.withSections Log.withEnd];
    intros Hk; auto.
  - rewrite (isSection_set_other p p); [exact Hk | congruence].
  - rewrite (isSection_set_other p p); [exact Hk|].
    intros ->. rewrite H0 in Hk. discriminate.
  - rewrite (isSection_set_other p p); [exact Hk|].
    intros ->. rewrite H0 in Hk. discriminate.
  - now rewrite (isSection_polluted p).
Qed.


(** ** The methods as steps *)

Lemma get_objectPrototype (p : bool) (o : t) (k : string) :
  get p o k = VObjectPrototype -> k = "__proto__".
Proof.
  unfold get. destruct (assoc k (own o)); [discriminate|].
  destruct (String.eqb_spec k "__proto__"); [trivial|].
  destruct (inList k objectPrototypeMembers); [discriminate|].
  destruct (proto o).
  - destruct (inList k sectionFields); discriminate.
  - destruct (p && String.eqb k "end"); discriminate.
Qed.

Section Steps.
Variables C U : string -> Prop.

Lemma bind_Trans {A B : Type} (m : M FS A) (k : A -> M FS B) (w : World FS) :
  Trans C U (view w) (view (snd (m w))) ->
  (forall a w', Trans C U (view w') (view (snd (k a w')))) ->
  Trans C U (view w) (view (snd (bind m k w))).
Proof.
  intros Hm Hk. unfold bind.
  destruct (m w) as [[a|e] w']; cbn [snd] in *; [|exact Hm].
  exact (TTrans _ _ _ _ _ Hm (Hk a w')).
Qed.

Lemma save_Trans (w : World FS) :
  Trans C U (view w) (view (snd (save LocalTZA w))).
Proof.
  unfold view. destruct (save_effect LocalTZA w) as (A & _ & _ & D).
  rewrite A, D. apply TEnd.
Qed.

Lemma createSection_Trans (name key : string) (w : World FS) :
  C key ->
  Trans C U (view w) (view (snd (createSection LocalTZA name key w))).
Proof.
  intros HC. rewrite createSection_unfold.
  eapply TTrans; [|apply save_Trans].
  unfold view, created. cbn [this objectPrototypeEnd]. now apply TCreate.
Qed.

Lemma closeSection_Trans (key : string) (w : World FS) :
  U key ->
  Trans C U (view w) (view (snd (closeSection LocalTZA key w))).
Proof.
  intros HU. rewrite closeSection_unfold. unfold lookup.
  destruct (get (objectPrototypeEnd w) (Log.sections (this w)) key) eqn:E;
    cbn [snd]; try apply TRefl.
  - eapply TTrans; [|apply save_Trans].
    unfold view, closed. cbn [this objectPrototypeEnd]. now apply TClose.
  - pose proof (get_objectPrototype _ _ _ E) as ->.
    unfold view. cbn [this objectPrototypeEnd]. now apply TPollute.
Qed.

Lemma pushLog_Trans (type : LogType) (key value : string) (w : World FS) :
  U key ->
  Trans C U (view w) (view (snd (_pushLog LocalTZA type key value w))).
Proof.
  intros HU. rewrite pushLog_unfold. unfold lookup.
  destruct (get (objectPrototypeEnd w) (Log.sections (this w)) key) eqn:E;
    cbn [snd]; try apply TRefl.
  eapply TTrans; [|apply save_Trans].
  unfold view, pushed. cbn [this objectPrototypeEnd]. now apply TPush.
Qed.

Lemma logException_Trans (type : LogType) (message : string) (w : World FS) :
  C "EXCEPTIONS" -> U "EXCEPTIONS" ->
  Trans C U (view w) (view (snd (_logException LocalTZA type message w))).
Proof.
  intros HC HU. unfold _logException.
  apply bind_Trans; [apply TRefl|]. intros section w1.
  apply bind_Trans.
  - destruct section; try apply TRefl. now apply createSection_Trans.
  - intros _ w2. apply bind_Trans; [now apply pushLog_Trans|].
    intros _ w3. now apply closeSection_Trans.
Qed.

Lemma call_Trans (c : Call) (w : World FS) :
  (forall k, creates c k = true -> C k) ->
  (forall k, reads c k = true -> U k) ->
  Trans C U (view w) (view (snd (call LocalTZA c w))).
Proof.
  intros HC HU.
  destruct c; cbn [call creates reads] in *.
  - apply createSection_Trans, HC, String.eqb_refl.
  - apply closeSection_Trans, HU, String.eqb_refl.
  - apply pushLog_Trans, HU, String.eqb_refl.
  - apply pushLog_Trans, HU, String.eqb_refl.
  - apply pushLog_Trans, HU, String.eqb_refl.
  - apply logException_Trans; [apply HC | apply HU]; reflexivity.
  - apply logException_Trans; [apply HC | apply HU]; reflexivity.
  - apply save_Trans.
Qed.

Lemma run_Trans (cs : list Call) :
  (forall c k, In c cs -> creates c k = true -> C k) ->
  (forall c k, In c cs -> reads c k = true -> U k) ->
  forall w, Trans C U (view w) (view (run LocalTZA cs w)).
Proof.
  induction cs as [|c cs IH]; intros HC HU w; [apply TRefl|].
  cbn [run].
  eapply TTrans.
  - apply call_Trans; intros k Hk; [eapply HC | eapply HU]; eauto; now left.
  - apply IH; intros c' k Hin Hk; [eapply HC | eapply HU]; eauto; now right.
Qed.
End Steps.

(** ** Runs *)

Lemma get_empty (p : bool) (k : string) : isSection (get p empty k) = false.
Proof.
  unfold get, empty. cbn [assoc own proto].
  destruct (String.eqb k "__proto__"); [reflexivity|].
  destruct (inList k objectPrototypeMembers); [reflexivity|].
  now destruct (p && String.eqb k "end").
Qed.

Lemma run_absent (cs : list Call) (k : string) (w : World FS) :
  (forall c, In c cs -> creates c k = false) ->
  isSection (lookup w k) = false ->
  isSection (lookup (run LocalTZA cs w) k) = false.
Proof.
  intros Hno Hk.
  pose proof (run_Trans (fun k' => exists c, In c cs /\ creates c k' = true)
                        (fun _ => True) cs) as HT.
  specialize (HT (fun c k' Hin Hc => ex_intro _ c (conj Hin Hc))
                 (fun _ _ _ _ => I) w).
  refine (Trans_absent _ _ k _ _ _ HT Hk).
  intros (c & Hin & Hc). rewrite (Hno c Hin) in Hc. discriminate.
Qed.

Lemma run_identity (cs : list Call) (w : World FS) :
  Log.title (this (run LocalTZA cs w)) = Log.title (this w) /\
  Log.description (this (run LocalTZA cs w)) = Log.description (this w) /\
  Log.logsPath (this (run LocalTZA cs w)) = Log.logsPath (this w) /\
  Log.start (this (run LocalTZA cs w)) = Log.start (this w).
Proof.
  exact (Trans_identity _ _ _ _
           (run_Trans (fun _ => True) (fun _ => True) cs
                      (fun _ _ _ _ => I) (fun _ _ _ _ => I) w)).
Qed.

Lemma run_wellformed (cs : list Call) (w : World FS) :
  WellFormed (Log.sections (this w)) ->
  WellFormed (Log.sections (this (run LocalTZA cs w))).
Proof.
  exact (Trans_wellformed _ _ _ _
           (run_Trans (fun _ => True) (fun _ => True) cs
                      (fun _ _ _ _ => I) (fun _ _ _ _ => I) w)).
Qed.

(** No call names [__proto__]: the object keeps its prototype and
    [Object.prototype] its state. *)
Lemma run_plain (cs : list Call) (w : World FS) :
  (forall c, In c cs -> names c "__proto__" = false) ->
  JsObject.proto (Log.sections (this (run LocalTZA cs w))) =
    JsObject.proto (Log.sections (this w)) /\
  objectPrototypeEnd (run LocalTZA cs w) = objectPrototypeEnd w.
Proof.
  intros Hno.
  pose proof (run_Trans (fun k' => exists c, In c cs /\ creates c k' = true)
                        (fun k' => exists c, In c cs /\ reads c k' = true) cs
                        (fun c k' Hin Hc => ex_intro _ c (conj Hin Hc))
                        (fun c k' Hin Hc => ex_intro _ c (conj Hin Hc)) w)
    as HT.
  refine (Trans_plain _ _ _ _ _ _ HT).
  - intros (c & Hin & Hc). specialize (Hno c Hin). unfold names in Hno.
    rewrite Hc in Hno. discriminate.
  - intros (c & Hin & Hc). specialize (Hno c Hin). unfold names in Hno.
    rewrite Hc, orb_true_r in Hno. discriminate.
Qed.

End TransFacts.

(* ================================================================== *)
(** * Runs of [createSection] *)

Section CreationFacts.
Context {FS : Type} {fsapi : FileSystem FS}.
Variable LocalTZA : Z -> Z.
Import JsObject.

Lemma assign_new (k : string) (v : Sect.t) (l : list (string * Sect.t)) :
  assoc k l = None -> assign k v l = (l ++ [(k, v)])%list.
Proof.
  induction l as [|[k0 v0] l IH]; simpl; [reflexivity|].
  destruct (String.eqb_spec k0 k) as [->|Hk]; [discriminate|].
  intros H. now rewrite IH.
Qed.

Lemma assoc_app_None (k : string) (l1 l2 : list (string * Sect.t)) :
  assoc k l1 = None -> assoc k l2 = None -> assoc k (l1 ++ l2) = None.
Proof.
  induction l1 as [|[k0 v0] l1 IH]; simpl; [auto|].
  destruct (String.eqb k0 k); [discriminate | exact IH].
Qed.

Lemma createSection_own (name key : string) (w : World FS) :
  key <> "__proto__" ->
  own (Log.sections (this (snd (createSection LocalTZA name key w)))) =
  assign key
         (Sect.make key name (mkDate (clock w (ticks w)))
                    (mkDate (clock w (S (ticks w)))) NotClosed [])
         (own (Log.sections (this w))).
Proof.
  intros Hk. rewrite createSection_unfold.
  destruct (save_effect LocalTZA (created name key w)) as (A & _).
  rewrite A. unfold saved, created.
  cbn [this Log.sections Log.withSections Log.withEnd].
  now apply own_set.
Qed.

Lemma createSection_saved (name key : string) (w : World FS) :
  Log.end_ (this (snd (createSection LocalTZA name key w))) <> None.
Proof.
  rewrite createSection_unfold.
  destruct (save_effect LocalTZA (created name key w)) as (A & _).
  rewrite A. discriminate.
Qed.

(** The records a run of creations under new, distinct keys adds, in the
    order of the calls. *)
Lemma creations_own (nks : list (string * string)) :
  forall w : World FS,
    (forall k, In k (map snd nks) -> k <> "__proto__") ->
    NoDup (map snd nks) ->
    (forall k, In k (map snd nks) ->
               assoc k (own (Log.sections (this w))) = None) ->
    exists recs,
      own (Log.sections (this (run LocalTZA (creations nks) w))) =
        (own (Log.sections (this w)) ++ recs)%list /\
      map fst recs = map snd nks /\
      map (fun r => Sect.key (snd r)) recs = map snd nks /\
      map (fun r => Sect.name (snd r)) recs = map fst nks.
Proof.
  induction nks as [|[name key] nks IH]; intros w Hproto Hnd Hnew.
  - exists []. cbn [creations map run]. now rewrite app_nil_r.
  - change (run LocalTZA (creations ((name, key) :: nks)) w)
      with (run LocalTZA (creations nks)
                (snd (createSection LocalTZA name key w))).
    cbn [map fst snd] in Hproto, Hnd, Hnew |- *.
    inversion Hnd as [|? ? Hnot Hnd']; subst.
    set (w1 := snd (createSection LocalTZA name key w)).
    assert (Hown : own (Log.sections (this w1)) =
                   (own (Log.sections (this w)) ++
                    [(key, Sect.make key name (mkDate (clock w (ticks w)))
                                     (mkDate (clock w (S (ticks w))))
                                     NotClosed [])])%list).
    { unfold w1. rewrite createSection_own by (apply Hproto; now left).
      apply assign_new, Hnew. now left. }
    destruct (IH w1) as (recs & E & K1 & K2 & K3).
    + intros k Hk. apply Hproto. now right.
    + exact Hnd'.
    + intros k Hk. rewrite Hown. apply assoc_app_None.
      * apply Hnew. now right.
      * simpl. destruct (String.eqb_spec key k) as [->|_];
          [contradiction | reflexivity].
    + eexists. split; [|split; [|split]].
      * fold w1. rewrite E, Hown, <- app_assoc. reflexivity.
      * simpl. now rewrite K1.
      * simpl. now rewrite K2.
      * simpl. now rewrite K3.
Qed.

Lemma Trans_saved (C U : string -> Prop) x y :
  Trans C U x y -> Log.end_ (fst x) <> None -> Log.end_ (fst y) <> None.
Proof.
  intros H. induction H; cbn [fst Log.end_ Log.withEnd Log.withSections];
    auto; discriminate.
Qed.

Lemma run_saved (cs : list Call) (w : World FS) :
  Log.end_ (this w) <> None -> Log.end_ (this (run LocalTZA cs w)) <> None.
Proof.
  exact (Trans_saved _ _ _ _
           (run_Trans LocalTZA (fun _ => True) (fun _ => True) cs
                      (fun _ _ _ _ => I) (fun _ _ _ _ => I) w)).
Qed.

End CreationFacts.

(* ================================================================== *)
(** * The methods, step by step *)

Section EffectFacts.
Context {FS : Type} {fsapi : FileSystem FS}.
Variable LocalTZA : Z -> Z.
Import JsObject.

Lemma save_shape (w : World FS) :
  Shape (snd (save LocalTZA w))
        (Log.withEnd (mkDate (clock w (ticks w))) (this w))
        (clock w) (S (ticks w)) (objectPrototypeEnd w).
Proof. exact (save_effect LocalTZA w). Qed.

Lemma createSection_shape (name key : string) (w : World FS) :
  Shape (snd (createSection LocalTZA name key w))
        (Log.withEnd
           (mkDate (clock w (2 + ticks w)))
           (Log.withSections
              (set (Log.sections (this w)) key
                   (Sect.make key name (mkDate (clock w (ticks w)))
                              (mkDate (clock w (1 + ticks w))) NotClosed []))
              (this w)))
        (clock w) (3 + ticks w) (objectPrototypeEnd w).
Proof. rewrite createSection_unfold. exact (save_shape (created name key w)). Qed.

Lemma pushLog_shape (type : LogType) (key value : string) (s : Sect.t)
      (w : World FS) :
  lookup w key = VSection s ->
  Shape (snd (_pushLog LocalTZA type key value w))
        (Log.withEnd
           (mkDate (clock w (1 + ticks w)))
           (Log.withSections
              (set (Log.sections (this w)) key
                   (Sect.push (entryAt LocalTZA type value w) s))
              (this w)))
        (clock w) (2 + ticks w) (objectPrototypeEnd w).
Proof.
  intros Hs. rewrite pushLog_unfold, Hs.
  exact (save_shape (pushed LocalTZA type key value s w)).
Qed.

Lemma closeSection_shape (key : string) (s : Sect.t) (w : World FS) :
  lookup w key = VSection s ->
  Shape (snd (closeSection LocalTZA key w))
        (Log.withEnd
           (mkDate (clock w (1 + ticks w)))
           (Log.withSections
              (set (Log.sections (this w)) key
                   (Sect.close (mkDate (clock w (ticks w))) s))
              (this w)))
        (clock w) (2 + ticks w) (objectPrototypeEnd w).
Proof.
  intros Hs. rewrite closeSection_unfold, Hs.
  exact (save_shape (closed key s w)).
Qed.

(** A world of a given shape, read at a key other than [__proto__] that
    has just been written. *)
Lemma lookup_written (w : World FS) (l : Log.t) (e : Date) (key : string)
      (s : Sect.t) (c : nat -> Z) (n : nat) (p : bool) :
  key <> "__proto__" ->
  Shape w (Log.withEnd e (Log.withSections (set (Log.sections l) key s) l))
        c n p ->
  lookup w key = VSection s.
Proof.
  intros Hk (A & _ & _ & D). unfold lookup. rewrite A, D.
  cbn [Log.sections Log.withSections Log.withEnd].
  apply get_own. rewrite own_set by assumption. apply assoc_assign_same.
Qed.

Lemma logException_unfold (type : LogType) (message : string) (w : World FS) :
  _logException LocalTZA type message w =
  bind (match lookup w "EXCEPTIONS" with
        | VUndefined =>
            createSection LocalTZA "Unhandled exceptions" "EXCEPTIONS"
        | _ => ret tt
        end)
       (fun _ =>
          bind (_pushLog LocalTZA type "EXCEPTIONS" message)
               (fun _ => closeSection LocalTZA "EXCEPTIONS")) w.
Proof. reflexivity. Qed.



(** Once the section exists, the helper is a step that creates nothing. *)
Lemma logException_present_Trans (type : LogType) (message : string)
      (s : Sect.t) (w : World FS) :
  lookup w "EXCEPTIONS" = VSection s ->
  Trans (fun _ => False) (fun _ => True) (view w)
        (view (snd (_logException LocalTZA type message w))).
Proof.
  intros Hs. rewrite logException_unfold, Hs.
  apply bind_Trans; [apply TRefl|]. intros _ w1.
  apply bind_Trans; [now apply pushLog_Trans|].
  intros _ w2. now apply closeSection_Trans.
Qed.



Lemma run_clock (cs : list Call) (w : World FS) :
  clock (run LocalTZA cs w) = clock w.
Proof.
  revert w. induction cs as [|c cs IH]; intros w; [reflexivity|].
  cbn [run]. rewrite IH.
  assert (Hsave : forall w0 : World FS, clock (snd (save LocalTZA w0)) = clock w0)
    by (intros w0; now destruct (save_effect LocalTZA w0) as (_ & B & _)).
  assert (Hcreate : forall n k (w0 : World FS),
             clock (snd (createSection LocalTZA n k w0)) = clock w0).
  { intros n k w0. rewrite createSection_unfold. now rewrite Hsave. }
  assert (Hclose : forall k (w0 : World FS),
             clock (snd (closeSection LocalTZA k w0)) = clock w0).
  { intros k w0. rewrite closeSection_unfold.
    destruct (lookup w0 k); try reflexivity. now rewrite Hsave. }
  assert (Hpush : forall t k v (w0 : World FS),
             clock (snd (_pushLog LocalTZA t k v w0)) = clock w0).
  { intros t k v w0. rewrite pushLog_unfold.
    destruct (lookup w0 k); try reflexivity. now rewrite Hsave. }
  assert (Hexc : forall t m (w0 : World FS),
             clock (snd (_logException LocalTZA t m w0)) = clock w0).
  { intros t m w0. rewrite logException_unfold. unfold bind.
    destruct (lookup w0 "EXCEPTIONS") eqn:E.
    - pose proof (Hcreate "Unhandled exceptions" "EXCEPTIONS" w0) as H1.
      destruct (createSection LocalTZA "Unhandled exceptions" "EXCEPTIONS" w0)
        as [[[]|e] w1]; cbn [snd] in *; [|exact H1].
      pose proof (Hpush t "EXCEPTIONS" m w1) as H2.
      destruct (_pushLog LocalTZA t "EXCEPTIONS" m w1) as [[[]|e] w2];
        cbn [snd] in *; [|congruence].
      rewrite Hclose. congruence.
    - cbn [ret]. pose proof (Hpush t "EXCEPTIONS" m w0) as H2.
      destruct (_pushLog LocalTZA t "EXCEPTIONS" m w0) as [[[]|e] w2];
        cbn [snd] in *; [|congruence].
      rewrite Hclose. congruence.
    - cbn [ret]. pose proof (Hpush t "EXCEPTIONS" m w0) as H2.
      destruct (_pushLog LocalTZA t "EXCEPTIONS" m w0) as [[[]|e] w2];
        cbn [snd] in *; [|congruence].
      rewrite Hclose. congruence.
    - cbn [ret]. pose proof (Hpush t "EXCEPTIONS" m w0) as H2.
      destruct (_pushLog LocalTZA t "EXCEPTIONS" m w0) as [[[]|e] w2];
        cbn [snd] in *; [|congruence].
      rewrite Hclose. congruence. }
  destruct c; cbn [call];
    unfold info, error, debug, errorException, debugException; auto.
Qed.

(** ** Calls that return

    In a plain world, with a file system that accepts the writes, a
    method fails on a missing section only. *)









End EffectFacts.

(* ================================================================== *)
(** * Texts inside the page *)

Section InfixFacts.
Variable LocalTZA : Z -> Z.
Import JsObject.

Lemma Infix_refl (v : string) : Infix v v.
Proof. exists "", "". simpl. now rewrite append_nil_r. Qed.

Lemma Infix_head (v b : string) : Infix v (v ++ b).
Proof. now exists "", b. Qed.

Lemma Infix_app_l (v a b : string) : Infix v a -> Infix v (a ++ b).
Proof.
  intros (x & y & ->). exists x, (y ++ b). now rewrite !append_assoc.
Qed.

Lemma Infix_app_r (v a b : string) : Infix v b -> Infix v (a ++ b).
Proof.
  intros (x & y & ->). exists (a ++ x), y. now rewrite !append_assoc.
Qed.

Lemma Infix_trans (u v s : string) : Infix u v -> Infix v s -> Infix u s.
Proof.
  intros (a & b & ->) (x & y & ->).
  exists (x ++ a), (b ++ y). now rewrite !append_assoc.
Qed.

Lemma Infix_joinAll (x : string) (l : list string) :
  In x l -> Infix x (joinAll l).
Proof.
  induction l as [|y l IH]; intros H; [destruct H|].
  simpl. destruct H as [->|H].
  - apply Infix_head.
  - apply Infix_app_r. now apply IH.
Qed.

Lemma Infix_occursIn (v s : string) : Infix v s -> occursIn v s = true.
Proof. intros (a & b & ->). apply split_occursIn. Qed.

(** The value of an entry stands in its line, and its line in the block
    of its section. *)
Lemma value_in_line (e : Entry.t) : Infix (Entry.value e) (logLine (Some e)).
Proof.
  unfold logLine. do 7 apply Infix_app_r. apply Infix_head.
Qed.

Lemma renderLogs_join (p : bool) (s : Sect.t) :
  renderLogs p s = joinAll (map logLine (arrayForIn p (Sect.logs s))).
Proof. unfold renderLogs. now rewrite fold_left_append. Qed.

Lemma value_in_block (p : bool) (s : Sect.t) (e : Entry.t) :
  In e (Sect.logs s) ->
  Infix (Entry.value e) (renderSection LocalTZA p s).
Proof.
  intros He. unfold renderSection.
  do 9 apply Infix_app_r. apply Infix_app_l.
  rewrite renderLogs_join.
  apply (Infix_trans _ _ _ (value_in_line e)).
  apply Infix_joinAll, in_map. unfold arrayForIn.
  apply in_or_app. left. now apply in_map.
Qed.

Lemma key_in_toc (s : Sect.t) : Infix (Sect.key s) (tocEntry s).
Proof.
  unfold tocEntry, tocLine. apply Infix_app_r, Infix_head.
Qed.

Lemma name_in_toc (s : Sect.t) : Infix (Sect.name s) (tocEntry s).
Proof.
  unfold tocEntry, tocLine. do 3 apply Infix_app_r. apply Infix_head.
Qed.

(** An own section is among the sections shown. *)
Lemma own_shown (p : bool) (o : t) (k : string) (s : Sect.t) :
  assoc k (own o) = Some s -> In s (shownSections p o).
Proof.
  intros Hs. unfold shownSections. apply in_flat_map.
  exists k. split.
  - unfold forIn. apply in_or_app. left.
    apply (Permutation_in _ (Permutation_sym (ownKeys_perm o))).
    apply in_map_iff. exists (k, s). split; [reflexivity|].
    now apply assoc_Some_In.
  - unfold selectSection. rewrite (get_own p o k s Hs). now left.
Qed.

Lemma page_parts (block : Sect.t -> string) (log : Log.t) (finished : Date)
      (shown : list Sect.t) :
  Infix (Log.title log) (pageWith LocalTZA block log finished shown) /\
  Infix (Log.description log) (pageWith LocalTZA block log finished shown) /\
  (forall s, In s shown ->
             Infix (tocEntry s) (pageWith LocalTZA block log finished shown) /\
             Infix (block s) (pageWith LocalTZA block log finished shown)).
Proof.
  unfold pageWith. split; [|split].
  - apply Infix_app_r, Infix_head.
  - do 7 apply Infix_app_r. apply Infix_head.
  - intros s Hs. split.
    + do 13 apply Infix_app_r. apply Infix_app_l.
      apply Infix_joinAll. now apply in_map.
    + do 15 apply Infix_app_r. apply Infix_app_l.
      apply Infix_joinAll. now apply in_map.
Qed.

End InfixFacts.

(* ================================================================== *)
(** * Saving, seen from the disk *)

Section SavingFacts.
Context {FS : Type} {fsapi : FileSystem FS}.
Variable LocalTZA : Z -> Z.
Import JsObject.

Lemma ensureDirectory_found (path : string) (w : World FS) :
  existsSync path (disk w) = true ->
  ensureDirectory path w =
  (Ok tt, mkWorld (this w) (disk w) (clock w) (ticks w) (objectPrototypeEnd w)).
Proof.
  intros H. unfold ensureDirectory, bind, onDisk, ret.
  cbn [this disk clock ticks objectPrototypeEnd]. now rewrite H.
Qed.

Lemma ensureDirectory_missing (path : string) (w : World FS) :
  existsSync path (disk w) = false ->
  ensureDirectory path w =
  (fst (mkdirSync path (disk w)),
   mkWorld (this w) (snd (mkdirSync path (disk w))) (clock w) (ticks w)
           (objectPrototypeEnd w)).
Proof.
  intros H. unfold ensureDirectory, bind, onDisk, ret.
  cbn [this disk clock ticks objectPrototypeEnd fst snd]. rewrite H.
  cbn [this disk clock ticks objectPrototypeEnd fst snd].
  destruct (mkdirSync path (disk w)); reflexivity.
Qed.

(** When [save] returns, it has written the page of the instance it
    leaves. *)
Lemma save_writes (w : World FS) :
  fst (save LocalTZA w) = Ok tt ->
  exists html w1,
    save LocalTZA w =
      onDisk (writeFileSync (filePath LocalTZA (this w)) html) w1 /\
    _render LocalTZA (objectPrototypeEnd (snd (save LocalTZA w)))
            (this (snd (save LocalTZA w))) = Ok html.
Proof.
  intros H. destruct (save_ok LocalTZA w H) as (html & w1 & Hr & _ & E).
  exists html, w1. split; [exact E|].
  destruct (save_effect LocalTZA w) as (A & _ & _ & D). now rewrite A, D.
Qed.

Lemma filePath_Trans (C U : string -> Prop) (w w' : World FS) :
  Trans C U (view w) (view w') ->
  filePath LocalTZA (this w') = filePath LocalTZA (this w).
Proof.
  intros H. apply Trans_identity in H as (A & _ & B & D).
  unfold view in *. cbn [fst] in *.
  unfold filePath. now rewrite A, B, D.
Qed.

Lemma createSection_writes (name key : string) (w : World FS) :
  fst (createSection LocalTZA name key w) = Ok tt ->
  exists html w1,
    createSection LocalTZA name key w =
      onDisk (writeFileSync (filePath LocalTZA (this w)) html) w1 /\
    _render LocalTZA
            (objectPrototypeEnd (snd (createSection LocalTZA name key w)))
            (this (snd (createSection LocalTZA name key w))) = Ok html.
Proof.
  rewrite createSection_unfold. intros H.
  exact (save_writes (created name key w) H).
Qed.

Lemma pushLog_writes (type : LogType) (key value : string) (w : World FS) :
  fst (_pushLog LocalTZA type key value w) = Ok tt ->
  exists html w1,
    _pushLog LocalTZA type key value w =
      onDisk (writeFileSync (filePath LocalTZA (this w)) html) w1 /\
    _render LocalTZA
            (objectPrototypeEnd (snd (_pushLog LocalTZA type key value w)))
            (this (snd (_pushLog LocalTZA type key value w))) = Ok html.
Proof.
  rewrite pushLog_unfold.
  destruct (lookup w key) as [|s| |]; try discriminate.
  intros H. exact (save_writes (pushed LocalTZA type key value s w) H).
Qed.

Lemma closeSection_writes (key : string) (w : World FS) :
  fst (closeSection LocalTZA key w) = Ok tt ->
  exists html w1,
    closeSection LocalTZA key w =
      onDisk (writeFileSync (filePath LocalTZA (this w)) html) w1 /\
    _render LocalTZA
            (objectPrototypeEnd (snd (closeSection LocalTZA key w)))
            (this (snd (closeSection LocalTZA key w))) = Ok html.
Proof.
  rewrite closeSection_unfold.
  destruct (lookup w key) as [|s| |]; try discriminate.
  intros H. exact (save_writes (closed key s w) H).
Qed.

Lemma logException_writes (type : LogType) (message : string) (w : World FS) :
  fst (_logException LocalTZA type message w) = Ok tt ->
  exists html w1,
    _logException LocalTZA type message w =
      onDisk (writeFileSync (filePath LocalTZA (this w)) html) w1 /\
    _render LocalTZA
            (objectPrototypeEnd (snd (_logException LocalTZA type message w)))
            (this (snd (_logException LocalTZA type message w))) = Ok html.
Proof.
  rewrite logException_unfold.
  set (first := match lookup w "EXCEPTIONS" with
                | VUndefined =>
                    createSection LocalTZA "Unhandled exceptions" "EXCEPTIONS"
                | _ => ret tt
                end).
  assert (T1 : Trans (fun _ => True) (fun _ => True)
                     (view w) (view (snd (first w)))).
  { unfold first. destruct (lookup w "EXCEPTIONS"); try apply TRefl.
    now apply createSection_Trans. }
  intros H.
  apply bind_value in H as ([] & H1 & H).
  rewrite (bind_snd_ok _ _ _ tt H1) in *.
  set (w1 := snd (first w)) in *.
  pose proof (pushLog_Trans LocalTZA (fun _ => True) (fun _ => True)
                type "EXCEPTIONS" message w1 I) as T2.
  apply bind_value in H as ([] & H2 & H).
  rewrite (bind_snd_ok _ _ _ tt H2) in *.
  set (w2 := snd (_pushLog LocalTZA type "EXCEPTIONS" message w1)) in *.
  destruct (closeSection_writes "EXCEPTIONS" w2 H) as (html & w3 & E & R).
  exists html, w3. split; [|exact R].
  rewrite E.
  now rewrite (filePath_Trans _ _ _ _ T2), (filePath_Trans _ _ _ _ T1).
Qed.

(** [_prepareSave] in a world whose first directory is missing and
    cannot be made. *)
Lemma prepareSave_year_fails (w : World FS) (e : Error) (d' : FS) :
  existsSync (yearDirectory LocalTZA (this w)) (disk w) = false ->
  mkdirSync (yearDirectory LocalTZA (this w)) (disk w) = (Throw e, d') ->
  _prepareSave LocalTZA w =
  (Throw e,
   mkWorld (saved w) d' (clock w) (S (ticks w)) (objectPrototypeEnd w)).
Proof.
  intros Hex Hmk. rewrite prepareSave_unfold. unfold directories, bind.
  rewrite ensureDirectory_missing by exact Hex.
  cbn [this disk clock ticks objectPrototypeEnd].
  change (Log.logsPath (saved w) ++ "/" ++
          _dateToString LocalTZA (Log.start (saved w)) "yyyy")
    with (yearDirectory LocalTZA (this w)).
  now rewrite Hmk.
Qed.

Lemma prepareSave_found (w : World FS) :
  existsSync (yearDirectory LocalTZA (this w)) (disk w) = true ->
  existsSync (monthDirectory LocalTZA (this w)) (disk w) = true ->
  existsSync (dayDirectory LocalTZA (this w)) (disk w) = true ->
  _prepareSave LocalTZA w =
  (Ok (filePath LocalTZA (this w)),
   mkWorld (saved w) (disk w) (clock w) (S (ticks w)) (objectPrototypeEnd w)).
Proof.
  intros Hy Hm Hd. rewrite prepareSave_unfold. unfold directories, bind.
  rewrite ensureDirectory_found by exact Hy.
  cbn [this disk clock ticks objectPrototypeEnd].
  rewrite ensureDirectory_found by exact Hm.
  cbn [this disk clock ticks objectPrototypeEnd].
  rewrite ensureDirectory_found by exact Hd.
  reflexivity.
Qed.

(** [_render] throws nothing but a TypeError. *)
Lemma render_throws_TypeError (p : bool) (log : Log.t) (e : Error) :
  _render LocalTZA p log = Throw e -> e = TypeError.
Proof.
  unfold _render. destruct (Log.end_ log); [|congruence].
  assert (H : forall keys acc,
             (forall e', acc = Throw e' -> e' = TypeError) ->
             forall e',
               fold_left
                 (fun acc i =>
                    match acc with
                    | Throw e => Throw e
                    | Ok sectionsStr =>
                        match get p (Log.sections log) i with
                        | VSection section =>
                            Ok (sectionsStr ++ renderSection LocalTZA p section)
                        | _ => Throw TypeError
                        end
                    end) keys acc = Throw e' -> e' = TypeError).
  { induction keys as [|i keys IH]; intros acc Hacc e' He'; [eauto|].
    cbn [fold_left] in He'. apply IH in He'; [exact He'|].
    intros e0. destruct acc as [str|e1]; [|apply Hacc].
    destruct (get p (Log.sections log) i); congruence. }
  unfold renderBody.
  destruct (fold_left _ _ (Ok "")) as [body|e1] eqn:E; [discriminate|].
  intros H1. apply H in E; [congruence | discriminate].
Qed.

End SavingFacts.

(* ================================================================== *)
(** * What stays of a section *)

Section KeepingFacts.
Context {FS : Type} {fsapi : FileSystem FS}.
Variable LocalTZA : Z -> Z.
Import JsObject.

Lemma isSection_set_same (p : bool) (o : t) (k : string) (v : Sect.t) :
  isSection (get p (set o k v) k) = true.
Proof.
  unfold get, set.
  destruct (String.eqb_spec k "__proto__") as [->|Hk]; cbn [own proto].
  - now destruct (assoc "__proto__" (own o)).
  - now rewrite assoc_assign_same.
Qed.

(** No step removes a section. *)
Lemma Trans_present (C U : string -> Prop) (k : string) x y :
  Trans C U x y ->
  isSection (get (snd x) (Log.sections (fst x)) k) = true ->
  isSection (get (snd y) (Log.sections (fst y)) k) = true.
Proof.
  intros H.
  induction H; cbn [fst snd Log.sections Log.withSections Log.withEnd];
    intros Hk; auto.
  - destruct (String.eqb_spec k key) as [->|Hne];
      [apply isSection_set_same|].
    now rewrite (isSection_set_other p p).
  - destruct (String.eqb_spec k key) as [->|Hne];
      [apply isSection_set_same|].
    now rewrite (isSection_set_other p p).
  - destruct (String.eqb_spec k key) as [->|Hne];
      [apply isSection_set_same|].
    now rewrite (isSection_set_other p p).
  - now rewrite (isSection_polluted p).
Qed.

Local Ltac kept :=
  cbn [Sect.logs Sect.key Sect.name Sect.start Sect.close Sect.push];
  rewrite ?app_nil_r; repeat split; reflexivity.

(** A section no step creates anew keeps its key, its name, its start
    and the entries it has, in their order. *)
Lemma Trans_appends (C U : string -> Prop) (k : string) x y :
  ~ C k -> k <> "__proto__" ->
  Trans C U x y ->
  forall s,
    get (snd x) (Log.sections (fst x)) k = VSection s ->
    exists s' more,
      get (snd y) (Log.sections (fst y)) k = VSection s' /\
      Sect.logs s' = (Sect.logs s ++ more)%list /\
      Sect.key s' = Sect.key s /\ Sect.name s' = Sect.name s /\
      Sect.start s' = Sect.start s.
Proof.
  intros HC Hk H.
  assert (Hother : forall p o key v s,
             key <> k -> get p o k = VSection s ->
             get p (set o key v) k = VSection s).
  { intros p o key v s Hne Hs.
    apply get_section in Hs as [Hs|(_ & E & _)]; [|congruence].
    apply get_own. unfold set.
    destruct (String.eqb key "__proto__"); cbn [own]; [exact Hs|].
    rewrite assoc_assign_other by congruence. exact Hs. }
  assert (Hsame : forall p o v s,
             get p o k = VSection s -> get p (set o k v) k = VSection v).
  { intros p o v s Hs. apply get_own. rewrite own_set by assumption.
    apply assoc_assign_same. }
  induction H; cbn [fst snd Log.sections Log.withSections Log.withEnd];
    intros s0 Hs.
  - exists s0, []. split; [exact Hs | kept].
  - exists s0, []. split; [|kept].
    apply Hother; [congruence | exact Hs].
  - destruct (String.eqb_spec key k) as [->|Hne].
    + rewrite Hs in H0. injection H0 as <-.
      exists (Sect.close now s0), []. split; [|kept].
      now apply (Hsame p _ _ s0).
    + exists s0, []. split; [|kept]. now apply Hother.
  - destruct (String.eqb_spec key k) as [->|Hne].
    + rewrite Hs in H0. injection H0 as <-.
      exists (Sect.push e s0), [e]. split; [|kept].
      now apply (Hsame p _ _ s0).
    + exists s0, []. split; [|kept]. now apply Hother.
  - exists s0, []. split; [|kept].
    apply get_section in Hs as [Hs|(_ & E & _)]; [|congruence].
    now apply get_own.
  - exists s0, []. split; [exact Hs | kept].
  - destruct (IHTrans1 _ Hs) as (s1 & m1 & H1 & L1 & A1 & A2 & A3).
    destruct (IHTrans2 _ H1) as (s2 & m2 & H2 & L2 & B1 & B2 & B3).
    exists s2, (m1 ++ m2)%list.
    split; [exact H2|].
    split; [rewrite L2, L1; now rewrite app_assoc|].
    repeat split; congruence.
Qed.

Lemma call_present (c : Call) (k : string) (w : World FS) :
  isSection (lookup w k) = true ->
  isSection (lookup (snd (call LocalTZA c w)) k) = true.
Proof.
  exact (Trans_present _ _ k _ _
           (call_Trans LocalTZA (fun _ => True) (fun _ => True) c w
                       (fun _ _ => I) (fun _ _ => I))).
Qed.

Lemma call_appends (c : Call) (k : string) (s : Sect.t) (w : World FS) :
  k <> "__proto__" ->
  resets c k = false ->
  lookup w k = VSection s ->
  exists s' more,
    lookup (snd (call LocalTZA c w)) k = VSection s' /\
    Sect.logs s' = (Sect.logs s ++ more)%list /\
    Sect.key s' = Sect.key s /\ Sect.name s' = Sect.name s /\
    Sect.start s' = Sect.start s.
Proof.
  intros Hk Hc Hs.
  assert (HT : Trans (fun k' => k' <> k) (fun _ => True) (view w)
                     (view (snd (call LocalTZA c w)))).
  { assert (Hexc : forall type message,
               Trans (fun k' => k' <> k) (fun _ => True) (view w)
                     (view (snd (_logException LocalTZA type message w)))).
    { intros type message.
      destruct (String.eqb_spec "EXCEPTIONS" k) as [<-|Hne].
      - apply (Trans_mono (fun _ => False) (fun _ => True));
          [tauto | trivial |].
        now apply (logException_present_Trans _ _ _ s).
      - now apply logException_Trans. }
    destruct c; cbn [call resets] in *;
      unfold info, error, debug, errorException, debugException.
    - apply createSection_Trans. now apply String.eqb_neq.
    - now apply closeSection_Trans.
    - now apply pushLog_Trans.
    - now apply pushLog_Trans.
    - now apply pushLog_Trans.
    - apply Hexc.
    - apply Hexc.
    - apply save_Trans. }
  refine (Trans_appends _ _ k _ _ _ Hk HT s Hs). tauto.
Qed.

(** ** Dates in order *)

Lemma Timely_later (b b' : Z) (s : Sect.t) :
  b <= b' -> Timely b s -> Timely b' s.
Proof. intros Hb (A & B & D). repeat split; [exact A | lia | exact D]. Qed.

Lemma records_assign (k : string) (v s : Sect.t) (l : list (string * Sect.t)) :
  In s (map snd (assign k v l)) -> s = v \/ In s (map snd l).
Proof.
  induction l as [|[k0 v0] l IH]; cbn [assign map snd In].
  - intros [<-|[]]. now left.
  - destruct (String.eqb k0 k); cbn [map snd In].
    + intros [<-|H]; [now left | right; now right].
    + intros [<-|H]; [right; now left|].
      destruct (IH H) as [->|H']; [now left | right; now right].
Qed.

Lemma records_set (o : t) (k : string) (v s : Sect.t) :
  In s (records (set o k v)) -> s = v \/ In s (records o).
Proof.
  unfold records, set.
  destruct (String.eqb k "__proto__"); cbn [own proto]; intros H;
    apply in_app_or in H as [H|H].
  - right. apply in_or_app. now left.
  - destruct H as [<-|[]]. now left.
  - apply records_assign in H as [->|H]; [now left|].
    right. apply in_or_app. now left.
  - right. apply in_or_app. now right.
Qed.

Lemma lookup_records (p : bool) (o : t) (k : string) (s : Sect.t) :
  get p o k = VSection s -> In s (records o).
Proof.
  intros H. unfold records. apply in_or_app.
  apply get_section in H as [H|(_ & _ & H)].
  - left. apply assoc_Some_In in H.
    change s with (snd (k, s)). now apply in_map.
  - right. rewrite H. now left.
Qed.

Lemma Ordered_tick (w : World FS) (l : Log.t) (d : FS) (n : nat) (p : bool) :
  Ordered w -> Log.sections l = Log.sections (this w) -> (ticks w <= n)%nat ->
  Ordered (mkWorld l d (clock w) n p).
Proof.
  intros [Hm Hall] Hl Hn. split; [exact Hm|].
  cbn [this clock ticks]. rewrite Hl.
  eapply Forall_impl; [|exact Hall].
  intros s. apply Timely_later. now apply Hm.
Qed.

Lemma Ordered_written (w : World FS) (key : string) (v : Sect.t) (n : nat) :
  Ordered w -> (ticks w <= n)%nat -> Timely (clock w n) v ->
  Ordered (mkWorld (Log.withSections (set (Log.sections (this w)) key v)
                                     (this w))
                   (disk w) (clock w) n (objectPrototypeEnd w)).
Proof.
  intros [Hm Hall] Hn Hv. split; [exact Hm|].
  cbn [this clock ticks Log.sections Log.withSections].
  apply Forall_forall. intros s Hs.
  apply records_set in Hs as [->|Hs]; [exact Hv|].
  rewrite Forall_forall in Hall.
  apply (Timely_later (clock w (ticks w))); [now apply Hm | now apply Hall].
Qed.

Lemma Ordered_save (w : World FS) :
  Ordered w -> Ordered (snd (save LocalTZA w)).
Proof.
  intros H. destruct (save_effect LocalTZA w) as (A & B & T & D).
  pose proof (Ordered_tick w (saved w) (disk (snd (save LocalTZA w)))
                (S (ticks w)) (objectPrototypeEnd w) H eq_refl
                (Nat.le_succ_diag_r _)) as [Hm Hall].
  split; [now rewrite B|].
  rewrite A, B, T. exact Hall.
Qed.

Lemma Ordered_createSection (name key : string) (w : World FS) :
  Ordered w -> Ordered (snd (createSection LocalTZA name key w)).
Proof.
  intros H. rewrite createSection_unfold. apply Ordered_save.
  apply Ordered_written; [exact H | lia |].
  destruct H as [Hm _].
  repeat split; cbn [Sect.start Sect.end_ Sect.elapsed getTime];
    [apply Hm; lia | apply Hm; lia | now left].
Qed.

Lemma Ordered_closeSection (key : string) (w : World FS) :
  Ordered w -> Ordered (snd (closeSection LocalTZA key w)).
Proof.
  intros H. rewrite closeSection_unfold.
  destruct (lookup w key) as [|s| |] eqn:E; cbn [snd];
    try (apply (Ordered_tick w); [exact H | reflexivity | lia]).
  apply Ordered_save.
  apply Ordered_written; [exact H | lia |].
  destruct H as [Hm Hall]. rewrite Forall_forall in Hall.
  destruct (Hall s (lookup_records _ _ _ _ E)) as (A & B & _).
  repeat split; cbn [Sect.close Sect.start Sect.end_ Sect.elapsed getTime].
  - lia.
  - apply Hm. lia.
  - now right.
Qed.

Lemma Ordered_pushLog (type : LogType) (key value : string) (w : World FS) :
  Ordered w -> Ordered (snd (_pushLog LocalTZA type key value w)).
Proof.
  intros H. rewrite pushLog_unfold.
  destruct (lookup w key) as [|s| |] eqn:E; cbn [snd];
    try (apply (Ordered_tick w); [exact H | reflexivity | lia]).
  apply Ordered_save.
  apply Ordered_written; [exact H | lia |].
  destruct H as [Hm Hall]. rewrite Forall_forall in Hall.
  apply (Timely_later (clock w (ticks w))); [apply Hm; lia|].
  exact (Hall s (lookup_records _ _ _ _ E)).
Qed.

Lemma bind_keeps (P : World FS -> Prop) {A B : Type} (m : M FS A)
      (k : A -> M FS B) (w : World FS) :
  P (snd (m w)) -> (forall a w', P w' -> P (snd (k a w'))) ->
  P (snd (bind m k w)).
Proof.
  intros Hm Hk. unfold bind.
  destruct (m w) as [[a|e] w']; cbn [snd] in *; [now apply Hk | exact Hm].
Qed.

Lemma Ordered_logException (type : LogType) (message : string) (w : World FS) :
  Ordered w -> Ordered (snd (_logException LocalTZA type message w)).
Proof.
  intros H. rewrite logException_unfold.
  apply bind_keeps.
  - destruct (lookup w "EXCEPTIONS"); try exact H.
    now apply Ordered_createSection.
  - intros _ w1 H1. apply bind_keeps; [now apply Ordered_pushLog|].
    intros _ w2 H2. now apply Ordered_closeSection.
Qed.

Lemma Ordered_run (cs : list Call) :
  forall w : World FS, Ordered w -> Ordered (run LocalTZA cs w).
Proof.
  induction cs as [|c cs IH]; intros w H; [exact H|].
  cbn [run]. apply IH.
  destruct c; cbn [call];
    unfold info, error, debug, errorException, debugException;
    auto using Ordered_createSection, Ordered_closeSection, Ordered_pushLog,
      Ordered_logException, Ordered_save.
Qed.

End KeepingFacts.

(* ================================================================== *)
(** * The keys of the loops *)

Section OrderFacts.
Import JsObject.

Lemma hasOwn_set (o : t) (k k' : string) (v s : Sect.t) :
  k <> "__proto__" -> assoc k (own o) = Some s ->
  hasOwn (set o k v) k' = hasOwn o k'.
Proof.
  intros Hk Hs. unfold hasOwn. rewrite own_set by assumption.
  destruct (String.eqb_spec k' k) as [->|Hne].
  - now rewrite assoc_assign_same, Hs.
  - now rewrite assoc_assign_other.
Qed.

(** Writing a key the object has changes nothing of what a loop
    visits. *)
Lemma forIn_set_old (p : bool) (o : t) (k : string) (v s : Sect.t) :
  k <> "__proto__" -> assoc k (own o) = Some s ->
  forIn p (set o k v) = forIn p o.
Proof.
  intros Hk Hs. unfold forIn, ownKeys, inheritedKeys.
  rewrite proto_set, own_set by assumption.
  rewrite (keys_assign_old k v s _ Hs). f_equal.
  apply filter_ext. intros k'.
  f_equal. exact (hasOwn_set o k k' v s Hk Hs).
Qed.

Lemma indexKeys_app_other (ks : list string) (k : string) :
  isArrayIndex k = false -> indexKeys (ks ++ [k]) = indexKeys ks.
Proof.
  intros Hk. induction ks as [|k0 ks IH]; cbn [app indexKeys].
  - unfold isArrayIndex in Hk. now destruct (arrayIndex k).
  - now rewrite IH.
Qed.

(** A new key that is no array index is visited last of the own keys. *)
Lemma ownKeys_set_new (o : t) (k : string) (v : Sect.t) :
  k <> "__proto__" -> assoc k (own o) = None -> isArrayIndex k = false ->
  ownKeys (set o k v) = (ownKeys o ++ [k])%list.
Proof.
  intros Hk Hs Hi. unfold ownKeys.
  rewrite own_set by assumption.
  rewrite (keys_assign_new k v _ Hs), indexKeys_app_other by assumption.
  rewrite filter_app. cbn [filter]. rewrite Hi. cbn [negb].
  now rewrite app_assoc.
Qed.

End OrderFacts.

(* ================================================================== *)
(** * An enumerable [end] on [Object.prototype] *)

Section PollutionFacts.
Context {FS : Type} {fsapi : FileSystem FS}.
Variable LocalTZA : Z -> Z.
Import JsObject.

(** The loops of [_render] meet the inherited [end], which is no section
    record. *)
Lemma render_polluted (log : Log.t) :
  proto (Log.sections log) = None ->
  hasOwn (Log.sections log) "end" = false ->
  _render LocalTZA true log = Throw TypeError.
Proof.
  intros Hp Hown.
  destruct (_render LocalTZA true log) as [html|e] eqn:E.
  - exfalso. apply render_ok in E as (_ & _ & Hall & _).
    specialize (Hall "end").
    assert (Hin : In "end" (forIn true (Log.sections log))).
    { unfold forIn, inheritedKeys. rewrite Hp. apply in_or_app. right.
      cbn [filter]. rewrite Hown. now left. }
    apply Hall in Hin. unfold get in Hin. unfold hasOwn in Hown.
    destruct (assoc "end" (own (Log.sections log))); [discriminate|].
    rewrite Hp in Hin. discriminate.
  - f_equal. now apply (render_throws_TypeError LocalTZA true log).
Qed.

Lemma save_polluted (w : World FS) :
  objectPrototypeEnd w = true ->
  proto (Log.sections (this w)) = None ->
  hasOwn (Log.sections (this w)) "end" = false ->
  (exists e, fst (save LocalTZA w) = Throw e) /\
  (Accepting -> fst (save LocalTZA w) = Throw TypeError).
Proof.
  intros Hpol Hp Hown.
  assert (Hr : _render LocalTZA (objectPrototypeEnd w) (saved w) =
               Throw TypeError).
  { rewrite Hpol. now apply render_polluted. }
  split; [exact (save_render_throws LocalTZA w TypeError Hr)|].
  intros Hacc. rewrite save_unfold.
  pose proof (prepareSave_effect LocalTZA w) as (A & _ & _ & D & _).
  pose proof (directories_accepting LocalTZA (saved w)
                (filePath LocalTZA (this w))
                (mkWorld (saved w) (disk w) (clock w) (S (ticks w))
                         (objectPrototypeEnd w)) Hacc) as Hd.
  rewrite <- prepareSave_unfold in Hd.
  destruct (_prepareSave LocalTZA w) as [[path|e] w1]; cbn [fst snd] in *;
    [|discriminate].
  now rewrite D, A, Hr.
Qed.

End PollutionFacts.

(* ================================================================== *)
(** * Times of day *)

Section ClockFacts.

Lemma Day_within (day r : Z) :
  0 <= r < msPerDay -> Day (day * msPerDay + r) = day.
Proof.
  unfold Day, msPerDay. intros H.
  symmetry. apply (Z.div_unique _ _ _ r); lia.
Qed.

Lemma HourFromTime_within (day h r : Z) :
  0 <= h < 24 -> 0 <= r < msPerHour ->
  HourFromTime (day * msPerDay + (h * msPerHour + r)) = h.
Proof.
  unfold HourFromTime, msPerDay, msPerHour. intros Hh Hr.
  replace ((day * 86400000 + (h * 3600000 + r)) / 3600000)
    with (day * 24 + h)
    by (apply (Z.div_unique _ _ _ r); lia).
  symmetry. apply (Z.mod_unique _ _ day); lia.
Qed.

Lemma MinFromTime_within (day h m r : Z) :
  0 <= m < 60 -> 0 <= r < msPerMinute ->
  MinFromTime (day * msPerDay + (h * msPerHour + (m * msPerMinute + r))) = m.
Proof.
  unfold MinFromTime, msPerDay, msPerHour, msPerMinute. intros Hm Hr.
  replace ((day * 86400000 + (h * 3600000 + (m * 60000 + r))) / 60000)
    with ((day * 1440 + h * 60) + m)
    by (apply (Z.div_unique _ _ _ r); lia).
  symmetry. apply (Z.mod_unique _ _ (day * 24 + h)); lia.
Qed.

Lemma SecFromTime_within (day h m s r : Z) :
  0 <= s < 60 -> 0 <= r < msPerSecond ->
  SecFromTime
    (day * msPerDay + (h * msPerHour + (m * msPerMinute + (s * msPerSecond + r))))
  = s.
Proof.
  unfold SecFromTime, msPerDay, msPerHour, msPerMinute, msPerSecond.
  intros Hs Hr.
  replace ((day * 86400000 + (h * 3600000 + (m * 60000 + (s * 1000 + r))))
           / 1000)
    with ((day * 86400 + h * 3600 + m * 60) + s)
    by (apply (Z.div_unique _ _ _ r); lia).
  symmetry. apply (Z.mod_unique _ _ (day * 1440 + h * 60 + m)); lia.
Qed.

End ClockFacts.

(* ================================================================== *)
(** * Properties of all sections, kept by all methods *)

Section EverywhereFacts.
Context {FS : Type} {fsapi : FileSystem FS}.
Variable LocalTZA : Z -> Z.
Variable Q : (nat -> Z) -> nat -> Sect.t -> Prop.
Import JsObject.

Hypothesis Q_later :
  forall c (n n' : nat) s, (n <= n')%nat -> Q c n s -> Q c n' s.
Hypothesis Q_created :
  forall c (t : nat) key name,
    Q c (S (S t))
      (Sect.make key name (mkDate (c t)) (mkDate (c (S t))) NotClosed []).
Hypothesis Q_closed :
  forall c (t : nat) s, Q c t s -> Q c (S t) (Sect.close (mkDate (c t)) s).
Hypothesis Q_pushed :
  forall c (t : nat) s type v,
    Q c t s ->
    Q c (S t)
      (Sect.push
         (Entry.make type v (_dateToString LocalTZA (mkDate (c t)) pageFormat))
         s).

Lemma Everywhere_tick (w : World FS) (l : Log.t) (d : FS) (n : nat) (p : bool) :
  Everywhere Q w -> Log.sections l = Log.sections (this w) ->
  (ticks w <= n)%nat ->
  Everywhere Q (mkWorld l d (clock w) n p).
Proof.
  intros Hall Hl Hn. unfold Everywhere in *.
  cbn [this clock ticks]. rewrite Hl.
  eapply Forall_impl; [|exact Hall].
  intros s. now apply Q_later.
Qed.

Lemma Everywhere_written (w : World FS) (key : string) (v : Sect.t) (n : nat) :
  Everywhere Q w -> (ticks w <= n)%nat -> Q (clock w) n v ->
  Everywhere Q (mkWorld (Log.withSections (set (Log.sections (this w)) key v)
                                          (this w))
                        (disk w) (clock w) n (objectPrototypeEnd w)).
Proof.
  intros Hall Hn Hv. unfold Everywhere in *.
  cbn [this clock ticks Log.sections Log.withSections].
  apply Forall_forall. intros s Hs.
  apply records_set in Hs as [->|Hs]; [exact Hv|].
  rewrite Forall_forall in Hall.
  apply (Q_later _ (ticks w)); [exact Hn | now apply Hall].
Qed.

Lemma Everywhere_save (w : World FS) :
  Everywhere Q w -> Everywhere Q (snd (save LocalTZA w)).
Proof.
  intros H. destruct (save_effect LocalTZA w) as (A & B & T & D).
  pose proof (Everywhere_tick w (saved w) (disk (snd (save LocalTZA w)))
                (S (ticks w)) (objectPrototypeEnd w) H eq_refl
                (Nat.le_succ_diag_r _)) as Hall.
  unfold Everywhere in *. rewrite A, B, T. exact Hall.
Qed.

Lemma Everywhere_createSection (name key : string) (w : World FS) :
  Everywhere Q w -> Everywhere Q (snd (createSection LocalTZA name key w)).
Proof.
  intros H. rewrite createSection_unfold. apply Everywhere_save.
  apply Everywhere_written; [exact H | lia | apply Q_created].
Qed.

Lemma Everywhere_closeSection (key : string) (w : World FS) :
  Everywhere Q w -> Everywhere Q (snd (closeSection LocalTZA key w)).
Proof.
  intros H. rewrite closeSection_unfold.
  destruct (lookup w key) as [|s| |] eqn:E; cbn [snd];
    try (apply (Everywhere_tick w); [exact H | reflexivity | lia]).
  apply Everywhere_save.
  apply Everywhere_written; [exact H | lia |].
  apply Q_closed. unfold Everywhere in H. rewrite Forall_forall in H.
  exact (H s (lookup_records _ _ _ _ E)).
Qed.

Lemma Everywhere_pushLog (type : LogType) (key value : string) (w : World FS) :
  Everywhere Q w -> Everywhere Q (snd (_pushLog LocalTZA type key value w)).
Proof.
  intros H. rewrite pushLog_unfold.
  destruct (lookup w key) as [|s| |] eqn:E; cbn [snd];
    try (apply (Everywhere_tick w); [exact H | reflexivity | lia]).
  apply Everywhere_save.
  apply Everywhere_written; [exact H | lia |].
  apply Q_pushed. unfold Everywhere in H. rewrite Forall_forall in H.
  exact (H s (lookup_records _ _ _ _ E)).
Qed.

Lemma Everywhere_logException (type : LogType) (message : string)
      (w : World FS) :
  Everywhere Q w -> Everywhere Q (snd (_logException LocalTZA type message w)).
Proof.
  intros H. rewrite logException_unfold.
  apply (bind_keeps (Everywhere Q)).
  - destruct (lookup w "EXCEPTIONS"); try exact H.
    now apply Everywhere_createSection.
  - intros _ w1 H1.
    apply (bind_keeps (Everywhere Q)); [now apply Everywhere_pushLog|].
    intros _ w2 H2. now apply Everywhere_closeSection.
Qed.

Lemma Everywhere_run (cs : list Call) :
  forall w : World FS, Everywhere Q w -> Everywhere Q (run LocalTZA cs w).
Proof.
  induction cs as [|c cs IH]; intros w H; [exact H|].
  cbn [run]. apply IH.
  destruct c; cbn [call];
    unfold info, error, debug, errorException, debugException;
    auto using Everywhere_createSection, Everywhere_closeSection,
      Everywhere_pushLog, Everywhere_logException, Everywhere_save.
Qed.

End EverywhereFacts.

(* ================================================================== *)
(** * The dates of the entries *)

Section StampFacts.
Variable LocalTZA : Z -> Z.

Lemma increasing_snoc (ns : list nat) :
  forall (lo t : nat),
    increasing lo ns -> Forall (fun n => (n < t)%nat) ns -> (lo <= t)%nat ->
    increasing lo (ns ++ [t]).
Proof.
  induction ns as [|n ns IH]; intros lo t H Hall Hlo; cbn.
  - split; [exact Hlo | exact I].
  - destruct H as [A B]. inversion Hall as [|? ? Hn Hns]; subst.
    split; [exact A|]. apply IH; [exact B | exact Hns | lia].
Qed.

Lemma Stamped_later (c : nat -> Z) (n n' : nat) (s : Sect.t) :
  (n <= n')%nat -> Stamped LocalTZA c n s -> Stamped LocalTZA c n' s.
Proof.
  intros Hn (ns & A & B & D). exists ns. split; [exact A|]. split; [exact B|].
  eapply Forall_impl; [|exact D]. cbn. intros; lia.
Qed.

Lemma Stamped_created (c : nat -> Z) (t : nat) (key name : string) :
  Stamped LocalTZA c (S (S t))
          (Sect.make key name (mkDate (c t)) (mkDate (c (S t))) NotClosed []).
Proof. exists []. cbn. repeat split; constructor. Qed.

Lemma Stamped_closed (c : nat -> Z) (t : nat) (s : Sect.t) :
  Stamped LocalTZA c t s ->
  Stamped LocalTZA c (S t) (Sect.close (mkDate (c t)) s).
Proof.
  intros H. apply (Stamped_later c t); [lia|].
  destruct H as (ns & A & B & D). now exists ns.
Qed.

Lemma Stamped_pushed (c : nat -> Z) (t : nat) (s : Sect.t) (type : LogType)
      (v : string) :
  Stamped LocalTZA c t s ->
  Stamped LocalTZA c (S t)
          (Sect.push
             (Entry.make type v
                         (_dateToString LocalTZA (mkDate (c t)) pageFormat))
             s).
Proof.
  intros (ns & A & B & D). exists (ns ++ [t])%list.
  split; [|split].
  - unfold Sect.push. cbn [Sect.logs]. rewrite !map_app, A. reflexivity.
  - apply increasing_snoc; [exact B | exact D | lia].
  - apply Forall_app. split.
    + eapply Forall_impl; [|exact D]. cbn. intros; lia.
    + constructor; [lia | constructor].
Qed.

End StampFacts.

(* ================================================================== *)
(** * Records and their keys *)

Section KeyFacts.
Import JsObject.

Lemma Keyed_empty : Keyed empty.
Proof. split; [intros k s | intros p]; discriminate. Qed.

Lemma Keyed_set (o : t) (k : string) (v : Sect.t) :
  Keyed o -> Sect.key v = k -> Keyed (set o k v).
Proof.
  intros [Hown Hproto] Hv. unfold set.
  destruct (String.eqb_spec k "__proto__") as [->|Hk]; split; cbn [own proto].
  - exact Hown.
  - intros p [= <-]. exact Hv.
  - intros k' s.
    destruct (String.eqb_spec k' k) as [->|Hne].
    + rewrite assoc_assign_same. intros [= <-]. exact Hv.
    + rewrite assoc_assign_other by assumption. apply Hown.
  - exact Hproto.
Qed.

Lemma Keyed_get (p : bool) (o : t) (k : string) (s : Sect.t) :
  Keyed o -> get p o k = VSection s -> Sect.key s = k.
Proof.
  intros [Hown Hproto] H.
  apply get_section in H as [H|(_ & -> & H)]; [now apply Hown | now apply Hproto].
Qed.

Lemma Trans_keyed (C U : string -> Prop) x y :
  Trans C U x y -> Keyed (Log.sections (fst x)) -> Keyed (Log.sections (fst y)).
Proof.
  intros H.
  induction H; cbn [fst Log.sections Log.withSections Log.withEnd]; auto.
  - intros Hx. now apply Keyed_set.
  - intros Hx. apply Keyed_set; [exact Hx|].
    exact (Keyed_get _ _ _ _ Hx H0).
  - intros Hx. apply Keyed_set; [exact Hx|].
    exact (Keyed_get _ _ _ _ Hx H0).
Qed.

(** ** Array indices come first, in ascending order *)

Lemma ascending_cons (a : N) (l : list N) :
  ascending (a :: l) <-> (Forall (fun b => (a <= b)%N) l /\ ascending l).
Proof.
  revert a. induction l as [|b l IH]; intros a.
  - cbn. split; [intros _; split; [constructor | exact I] | tauto].
  - change (ascending (a :: b :: l)) with ((a <= b)%N /\ ascending (b :: l)).
    split.
    + intros (Hab & Hbl). split; [|exact Hbl].
      constructor; [exact Hab|].
      apply IH in Hbl as (Hall & _).
      eapply Forall_impl; [|exact Hall]. cbn. intros; lia.
    + intros (Hall & Hbl). inversion Hall; subst. now split.
Qed.

Lemma insertIndex_ascending (n : N) (k : string) (l : list (N * string)) :
  ascending (map fst l) -> ascending (map fst (insertIndex n k l)).
Proof.
  induction l as [|[m k'] l IH]; intros H; cbn [insertIndex map fst].
  - cbn. tauto.
  - destruct (N.leb_spec n m) as [Hle|Hgt]; cbn [map fst].
    + change (ascending (n :: m :: map fst l)).
      split; [exact Hle | exact H].
    + apply ascending_cons in H as (Hall & Hl).
      apply ascending_cons. split; [|now apply IH].
      apply Forall_forall. intros b Hb.
      assert (Hin : b = n \/ In b (map fst l)).
      { clear - Hb. induction l as [|[m' k''] l IHl]; cbn in *.
        - destruct Hb as [<-|[]]. now left.
        - destruct (n <=? m')%N; cbn in Hb.
          + destruct Hb as [<-|Hb]; [now left | now right].
          + destruct Hb as [<-|Hb]; [right; now left|].
            destruct (IHl Hb) as [->|H']; [now left | right; now right]. }
      destruct Hin as [->|Hin]; [lia|].
      rewrite Forall_forall in Hall. now apply Hall.
Qed.

Lemma indexKeys_ascending (ks : list string) :
  ascending (map fst (indexKeys ks)).
Proof.
  induction ks as [|k ks IH]; cbn [indexKeys]; [exact I|].
  destruct (arrayIndex k); [now apply insertIndex_ascending | exact IH].
Qed.

Lemma insertIndex_tagged (n : N) (k : string) (l : list (N * string)) :
  arrayIndex k = Some n ->
  Forall (fun e => arrayIndex (snd e) = Some (fst e)) l ->
  Forall (fun e => arrayIndex (snd e) = Some (fst e)) (insertIndex n k l).
Proof.
  intros Hk. induction l as [|[m k'] l IH]; intros H; cbn [insertIndex].
  - constructor; [exact Hk | constructor].
  - destruct (n <=? m)%N.
    + constructor; [exact Hk | exact H].
    + inversion H; subst. constructor; [assumption | now apply IH].
Qed.

Lemma indexKeys_tagged (ks : list string) :
  Forall (fun e => arrayIndex (snd e) = Some (fst e)) (indexKeys ks).
Proof.
  induction ks as [|k ks IH]; cbn [indexKeys]; [constructor|].
  destruct (arrayIndex k) eqn:E; [now apply insertIndex_tagged | exact IH].
Qed.

Lemma indexKeys_values (ks : list string) :
  map indexOf (map snd (indexKeys ks)) = map fst (indexKeys ks).
Proof.
  pose proof (indexKeys_tagged ks) as H.
  induction H as [|[n k] l Hk _ IH]; [reflexivity|].
  cbn [map fst snd] in *. unfold indexOf at 1. now rewrite Hk, IH.
Qed.

End KeyFacts.

(* ================================================================== *)
(** * The instance and the journal *)

Section JournalFacts.
Context {FS : Type} {fsapi : FileSystem FS}.
Variable LocalTZA : Z -> Z.
Import JsObject.

Let tell (l : list (string * Sect.t)) : Journal.t :=
  map (fun r => (fst r, entriesOf (snd r))) l.

Lemma find_tell (k : string) (l : list (string * Sect.t)) :
  Journal.find k (tell l) = option_map entriesOf (assoc k l).
Proof.
  induction l as [|[k0 s0] l IH]; [reflexivity|].
  cbn. destruct (String.eqb k0 k); [reflexivity | exact IH].
Qed.

Lemma tell_assign (k : string) (v : Sect.t) (l : list (string * Sect.t)) :
  tell (assign k v l) = Journal.put k (entriesOf v) (tell l).
Proof.
  induction l as [|[k0 s0] l IH]; [reflexivity|].
  cbn. destruct (String.eqb k0 k); cbn; [reflexivity|].
  f_equal. exact IH.
Qed.

Lemma put_same (k : string) (l : list (LogType * string)) (j : Journal.t) :
  Journal.find k j = Some l -> Journal.put k l j = j.
Proof.
  induction j as [|[k0 l0] j IH]; cbn; [discriminate|].
  destruct (String.eqb_spec k0 k) as [->|Hne].
  - now intros [= ->].
  - intros H. f_equal. now apply IH.
Qed.

Lemma told_set (o : t) (k : string) (v : Sect.t) :
  k <> "__proto__" ->
  told (set o k v) = Journal.put k (entriesOf v) (told o).
Proof.
  intros Hk. unfold told. rewrite own_set by assumption. apply tell_assign.
Qed.

Lemma find_told (o : t) (k : string) :
  Journal.find k (told o) = option_map entriesOf (assoc k (own o)).
Proof. apply find_tell. Qed.

(** In a plain world a key other than [__proto__] leads to a record
    exactly when the object has it. *)
Lemma lookup_plain_own (w : World FS) (k : string) (s : Sect.t) :
  k <> "__proto__" ->
  lookup w k = VSection s ->
  assoc k (own (Log.sections (this w))) = Some s.
Proof.
  intros Hk H. apply get_section in H as [H|(_ & E & _)]; [exact H|].
  contradiction.
Qed.

Lemma lookup_none_own (w : World FS) (k : string) :
  isSection (lookup w k) = false ->
  assoc k (own (Log.sections (this w))) = None.
Proof.
  intros H. destruct (assoc k (own (Log.sections (this w)))) as [s|] eqn:E;
    [|reflexivity].
  unfold lookup in H. now rewrite (get_own _ _ _ _ E) in H.
Qed.

Lemma told_save (w : World FS) :
  told (Log.sections (this (snd (save LocalTZA w)))) =
  told (Log.sections (this w)).
Proof. destruct (save_effect LocalTZA w) as (A & _). now rewrite A. Qed.

Lemma told_createSection (name key : string) (w : World FS) :
  key <> "__proto__" ->
  told (Log.sections (this (snd (createSection LocalTZA name key w)))) =
  Journal.put key [] (told (Log.sections (this w))).
Proof.
  intros Hk. rewrite createSection_unfold, told_save.
  unfold created. cbn [this Log.sections Log.withSections].
  now rewrite told_set.
Qed.

Lemma told_pushLog (type : LogType) (key value : string) (w : World FS) :
  key <> "__proto__" ->
  told (Log.sections (this (snd (_pushLog LocalTZA type key value w)))) =
  Journal.add type key value (told (Log.sections (this w))).
Proof.
  intros Hk. rewrite pushLog_unfold. unfold Journal.add. rewrite find_told.
  destruct (lookup w key) as [|s| |] eqn:E.
  - rewrite (lookup_none_own w key) by now rewrite E. reflexivity.
  - rewrite (lookup_plain_own w key s Hk E). cbn [option_map].
    rewrite told_save. unfold pushed.
    cbn [this Log.sections Log.withSections].
    rewrite told_set by assumption.
    unfold entriesOf, Sect.push, entryAt. cbn [Sect.logs].
    now rewrite map_app.
  - rewrite (lookup_none_own w key) by now rewrite E. reflexivity.
  - rewrite (lookup_none_own w key) by now rewrite E. reflexivity.
Qed.

Lemma told_closeSection (key : string) (w : World FS) :
  key <> "__proto__" ->
  told (Log.sections (this (snd (closeSection LocalTZA key w)))) =
  told (Log.sections (this w)).
Proof.
  intros Hk. rewrite closeSection_unfold.
  destruct (lookup w key) as [|s| |] eqn:E; try reflexivity.
  rewrite told_save. unfold closed.
  cbn [this Log.sections Log.withSections].
  rewrite told_set by assumption.
  apply put_same. rewrite find_told.
  now rewrite (lookup_plain_own w key s Hk E).
Qed.

Lemma told_call (c : Call) (w : World FS) :
  isBasic c = true -> names c "__proto__" = false ->
  told (Log.sections (this (snd (call LocalTZA c w)))) =
  Journal.record (told (Log.sections (this w))) c.
Proof.
  intros Hb Hn. unfold names in Hn. apply orb_false_elim in Hn as [Hc Hr].
  destruct c; cbn [call Journal.record isBasic creates reads] in *;
    unfold info, error, debug; try discriminate.
  - apply told_createSection. now apply String.eqb_neq.
  - apply told_closeSection. now apply String.eqb_neq.
  - apply told_pushLog. now apply String.eqb_neq.
  - apply told_pushLog. now apply String.eqb_neq.
  - apply told_pushLog. now apply String.eqb_neq.
  - apply told_save.
Qed.

Lemma told_run (cs : list Call) :
  forall w : World FS,
    (forall c, In c cs -> isBasic c = true /\ names c "__proto__" = false) ->
    told (Log.sections (this (run LocalTZA cs w))) =
    fold_left Journal.record cs (told (Log.sections (this w))).
Proof.
  induction cs as [|c cs IH]; intros w H; [reflexivity|].
  cbn [run fold_left]. rewrite IH by (intros c' Hc'; apply H; now right).
  f_equal. apply told_call; now apply H; left.
Qed.

Lemma In_assoc (l : list (string * Sect.t)) (k : string) (s : Sect.t) :
  NoDup (map fst l) -> In (k, s) l -> assoc k l = Some s.
Proof.
  induction l as [|[k0 s0] l IH]; cbn; [tauto|].
  intros Hnd [E|Hin].
  - injection E as -> ->. now rewrite String.eqb_refl.
  - inversion Hnd as [|? ? Hnot Hnd']; subst.
    destruct (String.eqb_spec k0 k) as [->|Hne]; [|now apply IH].
    exfalso. apply Hnot. change k with (fst (k, s)). now apply in_map.
Qed.

(** The records of the object, summed up, are its journal when every
    record is kept under its key. *)
Lemma summary_told (o : t) :
  Keyed o -> NoDup (map fst (own o)) ->
  map summary (map snd (own o)) = told o.
Proof.
  intros [Hown _] Hnd. unfold told. rewrite map_map.
  apply map_ext_in. intros [k s] Hin. cbn [fst snd]. unfold summary.
  f_equal. apply Hown. now apply In_assoc.
Qed.

(** The keys of the records found under keys the object has. *)
Lemma keys_of_found (o : t) (ks : list string) :
  Keyed o ->
  (forall k, In k ks -> exists s, assoc k (own o) = Some s) ->
  map Sect.key
      (flat_map (fun k => match assoc k (own o) with
                          | Some s => [s]
                          | None => []
                          end) ks) = ks.
Proof.
  intros [Hown _]. induction ks as [|k ks IH]; intros H; [reflexivity|].
  cbn [flat_map]. destruct (H k (or_introl eq_refl)) as (s & Hs).
  rewrite Hs. cbn [app map]. rewrite (Hown k s Hs). f_equal.
  apply IH. intros k' Hk'. apply H. now right.
Qed.

Lemma run_keyed (cs : list Call) (w : World FS) :
  Keyed (Log.sections (this w)) ->
  Keyed (Log.sections (this (run LocalTZA cs w))).
Proof.
  exact (Trans_keyed _ _ _ _
           (run_Trans LocalTZA (fun _ => True) (fun _ => True) cs
                      (fun _ _ _ _ => I) (fun _ _ _ _ => I) w)).
Qed.

(** Through calls that do not create it anew, a section keeps what it
    has and takes new entries at its end. *)
Lemma run_appends (cs : list Call) (k : string) :
  k <> "__proto__" ->
  forall (w : World FS) (s : Sect.t),
    (forall c, In c cs -> resets c k = false) ->
    lookup w k = VSection s ->
    exists s' more,
      lookup (run LocalTZA cs w) k = VSection s' /\
      Sect.logs s' = (Sect.logs s ++ more)%list.
Proof.
  intros Hk. induction cs as [|c cs IH]; intros w s Hno Hs.
  - exists s, []. now rewrite app_nil_r.
  - cbn [run].
    destruct (call_appends LocalTZA c k s w Hk (Hno c (or_introl eq_refl)) Hs)
      as (s1 & m1 & H1 & L1 & _).
    destruct (IH _ s1 (fun c' H' => Hno c' (or_intror H')) H1)
      as (s2 & m2 & H2 & L2).
    exists s2, (m1 ++ m2)%list.
    split; [exact H2|]. rewrite L2, L1. now rewrite app_assoc.
Qed.

End JournalFacts.

(* ================================================================== *)
(** * The date formatter: padding and first occurrences *)

(** C8.  The formatter writes the day and the month zero-padded to two
    digits, and the year, the hour, the minute and the second as plain
    numerals, one digit long below ten; at 2024-03-05T09:07:03 local time
    the template "dd/mm/yyyy H:i:s" gives "05/03/2024 9:7:3". *)
Theorem dateToString_padding (LocalTZA : Z -> Z) (d : Date) :
  (_dateToString LocalTZA d "dd" = pad2 (getDate LocalTZA d) /\
   String.length (_dateToString LocalTZA d "dd") = 2%nat) /\
  (_dateToString LocalTZA d "mm" = pad2 (getMonth LocalTZA d + 1) /\
   String.length (_dateToString LocalTZA d "mm") = 2%nat) /\
  _dateToString LocalTZA d "yyyy" = ofNumber (getFullYear LocalTZA d) /\
  (_dateToString LocalTZA d "H" = ofNumber (getHours LocalTZA d) /\
   (getHours LocalTZA d < 10 ->
    String.length (_dateToString LocalTZA d "H") = 1%nat)) /\
  (_dateToString LocalTZA d "i" = ofNumber (getMinutes LocalTZA d) /\
   (getMinutes LocalTZA d < 10 ->
    String.length (_dateToString LocalTZA d "i") = 1%nat)) /\
  (_dateToString LocalTZA d "s" = ofNumber (getSeconds LocalTZA d) /\
   (getSeconds LocalTZA d < 10 ->
    String.length (_dateToString LocalTZA d "s") = 1%nat)) /\
  _dateToString LocalTZA d "dd/mm/yyyy H:i:s" =
    pad2 (getDate LocalTZA d) ++ "/" ++ pad2 (getMonth LocalTZA d + 1) ++ "/" ++
    ofNumber (getFullYear LocalTZA d) ++ " " ++
    ofNumber (getHours LocalTZA d) ++ ":" ++
    ofNumber (getMinutes LocalTZA d) ++ ":" ++
    ofNumber (getSeconds LocalTZA d) /\
  (LocalTime LocalTZA (getTime d) = 1709629623000 ->
   _dateToString LocalTZA d "dd/mm/yyyy H:i:s" = "05/03/2024 9:7:3").
Proof.
  pose proof (getDate_range LocalTZA d) as Hd.
  pose proof (getMonth_range LocalTZA d) as Hm.
  pose proof (getHours_range LocalTZA d) as Hh.
  pose proof (getMinutes_range LocalTZA d) as Hi.
  pose proof (getSeconds_range LocalTZA d) as Hs.
  rewrite dateToString_dd, dateToString_mm, dateToString_yyyy,
    dateToString_H, dateToString_i, dateToString_s.
  repeat split.
  - apply pad2_length; lia.
  - apply pad2_length; lia.
  - intros; apply ofNumber_one_digit; lia.
  - intros; apply ofNumber_one_digit; lia.
  - intros; apply ofNumber_one_digit; lia.
  - apply dateToString_pageFormat.
  - intros H.
    unfold _dateToString, getDate, getMonth, getFullYear, getHours,
      getMinutes, getSeconds.
    rewrite H. reflexivity.
Qed.

Lemma dateToString_padding_witness :
  LocalTime utc (getTime (mkDate 1709629623000)) = 1709629623000 /\
  getHours utc (mkDate 1709629623000) < 10 /\
  _dateToString utc (mkDate 1709629623000) "dd/mm/yyyy H:i:s" =
    "05/03/2024 9:7:3" /\
  String.length (_dateToString utc (mkDate 1709629623000) "H") = 1%nat.
Proof.
  pose proof (dateToString_padding utc (mkDate 1709629623000))
    as (_ & _ & _ & (_ & HH) & _ & _ & _ & Hex).
  split; [reflexivity|].
  split; [reflexivity|].
  split; [apply Hex; reflexivity | apply HH; reflexivity].
Defined.

(** C9.  For every template and date the formatter replaces the
    placeholders dd, mm, yyyy, H, i, s one after the other in that order,
    each replacement rewriting the leftmost occurrence of its placeholder
    and no other: of the letters of a placeholder that occurs, exactly
    those of one occurrence disappear from the result, and when a
    placeholder stands twice between texts free of placeholder letters
    the first is substituted and the second is left as it was. *)
Theorem dateToString_first_occurrence_only
        (LocalTZA : Z -> Z) (d : Date) (template : string) :
  _dateToString LocalTZA d template =
    fold_left (fun t p => replace (fst p) (snd p) t)
              (tokenValues LocalTZA d) template /\
  map fst (tokenValues LocalTZA d) = tokens /\
  (forall pat rep s a b,
      FirstOccurrence pat s a b -> replace pat rep s = a ++ rep ++ b) /\
  (forall pat rep s, occursIn pat s = false -> replace pat rep s = s) /\
  (forall tok v,
      In (tok, v) (tokenValues LocalTZA d) ->
      (count (tokenLetter tok) (_dateToString LocalTZA d template) +
       (if occursIn tok template then String.length tok else 0) =
       count (tokenLetter tok) template)%nat) /\
  (forall tok v a b c,
      In (tok, v) (tokenValues LocalTZA d) ->
      tokenFree a = true -> tokenFree b = true -> tokenFree c = true ->
      _dateToString LocalTZA d (a ++ tok ++ b ++ tok ++ c) =
      a ++ v ++ b ++ tok ++ c).
Proof.
  split; [reflexivity|].
  split; [reflexivity|].
  split; [intros; now apply replace_first_occurrence|].
  split; [intros; now apply replace_absent|].
  split; [intros tok v Hin; exact (dateToString_count LocalTZA d template tok v Hin)|].
  intros; now apply dateToString_twice.
Qed.

Lemma dateToString_first_occurrence_only_witness :
  FirstOccurrence "dd" "dd dd" "" " dd" /\
  replace "dd" "05" "dd dd" = "05 dd" /\
  occursIn "mm" "dd dd" = false /\
  replace "mm" "03" "dd dd" = "dd dd" /\
  In ("dd", "05") (tokenValues utc (mkDate 1709629623000)) /\
  (count "d" (_dateToString utc (mkDate 1709629623000) "dd dd") + 2 = 4)%nat /\
  _dateToString utc (mkDate 1709629623000) ("" ++ "dd" ++ " " ++ "dd" ++ "") =
    "05 dd".
Proof.
  pose proof (dateToString_first_occurrence_only
                utc (mkDate 1709629623000) "dd dd")
    as (_ & _ & Hfirst & Habsent & Hcount & Htwice).
  assert (Hocc : FirstOccurrence "dd" "dd dd" "" " dd").
  { split; [reflexivity|]. intros a' b' _. simpl. lia. }
  assert (Hin : In ("dd", "05") (tokenValues utc (mkDate 1709629623000))).
  { left. reflexivity. }
  split; [exact Hocc|].
  split; [exact (Hfirst "dd" "05" "dd dd" "" " dd" Hocc)|].
  split; [reflexivity|].
  split; [exact (Habsent "mm" "03" "dd dd" eq_refl)|].
  split; [exact Hin|].
  split; [exact (Hcount "dd" "05" Hin)|].
  exact (Htwice "dd" "05" "" " " "" Hin eq_refl eq_refl eq_refl).
Defined.

(* ================================================================== *)
(** * Entries and sections that do not exist *)

(** C3.  In every state, for every key that leads to no section (the key
    EXCEPTIONS included), [info], [error] and [debug] throw a TypeError
    before any [save]: the instance, the disk and [Object.prototype] are
    as they were. *)
Theorem entry_on_missing_section_fails
        {FS : Type} {fsapi : FileSystem FS} (LocalTZA : Z -> Z)
        (w : World FS) (k v : string) :
  isSection (lookup w k) = false ->
  forall m,
    In m [info LocalTZA k v; error LocalTZA k v; debug LocalTZA k v] ->
    fst (m w) = Throw TypeError /\
    this (snd (m w)) = this w /\
    disk (snd (m w)) = disk w /\
    objectPrototypeEnd (snd (m w)) = objectPrototypeEnd w.
Proof.
  intros Hk m Hm.
  assert (E : exists type, m = _pushLog LocalTZA type k v).
  { destruct Hm as [<-|[<-|[<-|[]]]]; eexists; reflexivity. }
  destruct E as (type & ->).
  rewrite (pushLog_missing LocalTZA type k v w Hk).
  now repeat split.
Qed.

Lemma entry_on_missing_section_fails_witness :
  isSection (lookup sampleWorld "P9") = false /\
  fst (info utc "P9" "started" sampleWorld) = Throw TypeError /\
  this (snd (info utc "P9" "started" sampleWorld)) = this sampleWorld /\
  disk (snd (info utc "P9" "started" sampleWorld)) = disk sampleWorld.
Proof.
  split; [reflexivity|].
  pose proof (entry_on_missing_section_fails
                utc sampleWorld "P9" "started" eq_refl
                (info utc "P9" "started") (or_introl eq_refl))
    as (A & B & C & _).
  now repeat split.
Defined.

(** C5.  [closeSection(k)] throws a TypeError when no call has created
    [k], and whenever [k] leads to no section; when [k] leads to a section
    it sets the end of that section to the time read from the clock and
    its elapsed to that time minus the start of the section, in
    milliseconds, which is not negative when the clock has not gone back
    behind the start. *)
Theorem closeSection_sets_end_and_elapsed
        {FS : Type} {fsapi : FileSystem FS} (LocalTZA : Z -> Z) (k : string) :
  (forall title description logsPath disk0 clock0 ticks0 polluted cs,
      (forall c, In c cs -> creates c k = false) ->
      fst (closeSection LocalTZA k
             (run LocalTZA cs
                  (constructor title description logsPath disk0 clock0 ticks0
                               polluted))) = Throw TypeError) /\
  (forall w : World FS,
      isSection (lookup w k) = false ->
      fst (closeSection LocalTZA k w) = Throw TypeError) /\
  (forall (w : World FS) s,
      WellFormed (Log.sections (this w)) ->
      lookup w k = JsObject.VSection s ->
      let now := mkDate (clock w (ticks w)) in
      exists s',
        lookup (snd (closeSection LocalTZA k w)) k = JsObject.VSection s' /\
        Sect.end_ s' = now /\
        Sect.elapsed s' = Millis (getTime now - getTime (Sect.start s)) /\
        Sect.key s' = Sect.key s /\ Sect.name s' = Sect.name s /\
        Sect.start s' = Sect.start s /\ Sect.logs s' = Sect.logs s /\
        (getTime (Sect.start s) <= getTime now ->
         0 <= getTime now - getTime (Sect.start s))).
Proof.
  split; [|split].
  - intros title description logsPath disk0 clock0 ticks0 polluted cs Hno.
    apply closeSection_missing, run_absent; [exact Hno|].
    apply get_empty.
  - intros w Hk. now apply closeSection_missing.
  - intros w s [_ Hwf] Hs now.
    exists (Sect.close now s).
    rewrite closeSection_unfold, Hs, lookup_save.
    split; [|repeat split; cbn; lia].
    unfold lookup, closed. cbn [this objectPrototypeEnd Log.sections Log.withSections].
    now apply get_set_same.
Qed.

Lemma closeSection_sets_end_and_elapsed_witness :
  (forall c, In c [CreateSection "Phase 1" "P1"] -> creates c "P2" = false) /\
  fst (closeSection utc "P2"
         (run utc [CreateSection "Phase 1" "P1"]
              (constructor "Import" "desc" "/tmp/logs" MemFs.empty sampleClock
                           O false))) = Throw TypeError /\
  isSection (lookup sampleOpen "P2") = false /\
  fst (closeSection utc "P2" sampleOpen) = Throw TypeError /\
  WellFormed (Log.sections (this sampleOpen)) /\
  (exists s, lookup sampleOpen "P1" = JsObject.VSection s /\
             getTime (Sect.start s) <= clock sampleOpen (ticks sampleOpen)) /\
  (exists s', lookup (snd (closeSection utc "P1" sampleOpen)) "P1" =
                JsObject.VSection s' /\
              Sect.elapsed s' = Millis 3000).
Proof.
  pose proof (closeSection_sets_end_and_elapsed (fsapi := memFs) utc "P2")
    as (Hnever & Hmissing & _).
  pose proof (closeSection_sets_end_and_elapsed (fsapi := memFs) utc "P1")
    as (_ & _ & Hclose).
  assert (Hno : forall c, In c [CreateSection "Phase 1" "P1"] ->
                          creates c "P2" = false).
  { intros c [<-|[]]. reflexivity. }
  assert (Hwf : WellFormed (Log.sections (this sampleOpen))).
  { split; [|reflexivity]. repeat constructor. intros []. }
  split; [exact Hno|].
  split; [exact (Hnever "Import" "desc" "/tmp/logs" MemFs.empty sampleClock
                        O false _ Hno)|].
  split; [reflexivity|].
  split; [exact (Hmissing sampleOpen eq_refl)|].
  split; [exact Hwf|].
  split.
  - eexists. split; [reflexivity | discriminate].
  - destruct (Hclose sampleOpen _ Hwf eq_refl) as (s' & A & _ & B & _).
    exists s'. split; [exact A | exact B].
Defined.

(* ================================================================== *)
(** * The path of the file *)

(** C4, as the specification states it, fails: for an instance started at
    2024-03-05T09:07:03 the file name ends in 20240305_973, the hour, the
    minute and the second unpadded, and not in 20240305_090703. *)
Lemma save_path_counterexample :
  fst (_prepareSave utc sampleWorld) =
    Ok "/tmp/logs/2024/03/05/Import_20240305_973.html" /\
  specFilePath utc (this sampleWorld) =
    "/tmp/logs/2024/03/05/Import_20240305_090703.html" /\
  fst (_prepareSave utc sampleWorld) <> Ok (specFilePath utc (this sampleWorld)).
Proof.
  assert (A : fst (_prepareSave utc sampleWorld) =
              Ok "/tmp/logs/2024/03/05/Import_20240305_973.html")
    by (vm_compute; reflexivity).
  assert (B : specFilePath utc (this sampleWorld) =
              "/tmp/logs/2024/03/05/Import_20240305_090703.html")
    by (vm_compute; reflexivity).
  split; [exact A|]. split; [exact B|].
  rewrite A, B. discriminate.
Qed.

(** C4, amended.  The path [_prepareSave] returns, and [save] writes at,
    is a function of the instance: logsPath/YYYY/MM/DD/title_YYYYMMDD_Hms
    .html, all taken from [start], with month and day in two digits and
    year, hour, minute and second as plain numerals; no sequence of calls
    changes it, so every [save] of an instance targets the same path. *)
Theorem save_path_from_start
        {FS : Type} {fsapi : FileSystem FS} (LocalTZA : Z -> Z)
        (w : World FS) :
  (forall path, fst (_prepareSave LocalTZA w) = Ok path ->
                path = filePath LocalTZA (this w)) /\
  filePath LocalTZA (this w) =
    (let d := Log.start (this w) in
     Log.logsPath (this w) ++ "/" ++
     ofNumber (getFullYear LocalTZA d) ++ "/" ++
     pad2 (getMonth LocalTZA d + 1) ++ "/" ++
     pad2 (getDate LocalTZA d) ++ "/" ++
     (Log.title (this w) ++ "_" ++
      ofNumber (getFullYear LocalTZA d) ++ pad2 (getMonth LocalTZA d + 1) ++
      pad2 (getDate LocalTZA d) ++ "_" ++
      ofNumber (getHours LocalTZA d) ++ ofNumber (getMinutes LocalTZA d) ++
      ofNumber (getSeconds LocalTZA d)) ++ ".html") /\
  (fst (save LocalTZA w) = Ok tt ->
   exists fileContent w1,
     save LocalTZA w =
     onDisk (writeFileSync (filePath LocalTZA (this w)) fileContent) w1) /\
  (forall cs,
      filePath LocalTZA (this (run LocalTZA cs w)) = filePath LocalTZA (this w)).
Proof.
  split; [|split; [|split]].
  - intros path H. now apply (prepareSave_effect LocalTZA w).
  - unfold filePath.
    now rewrite dateToString_yyyy, dateToString_mm, dateToString_dd,
      dateToString_fileStamp.
  - intros H. destruct (save_ok LocalTZA w H) as (html & w1 & _ & _ & E).
    now exists html, w1.
  - intros cs. unfold filePath.
    destruct (run_identity LocalTZA cs w) as (A & _ & B & C).
    now rewrite A, B, C.
Qed.

Lemma save_path_from_start_witness :
  fst (_prepareSave utc sampleWorld) =
    Ok "/tmp/logs/2024/03/05/Import_20240305_973.html" /\
  "/tmp/logs/2024/03/05/Import_20240305_973.html" =
    filePath utc (this sampleWorld) /\
  fst (save utc sampleWorld) = Ok tt /\
  exists fileContent w1,
    save utc sampleWorld =
    onDisk (writeFileSync (filePath utc (this sampleWorld)) fileContent) w1.
Proof.
  pose proof (save_path_from_start utc sampleWorld) as (Hpath & _ & Hsave & _).
  assert (A : fst (_prepareSave utc sampleWorld) =
              Ok "/tmp/logs/2024/03/05/Import_20240305_973.html")
    by (vm_compute; reflexivity).
  assert (B : fst (save utc sampleWorld) = Ok tt) by (vm_compute; reflexivity).
  split; [exact A|].
  split; [exact (Hpath _ A)|].
  split; [exact B|].
  exact (Hsave B).
Defined.

(* ================================================================== *)
(** * Creating a section *)

Lemma memFs_accepting : @Accepting MemFs.t memFs.
Proof.
  split.
  - intros path d H. cbn [mkdirSync existsSync memFs] in *.
    unfold MemFs.mkdir. now rewrite H.
  - reflexivity.
Qed.

(** C7.  The claim at the key [__proto__], where the code misses what
    it sets out to do, to keep the record under the key it is given:
    the assignment of [createSection] reaches the setter inherited from
    [Object.prototype], replaces the prototype of [this.sections] and
    creates no property; the loop of [_render] then meets the fields of
    the record, and [createSection] throws a TypeError although the file
    system accepts every write. *)
Lemma createSection_proto_key_throws :
  @Accepting MemFs.t memFs /\
  fst (createSection utc "x" "__proto__" sampleWorld) = Throw TypeError /\
  JsObject.hasOwn
    (Log.sections (this (snd (createSection utc "x" "__proto__" sampleWorld))))
    "__proto__" = false.
Proof.
  split; [exact memFs_accepting|].
  split; vm_compute; reflexivity.
Qed.

(* ================================================================== *)
(** * The order of the sections *)

(** C2, as the specification states it, fails: the sections created under
    the keys "2" and then "1" are listed "1" first, in the table of
    contents and in the body, because a loop over the keys of an object
    visits the keys that are array indices first, in numeric order. *)
Lemma sections_creation_order_counterexample :
  let w := run utc (creations [("B", "2"); ("A", "1")]) sampleWorld in
  let shown := shownSections (objectPrototypeEnd w) (Log.sections (this w)) in
  NoDup ["2"; "1"] /\
  map Sect.key shown = ["1"; "2"] /\
  map Sect.key shown <> map snd [("B", "2"); ("A", "1")] /\
  renderToc (objectPrototypeEnd w) (Log.sections (this w)) =
    tocLine "1" "A" ++ tocLine "2" "B" /\
  exists finished,
    Log.end_ (this w) = Some finished /\
    _render utc (objectPrototypeEnd w) (this w) =
      Ok (page utc (this w) finished shown).
Proof.
  intros w shown.
  assert (Hk : map Sect.key shown = ["1"; "2"]) by (vm_compute; reflexivity).
  split; [repeat constructor; simpl; intuition discriminate|].
  split; [exact Hk|].
  split; [rewrite Hk; discriminate|].
  split; [vm_compute; reflexivity|].
  exists (mkDate 1709629629000).
  split; vm_compute; reflexivity.
Qed.

(** C2, amended.  For every sequence of [createSection] calls on a new
    instance, with distinct keys none of which is an array index or
    [__proto__], the sections are shown in the order of their creation,
    in the table of contents and in the body of every page rendered. *)
Theorem sections_shown_in_creation_order
        {FS : Type} {fsapi : FileSystem FS} (LocalTZA : Z -> Z)
        (title description logsPath : string) (disk0 : FS)
        (clock0 : nat -> Z) (ticks0 : nat) (nks : list (string * string)) :
  NoDup (map snd nks) ->
  (forall k, In k (map snd nks) ->
             JsObject.isArrayIndex k = false /\ k <> "__proto__") ->
  let w := run LocalTZA (creations nks)
               (constructor title description logsPath disk0 clock0 ticks0
                            false) in
  let shown := shownSections (objectPrototypeEnd w) (Log.sections (this w)) in
  map Sect.key shown = map snd nks /\
  map Sect.name shown = map fst nks /\
  (nks <> [] -> Log.end_ (this w) <> None) /\
  (forall finished,
      Log.end_ (this w) = Some finished ->
      _render LocalTZA (objectPrototypeEnd w) (this w) =
        Ok (page LocalTZA (this w) finished shown)).
Proof.
  intros Hnd Hkeys w shown.
  set (w0 := constructor title description logsPath disk0 clock0 ticks0 false)
    in w.
  destruct (creations_own LocalTZA nks w0) as (recs & Hown & K1 & K2 & K3).
  { intros k Hk. now apply Hkeys. }
  { exact Hnd. }
  { reflexivity. }
  fold w in Hown. cbn [app] in Hown.
  change (JsObject.own (Log.sections (this w0)))
    with (@nil (string * Sect.t)) in Hown.
  cbn [app] in Hown.
  destruct (run_plain LocalTZA (creations nks) w0) as (Hp & Hpol).
  { intros c Hc. unfold creations in Hc. apply in_map_iff in Hc as ((n & k) & <- & Hin).
    unfold names. cbn [creates reads fst snd]. rewrite orb_false_r.
    apply String.eqb_neq. apply Hkeys. apply in_map_iff. now exists (n, k). }
  fold w in Hp, Hpol.
  change (JsObject.proto (Log.sections (this w0))) with (@None Sect.t) in Hp.
  change (objectPrototypeEnd w0) with false in Hpol.
  assert (Hshown : shown = map snd recs).
  { unfold shown. rewrite Hpol, <- Hown.
    apply shown_plain_creation_order; [exact Hp | |].
    - now rewrite Hown, K1.
    - rewrite Hown, K1. intros k Hk. now apply Hkeys. }
  split; [|split; [|split]].
  - now rewrite Hshown, map_map.
  - now rewrite Hshown, map_map.
  - intros Hne. destruct nks as [|[name key] nks]; [congruence|].
    unfold w.
    change (run LocalTZA (creations ((name, key) :: nks)) w0)
      with (run LocalTZA (creations nks)
                (snd (createSection LocalTZA name key w0))).
    apply run_saved, createSection_saved.
  - intros finished He. unfold shown. rewrite Hpol.
    now apply render_plain.
Qed.

Lemma sections_shown_in_creation_order_witness :
  let nks := [("Phase 1", "P1"); ("Phase 2", "P2")] in
  let w := run utc (creations nks)
               (constructor "Import" "desc" "/tmp/logs" MemFs.empty sampleClock
                            O false) in
  let shown := shownSections (objectPrototypeEnd w) (Log.sections (this w)) in
  NoDup (map snd nks) /\
  (forall k, In k (map snd nks) ->
             JsObject.isArrayIndex k = false /\ k <> "__proto__") /\
  map Sect.key shown = ["P1"; "P2"] /\
  Log.end_ (this w) = Some (mkDate 1709629629000) /\
  _render utc (objectPrototypeEnd w) (this w) =
    Ok (page utc (this w) (mkDate 1709629629000) shown).
Proof.
  intros nks w shown.
  assert (Hnd : NoDup (map snd nks)).
  { repeat constructor; simpl; intuition discriminate. }
  assert (Hkeys : forall k, In k (map snd nks) ->
                            JsObject.isArrayIndex k = false /\ k <> "__proto__").
  { intros k [<-|[<-|[]]]; split; (reflexivity || discriminate). }
  pose proof (sections_shown_in_creation_order
                utc "Import" "desc" "/tmp/logs" MemFs.empty sampleClock O nks
                Hnd Hkeys) as (Hk & _ & _ & Hr).
  assert (He : Log.end_ (this w) = Some (mkDate 1709629629000))
    by (vm_compute; reflexivity).
  split; [exact Hnd|].
  split; [exact Hkeys|].
  split; [exact Hk|].
  split; [exact He|].
  exact (Hr _ He).
Defined.

(* ================================================================== *)
(** * The page and the entries *)

(** C1.  The claim at the key [__proto__], where the code misses what
    it sets out to do, to show the entries recorded and no others.
    After [closeSection("__proto__")], which throws but first gives
    [Object.prototype] an enumerable property [end], and
    [createSection("E", "end")], the page rendered holds one entry line
    although no entry was recorded: the loop over the empty [logs] array
    meets the inherited key.  And after sections named after the six
    fields of a record, a section created under [__proto__] and an entry
    appended to it, every call having returned, the page holds no entry
    line although one entry is recorded. *)
Lemma render_entry_lines_proto_key :
  (let w := run utc [CloseSection "__proto__"; CreateSection "E" "end"]
                sampleWorld in
   exists finished html,
     Log.end_ (this w) = Some finished /\
     _render utc (objectPrototypeEnd w) (this w) = Ok html /\
     recordedEntries (Log.sections (this w)) = [] /\
     occurrences logClass html = 1%nat /\
     html <> page utc (this w) finished
                  (shownSections (objectPrototypeEnd w)
                                 (Log.sections (this w)))) /\
  (let cs := [CreateSection "k" "key"; CreateSection "n" "name";
              CreateSection "s" "start"; CreateSection "e" "end";
              CreateSection "l" "elapsed"; CreateSection "g" "logs";
              CreateSection "hidden" "__proto__"] in
   let w := run utc cs sampleWorld in
   let w' := snd (info utc "__proto__" "lost" w) in
   fst (info utc "__proto__" "lost" w) = Ok tt /\
   map Entry.value (recordedEntries (Log.sections (this w'))) = ["lost"] /\
   exists html,
     _render utc (objectPrototypeEnd w') (this w') = Ok html /\
     occurrences logClass html = 0%nat).
Proof.
  split.
  - intros w.
    exists (mkDate 1709629627000).
    eexists.
    split; [vm_compute; reflexivity|].
    split; [vm_compute; reflexivity|].
    split; [vm_compute; reflexivity|].
    split; [vm_compute; reflexivity|].
    vm_compute. discriminate.
  - intros cs w w'.
    split; [vm_compute; reflexivity|].
    split; [vm_compute; reflexivity|].
    eexists. split; vm_compute; reflexivity.
Qed.

(* ================================================================== *)
(** * The section of the exceptions *)



(* ================================================================== *)
(** * Texts copied into the page *)

(** C10.  The claim at the key [__proto__], where the code misses what
    it sets out to do, to render every section: once own sections named
    after the six fields of a record shadow them, a record assigned to
    [__proto__] is met by no loop; an entry appended to it is kept in
    memory, the call returns, and the page written does not hold its
    value. *)
Lemma render_hides_proto_section :
  let w := run utc
               [CreateSection "k" "key"; CreateSection "n" "name";
                CreateSection "s" "start"; CreateSection "e" "end";
                CreateSection "l" "elapsed"; CreateSection "g" "logs";
                CreateSection "hidden" "__proto__"] sampleWorld in
  let w' := snd (info utc "__proto__" "<b>boom</b>" w) in
  fst (info utc "__proto__" "<b>boom</b>" w) = Ok tt /\
  map Entry.value (recordedEntries (Log.sections (this w'))) = ["<b>boom</b>"] /\
  exists html,
    _render utc (objectPrototypeEnd w') (this w') = Ok html /\
    ~ Infix "<b>boom</b>" html.
Proof.
  intros w w'.
  split; [vm_compute; reflexivity|].
  split; [vm_compute; reflexivity|].
  eexists. split; [vm_compute; reflexivity|].
  intros H. apply Infix_occursIn in H.
  vm_compute in H. discriminate.
Qed.

(* ================================================================== *)
(** * Further properties of the class *)

(** X1.  Whenever a public method returns, the last thing it did was to
    hand to [writeFileSync], at the path computed from the instance, the
    page rendered from the instance as the call leaves it: after every
    successful call the file written holds the state in memory. *)
Theorem call_writes_rendered_page
        {FS : Type} {fsapi : FileSystem FS} (LocalTZA : Z -> Z)
        (c : Call) (w : World FS) :
  fst (call LocalTZA c w) = Ok tt ->
  exists html w1,
    call LocalTZA c w =
      onDisk (writeFileSync (filePath LocalTZA (this w)) html) w1 /\
    _render LocalTZA (objectPrototypeEnd (snd (call LocalTZA c w)))
            (this (snd (call LocalTZA c w))) = Ok html.
Proof.
  destruct c; cbn [call];
    unfold info, error, debug, errorException, debugException.
  - apply createSection_writes.
  - apply closeSection_writes.
  - apply pushLog_writes.
  - apply pushLog_writes.
  - apply pushLog_writes.
  - apply logException_writes.
  - apply logException_writes.
  - apply save_writes.
Qed.

Lemma call_writes_rendered_page_witness :
  fst (call utc (Info "P1" "done") sampleOpen) = Ok tt /\
  exists html w1,
    call utc (Info "P1" "done") sampleOpen =
      onDisk (writeFileSync "/tmp/logs/2024/03/05/Import_20240305_973.html"
                            html) w1 /\
    _render utc (objectPrototypeEnd (snd (call utc (Info "P1" "done") sampleOpen)))
            (this (snd (call utc (Info "P1" "done") sampleOpen))) = Ok html.
Proof.
  assert (Hok : fst (call utc (Info "P1" "done") sampleOpen) = Ok tt)
    by (vm_compute; reflexivity).
  split; [exact Hok|].
  destruct (call_writes_rendered_page utc (Info "P1" "done") sampleOpen Hok)
    as (html & w1 & E & R).
  exists html, w1. split; [|exact R].
  rewrite E. f_equal.
Defined.

(** X2.  When the directory of the year is missing and [mkdirSync] fails
    on it, [save] throws that error at once: no other directory is tried,
    nothing is rendered or written, and [this.end] has already been set
    to the time of the call. *)
Theorem save_stops_at_failed_directory
        {FS : Type} {fsapi : FileSystem FS} (LocalTZA : Z -> Z)
        (w : World FS) (e : Error) (d' : FS) :
  existsSync (yearDirectory LocalTZA (this w)) (disk w) = false ->
  mkdirSync (yearDirectory LocalTZA (this w)) (disk w) = (Throw e, d') ->
  save LocalTZA w =
  (Throw e,
   mkWorld (Log.withEnd (mkDate (clock w (ticks w))) (this w)) d' (clock w)
           (S (ticks w)) (objectPrototypeEnd w)).
Proof.
  intros Hex Hmk. rewrite save_unfold.
  now rewrite (prepareSave_year_fails LocalTZA w e d' Hex Hmk).
Qed.

Lemma save_stops_at_failed_directory_witness :
  let w := constructor "Import" "desc" "/tmp/logs" tt sampleClock 0 false in
  yearDirectory utc (this w) = "/tmp/logs/2024" /\
  save (fsapi := refusingFs) utc w =
  (Throw SystemError,
   mkWorld (Log.withEnd (mkDate (sampleClock 1)) (this w)) tt sampleClock 2
           false).
Proof.
  intros w. split; [vm_compute; reflexivity|].
  exact (save_stops_at_failed_directory (fsapi := refusingFs) utc w
           SystemError tt eq_refl eq_refl).
Defined.

(** X3.  When the directories of the year, the month and the day exist,
    [_prepareSave] creates nothing: it sets [this.end], leaves the disk as
    it is and returns the path of the file. *)
Theorem prepareSave_keeps_existing_directories
        {FS : Type} {fsapi : FileSystem FS} (LocalTZA : Z -> Z)
        (w : World FS) :
  existsSync (yearDirectory LocalTZA (this w)) (disk w) = true ->
  existsSync (monthDirectory LocalTZA (this w)) (disk w) = true ->
  existsSync (dayDirectory LocalTZA (this w)) (disk w) = true ->
  _prepareSave LocalTZA w =
  (Ok (filePath LocalTZA (this w)),
   mkWorld (Log.withEnd (mkDate (clock w (ticks w))) (this w)) (disk w)
           (clock w) (S (ticks w)) (objectPrototypeEnd w)).
Proof. exact (prepareSave_found LocalTZA w). Qed.

Lemma prepareSave_keeps_existing_directories_witness :
  existsSync (yearDirectory utc (this sampleOpen)) (disk sampleOpen) = true /\
  existsSync (monthDirectory utc (this sampleOpen)) (disk sampleOpen) = true /\
  existsSync (dayDirectory utc (this sampleOpen)) (disk sampleOpen) = true /\
  disk (snd (_prepareSave utc sampleOpen)) = disk sampleOpen /\
  fst (_prepareSave utc sampleOpen) =
    Ok "/tmp/logs/2024/03/05/Import_20240305_973.html".
Proof.
  assert (Hy : existsSync (yearDirectory utc (this sampleOpen))
                          (disk sampleOpen) = true)
    by (vm_compute; reflexivity).
  assert (Hm : existsSync (monthDirectory utc (this sampleOpen))
                          (disk sampleOpen) = true)
    by (vm_compute; reflexivity).
  assert (Hd : existsSync (dayDirectory utc (this sampleOpen))
                          (disk sampleOpen) = true)
    by (vm_compute; reflexivity).
  pose proof (prepareSave_keeps_existing_directories utc sampleOpen Hy Hm Hd)
    as E.
  split; [exact Hy|]. split; [exact Hm|]. split; [exact Hd|].
  rewrite E. split; [reflexivity|].
  cbn [fst]. f_equal.
Defined.

(** X4.  [_render] returns a page exactly when the instance has been
    saved once and every key its loops visit leads to a section record;
    the table of contents and the body of the page then list the same
    records in the same order; and when it throws, it throws a
    TypeError. *)
Theorem render_returns_iff (LocalTZA : Z -> Z) (p : bool) (log : Log.t) :
  ((exists html, _render LocalTZA p log = Ok html) <->
   (Log.end_ log <> None /\
    forall i, In i (JsObject.forIn p (Log.sections log)) ->
              isSection (JsObject.get p (Log.sections log) i) = true)) /\
  (forall html,
      _render LocalTZA p log = Ok html ->
      exists finished,
        Log.end_ log = Some finished /\
        html = pageWith LocalTZA (renderSection LocalTZA p) log finished
                        (shownSections p (Log.sections log))) /\
  (forall e, _render LocalTZA p log = Throw e -> e = TypeError).
Proof.
  split; [split|split].
  - intros (html & H).
    apply render_ok in H as (finished & He & Hall & _).
    split; [congruence | exact Hall].
  - intros (He & Hall).
    destruct (Log.end_ log) as [finished|] eqn:E; [|congruence].
    eexists. exact (render_sections LocalTZA p log finished E Hall).
  - intros html H.
    apply render_ok in H as (finished & He & _ & Hp).
    now exists finished.
  - apply render_throws_TypeError.
Qed.

Lemma render_returns_iff_witness :
  Log.end_ (this sampleOpen) <> None /\
  (forall i, In i (JsObject.forIn false (Log.sections (this sampleOpen))) ->
             isSection (JsObject.get false (Log.sections (this sampleOpen)) i)
             = true) /\
  (exists html, _render utc false (this sampleOpen) = Ok html) /\
  _render utc false (this sampleWorld) = Throw TypeError.
Proof.
  pose proof (render_returns_iff utc false (this sampleOpen))
    as ((_ & Hback) & _ & _).
  assert (He : Log.end_ (this sampleOpen) <> None) by discriminate.
  assert (Hall : forall i,
             In i (JsObject.forIn false (Log.sections (this sampleOpen))) ->
             isSection (JsObject.get false (Log.sections (this sampleOpen)) i)
             = true).
  { intros i [<-|[]]. reflexivity. }
  split; [exact He|]. split; [exact Hall|].
  split; [exact (Hback (conj He Hall))|].
  reflexivity.
Defined.

(** X5.  No method removes a section: a key that leads to a section
    record leads to one after every sequence of calls, whether the calls
    return or throw. *)
Theorem sections_never_removed
        {FS : Type} {fsapi : FileSystem FS} (LocalTZA : Z -> Z)
        (cs : list Call) (w : World FS) (k : string) :
  isSection (lookup w k) = true ->
  isSection (lookup (run LocalTZA cs w) k) = true.
Proof.
  revert w. induction cs as [|c cs IH]; intros w H; [exact H|].
  cbn [run]. apply IH. now apply call_present.
Qed.

Lemma sections_never_removed_witness :
  isSection (lookup sampleOpen "P1") = true /\
  isSection
    (lookup (run utc [CloseSection "P1"; Info "P9" "x"; CloseSection "__proto__";
                      CreateSection "Phase 2" "P2"; Save] sampleOpen) "P1")
  = true.
Proof.
  split; [reflexivity|].
  exact (sections_never_removed utc _ sampleOpen "P1" eq_refl).
Defined.

(** X6.  The entries of a section are only ever appended to: through
    every sequence of calls that does not call [createSection] on its
    key, a section keeps its key, its name, its start and the entries it
    has, in their order, the new entries coming after them. *)
Theorem logs_append_only
        {FS : Type} {fsapi : FileSystem FS} (LocalTZA : Z -> Z)
        (cs : list Call) (w : World FS) (k : string) (s : Sect.t) :
  k <> "__proto__" ->
  (forall c, In c cs -> resets c k = false) ->
  lookup w k = JsObject.VSection s ->
  exists s' more,
    lookup (run LocalTZA cs w) k = JsObject.VSection s' /\
    Sect.logs s' = (Sect.logs s ++ more)%list /\
    Sect.key s' = Sect.key s /\ Sect.name s' = Sect.name s /\
    Sect.start s' = Sect.start s.
Proof.
  intros Hk. revert w s.
  induction cs as [|c cs IH]; intros w s Hno Hs.
  - exists s, []. rewrite app_nil_r. now repeat split.
  - cbn [run].
    destruct (call_appends LocalTZA c k s w Hk (Hno c (or_introl eq_refl)) Hs)
      as (s1 & m1 & H1 & L1 & A1 & A2 & A3).
    destruct (IH _ s1 (fun c' H' => Hno c' (or_intror H')) H1)
      as (s2 & m2 & H2 & L2 & B1 & B2 & B3).
    exists s2, (m1 ++ m2)%list.
    split; [exact H2|].
    split; [rewrite L2, L1; now rewrite app_assoc|].
    repeat split; congruence.
Qed.

Lemma logs_append_only_witness :
  let w := snd (info utc "P1" "one" sampleOpen) in
  let cs := [CloseSection "P1"; Error_ "P1" "two"; CreateSection "Other" "P2";
             DebugException "three"; Debug "P1" "four"] in
  "P1" <> "__proto__" /\
  (forall c, In c cs -> resets c "P1" = false) /\
  (exists s, lookup w "P1" = JsObject.VSection s /\
             map Entry.value (Sect.logs s) = ["one"]) /\
  exists s' more,
    lookup (run utc cs w) "P1" = JsObject.VSection s' /\
    map Entry.value (Sect.logs s') = ("one" :: map Entry.value more)%list.
Proof.
  intros w cs.
  assert (Hk : "P1" <> "__proto__") by discriminate.
  assert (Hno : forall c, In c cs -> resets c "P1" = false).
  { intros c [<-|[<-|[<-|[<-|[<-|[]]]]]]; reflexivity. }
  assert (Hs : exists s, lookup w "P1" = JsObject.VSection s /\
                         map Entry.value (Sect.logs s) = ["one"]).
  { eexists. split; vm_compute; reflexivity. }
  split; [exact Hk|]. split; [exact Hno|]. split; [exact Hs|].
  destruct Hs as (s & Hs & Hv).
  destruct (logs_append_only utc cs w "P1" s Hk Hno Hs)
    as (s' & more & H' & L & _).
  exists s', more. split; [exact H'|].
  now rewrite L, map_app, Hv.
Defined.

(** X7.  On a host whose clock never goes back, after every sequence of
    calls on a new instance every section has its start not after its
    end, and its elapsed time is either unset or the distance from start
    to end in milliseconds, which is not negative. *)
Theorem section_times_in_order
        {FS : Type} {fsapi : FileSystem FS} (LocalTZA : Z -> Z)
        (title description logsPath : string) (disk0 : FS)
        (clock0 : nat -> Z) (ticks0 : nat) (polluted : bool)
        (cs : list Call) (k : string) (s : Sect.t) :
  Monotone clock0 ->
  lookup (run LocalTZA cs
              (constructor title description logsPath disk0 clock0 ticks0
                           polluted)) k = JsObject.VSection s ->
  getTime (Sect.start s) <= getTime (Sect.end_ s) /\
  (Sect.elapsed s = NotClosed \/
   (Sect.elapsed s = Millis (getTime (Sect.end_ s) - getTime (Sect.start s)) /\
    0 <= getTime (Sect.end_ s) - getTime (Sect.start s))).
Proof.
  intros Hm Hs.
  set (w0 := constructor title description logsPath disk0 clock0 ticks0
                         polluted) in *.
  assert (H0 : Ordered w0) by (split; [exact Hm | constructor]).
  destruct (Ordered_run LocalTZA cs w0 H0) as [_ Hall].
  rewrite Forall_forall in Hall.
  destruct (Hall s (lookup_records _ _ _ _ Hs)) as (A & _ & [E|E]).
  - split; [exact A | now left].
  - split; [exact A | right; split; [exact E | lia]].
Qed.

Lemma section_times_in_order_witness :
  let w := run utc [CreateSection "Phase 1" "P1"; Info "P1" "started";
                    CloseSection "P1"] sampleWorld in
  Monotone sampleClock /\
  exists s, lookup w "P1" = JsObject.VSection s /\
            Sect.elapsed s = Millis 5000 /\
            getTime (Sect.start s) <= getTime (Sect.end_ s).
Proof.
  intros w.
  assert (Hm : Monotone sampleClock).
  { intros i j Hij. unfold sampleClock. lia. }
  split; [exact Hm|].
  assert (Hs : exists s, lookup w "P1" = JsObject.VSection s /\
                         Sect.elapsed s = Millis 5000).
  { eexists. split; vm_compute; reflexivity. }
  destruct Hs as (s & Hs & He).
  exists s. split; [exact Hs|]. split; [exact He|].
  exact (proj1 (section_times_in_order utc "Import" "desc" "/tmp/logs"
                  MemFs.empty sampleClock 0 false _ "P1" s Hm Hs)).
Defined.

(** X8.  The formatter gives a template back unchanged exactly when none
    of the placeholders dd, mm, yyyy, H, i, s occurs in it; so the empty
    template, and single letters d, m and y, are left as they are. *)
Theorem dateToString_unchanged_iff
        (LocalTZA : Z -> Z) (d : Date) (template : string) :
  _dateToString LocalTZA d template = template <->
  (forall tok, In tok tokens -> occursIn tok template = false).
Proof.
  split.
  - intros H tok Hin.
    destruct (occursIn tok template) eqn:E; [exfalso | reflexivity].
    assert (Hv : exists v, In (tok, v) (tokenValues LocalTZA d)).
    { change tokens with (map fst (tokenValues LocalTZA d)) in Hin.
      apply in_map_iff in Hin as ((t & v) & <- & Hin). now exists v. }
    destruct Hv as (v & Hv).
    pose proof (dateToString_count LocalTZA d template tok v Hv) as Hc.
    rewrite H, E in Hc.
    assert (Hlen : (0 < String.length tok)%nat).
    { destruct Hin as [<-|[<-|[<-|[<-|[<-|[<-|[]]]]]]]; cbn; lia. }
    lia.
  - intros H. rewrite dateToString_unfold.
    rewrite (replace_absent "dd") by (apply H; cbn; tauto).
    rewrite (replace_absent "mm") by (apply H; cbn; tauto).
    rewrite (replace_absent "yyyy") by (apply H; cbn; tauto).
    rewrite (replace_absent "H") by (apply H; cbn; tauto).
    rewrite (replace_absent "i") by (apply H; cbn; tauto).
    apply replace_absent. apply H. cbn. tauto.
Qed.

Lemma dateToString_unchanged_iff_witness :
  (forall tok, In tok tokens -> occursIn tok "d-m-y, at noon" = false) /\
  _dateToString utc (mkDate 1709629623000) "d-m-y, at noon" = "d-m-y, at noon" /\
  _dateToString utc (mkDate 1709629623000) "" = "".
Proof.
  assert (H : forall tok, In tok tokens -> occursIn tok "d-m-y, at noon" = false).
  { intros tok [<-|[<-|[<-|[<-|[<-|[<-|[]]]]]]]; reflexivity. }
  assert (H0 : forall tok, In tok tokens -> occursIn tok "" = false).
  { intros tok [<-|[<-|[<-|[<-|[<-|[<-|[]]]]]]]; reflexivity. }
  split; [exact H|].
  split.
  - exact (proj2 (dateToString_unchanged_iff utc (mkDate 1709629623000)
                    "d-m-y, at noon") H).
  - exact (proj2 (dateToString_unchanged_iff utc (mkDate 1709629623000) "") H0).
Defined.

(** X9.  [createSection] on a key the object has replaces the record
    where it stands: the keys the loops of [_render] visit, and their
    order, are as before.  On a new key that is no array index the
    section comes last of the own keys. *)
Theorem recreated_section_keeps_its_place
        {FS : Type} {fsapi : FileSystem FS} (LocalTZA : Z -> Z)
        (name key : string) (w : World FS) :
  key <> "__proto__" ->
  let w' := snd (createSection LocalTZA name key w) in
  (JsObject.hasOwn (Log.sections (this w)) key = true ->
   JsObject.forIn (objectPrototypeEnd w') (Log.sections (this w')) =
   JsObject.forIn (objectPrototypeEnd w) (Log.sections (this w))) /\
  (JsObject.hasOwn (Log.sections (this w)) key = false ->
   JsObject.isArrayIndex key = false ->
   JsObject.ownKeys (Log.sections (this w')) =
   (JsObject.ownKeys (Log.sections (this w)) ++ [key])%list).
Proof.
  intros Hk w'.
  pose proof (createSection_shape LocalTZA name key w) as (A & _ & _ & D).
  fold w' in A, D. rewrite A, D.
  cbn [Log.sections Log.withSections Log.withEnd].
  unfold JsObject.hasOwn.
  destruct (JsObject.assoc key (JsObject.own (Log.sections (this w))))
    as [s|] eqn:E.
  - split; [|discriminate]. intros _.
    now apply (forIn_set_old _ _ _ _ s).
  - split; [discriminate|]. intros _ Hi.
    now apply ownKeys_set_new.
Qed.

Lemma recreated_section_keeps_its_place_witness :
  let w := run utc [CreateSection "Phase 2" "P2"] sampleOpen in
  "P1" <> "__proto__" /\
  JsObject.hasOwn (Log.sections (this w)) "P1" = true /\
  JsObject.forIn false (Log.sections (this w)) = ["P1"; "P2"] /\
  JsObject.forIn
    (objectPrototypeEnd (snd (createSection utc "Again" "P1" w)))
    (Log.sections (this (snd (createSection utc "Again" "P1" w)))) =
  ["P1"; "P2"].
Proof.
  intros w.
  assert (Hk : "P1" <> "__proto__") by discriminate.
  assert (Hown : JsObject.hasOwn (Log.sections (this w)) "P1" = true)
    by (vm_compute; reflexivity).
  assert (Hkeys : JsObject.forIn (objectPrototypeEnd w) (Log.sections (this w))
                  = ["P1"; "P2"])
    by (vm_compute; reflexivity).
  split; [exact Hk|]. split; [exact Hown|]. split; [exact Hkeys|].
  rewrite <- Hkeys.
  exact (proj1 (recreated_section_keeps_its_place utc "Again" "P1" w Hk) Hown).
Defined.

(** X10.  When the section EXCEPTIONS does not exist and the
    [createSection] that makes it throws, [errorException] and
    [debugException] throw that error and stop there: the section is in
    the instance, open and empty, and the message is not recorded. *)
Theorem exception_message_lost_when_creation_fails
        {FS : Type} {fsapi : FileSystem FS} (LocalTZA : Z -> Z)
        (type : LogType) (message : string) (w : World FS) (e : Error) :
  lookup w "EXCEPTIONS" = JsObject.VUndefined ->
  fst (createSection LocalTZA "Unhandled exceptions" "EXCEPTIONS" w) = Throw e ->
  _logException LocalTZA type message w =
    createSection LocalTZA "Unhandled exceptions" "EXCEPTIONS" w /\
  fst (_logException LocalTZA type message w) = Throw e /\
  lookup (snd (_logException LocalTZA type message w)) "EXCEPTIONS" =
    JsObject.VSection
      (Sect.make "EXCEPTIONS" "Unhandled exceptions"
                 (mkDate (clock w (ticks w))) (mkDate (clock w (S (ticks w))))
                 NotClosed []).
Proof.
  intros Habsent Hthrow.
  assert (E : _logException LocalTZA type message w =
              createSection LocalTZA "Unhandled exceptions" "EXCEPTIONS" w).
  { rewrite logException_unfold, Habsent. unfold bind.
    destruct (createSection LocalTZA "Unhandled exceptions" "EXCEPTIONS" w)
      as [[[]|e'] w1]; [discriminate | reflexivity]. }
  split; [exact E|]. rewrite E. split; [exact Hthrow|].
  assert (Hk : "EXCEPTIONS" <> "__proto__") by discriminate.
  exact (lookup_written _ _ _ _ _ _ _ _ Hk
           (createSection_shape LocalTZA "Unhandled exceptions" "EXCEPTIONS" w)).
Qed.

Lemma exception_message_lost_when_creation_fails_witness :
  let w := constructor "Import" "desc" "/tmp/logs" tt sampleClock 0 false in
  lookup w "EXCEPTIONS" = JsObject.VUndefined /\
  fst (createSection (fsapi := refusingFs) utc "Unhandled exceptions"
                     "EXCEPTIONS" w) = Throw SystemError /\
  fst (errorException (fsapi := refusingFs) utc "disk full" w) =
    Throw SystemError /\
  exists s,
    lookup (snd (errorException (fsapi := refusingFs) utc "disk full" w))
           "EXCEPTIONS" = JsObject.VSection s /\
    Sect.logs s = [].
Proof.
  intros w.
  assert (Habsent : lookup w "EXCEPTIONS" = JsObject.VUndefined)
    by reflexivity.
  assert (Hthrow : fst (createSection (fsapi := refusingFs) utc
                          "Unhandled exceptions" "EXCEPTIONS" w)
                   = Throw SystemError)
    by (vm_compute; reflexivity).
  destruct (exception_message_lost_when_creation_fails
              (fsapi := refusingFs) utc ERROR "disk full" w SystemError
              Habsent Hthrow) as (_ & A & B).
  split; [exact Habsent|]. split; [exact Hthrow|]. split; [exact A|].
  eexists. split; [exact B | reflexivity].
Defined.

(** X11.  [closeSection("__proto__")] on an object that has its first
    prototype throws a TypeError after giving [Object.prototype] an
    enumerable [end].  From then on, as long as the object has its first
    prototype and no own key [end], the loops of [_render] meet the
    inherited key and every [save] throws, so that [createSection] under
    any key but [end] and [__proto__] throws as well. *)
Theorem polluted_prototype_blocks_saving
        {FS : Type} {fsapi : FileSystem FS} (LocalTZA : Z -> Z)
        (w : World FS) :
  (lookup w "__proto__" = JsObject.VObjectPrototype ->
   closeSection LocalTZA "__proto__" w =
   (Throw TypeError,
    mkWorld (this w) (disk w) (clock w) (S (ticks w)) true)) /\
  (objectPrototypeEnd w = true ->
   JsObject.proto (Log.sections (this w)) = None ->
   JsObject.hasOwn (Log.sections (this w)) "end" = false ->
   (forall finished,
       _render LocalTZA true (Log.withEnd finished (this w)) =
       Throw TypeError) /\
   (exists e, fst (save LocalTZA w) = Throw e) /\
   (Accepting -> fst (save LocalTZA w) = Throw TypeError) /\
   (forall name key,
       key <> "end" -> key <> "__proto__" ->
       exists e, fst (createSection LocalTZA name key w) = Throw e)).
Proof.
  split.
  - intros H. now rewrite closeSection_unfold, H.
  - intros Hpol Hp Hown.
    split; [intros finished; now apply render_polluted|].
    destruct (save_polluted LocalTZA w Hpol Hp Hown) as (A & B).
    split; [exact A|]. split; [exact B|].
    intros name key Hend Hk. rewrite createSection_unfold.
    apply save_polluted.
    + exact Hpol.
    + unfold created. cbn [this Log.sections Log.withSections].
      now rewrite proto_set.
    + unfold created. cbn [this Log.sections Log.withSections].
      unfold JsObject.hasOwn in *. rewrite own_set by assumption.
      rewrite assoc_assign_other by congruence. exact Hown.
Qed.

Lemma polluted_prototype_blocks_saving_witness :
  let w := snd (closeSection utc "__proto__" sampleOpen) in
  lookup sampleOpen "__proto__" = JsObject.VObjectPrototype /\
  fst (closeSection utc "__proto__" sampleOpen) = Throw TypeError /\
  objectPrototypeEnd w = true /\
  JsObject.proto (Log.sections (this w)) = None /\
  JsObject.hasOwn (Log.sections (this w)) "end" = false /\
  @Accepting MemFs.t memFs /\
  fst (save utc w) = Throw TypeError /\
  exists e, fst (createSection utc "Phase 2" "P2" w) = Throw e.
Proof.
  intros w.
  pose proof (polluted_prototype_blocks_saving utc sampleOpen) as (Hclose & _).
  pose proof (polluted_prototype_blocks_saving utc w) as (_ & Hblock).
  assert (H0 : lookup sampleOpen "__proto__" = JsObject.VObjectPrototype)
    by reflexivity.
  assert (Hpol : objectPrototypeEnd w = true) by (vm_compute; reflexivity).
  assert (Hp : JsObject.proto (Log.sections (this w)) = None)
    by (vm_compute; reflexivity).
  assert (Hown : JsObject.hasOwn (Log.sections (this w)) "end" = false)
    by (vm_compute; reflexivity).
  destruct (Hblock Hpol Hp Hown) as (_ & _ & Hsave & Hcreate).
  split; [exact H0|].
  split; [now rewrite (Hclose H0)|].
  split; [exact Hpol|]. split; [exact Hp|]. split; [exact Hown|].
  split; [exact memFs_accepting|].
  split; [exact (Hsave memFs_accepting)|].
  apply Hcreate; discriminate.
Defined.

(** X12.  No sequence of calls, returning or throwing, changes the
    title, the description, the path of the logs or the start of an
    instance: only [end] and the sections ever change. *)
Theorem identity_never_changes
        {FS : Type} {fsapi : FileSystem FS} (LocalTZA : Z -> Z)
        (cs : list Call) (w : World FS) :
  Log.title (this (run LocalTZA cs w)) = Log.title (this w) /\
  Log.description (this (run LocalTZA cs w)) = Log.description (this w) /\
  Log.logsPath (this (run LocalTZA cs w)) = Log.logsPath (this w) /\
  Log.start (this (run LocalTZA cs w)) = Log.start (this w).
Proof. exact (run_identity LocalTZA cs w). Qed.

(** X13.  The name of the file does not tell the start apart: on every
    day, an instance started at 01:11:01 and one started at 11:01:01,
    with the same title and the same path of the logs, write to the same
    file, the hour, the minute and the second standing unpadded side by
    side. *)
Theorem file_names_collide
        (title description logsPath : string) (day : Z) :
  let first :=
    startedAt title description logsPath (day * msPerDay + 4261000) in
  let second :=
    startedAt title description logsPath (day * msPerDay + 39661000) in
  Log.start first <> Log.start second /\
  (getHours utc (Log.start first) = 1 /\
   getMinutes utc (Log.start first) = 11 /\
   getSeconds utc (Log.start first) = 1) /\
  (getHours utc (Log.start second) = 11 /\
   getMinutes utc (Log.start second) = 1 /\
   getSeconds utc (Log.start second) = 1) /\
  filePath utc first = filePath utc second.
Proof.
  intros first second.
  assert (T1 : day * msPerDay + 4261000 =
               day * msPerDay +
               (1 * msPerHour + (11 * msPerMinute + (1 * msPerSecond + 0))))
    by (unfold msPerDay, msPerHour, msPerMinute, msPerSecond; lia).
  assert (T2 : day * msPerDay + 39661000 =
               day * msPerDay +
               (11 * msPerHour + (1 * msPerMinute + (1 * msPerSecond + 0))))
    by (unfold msPerDay, msPerHour, msPerMinute, msPerSecond; lia).
  assert (D1 : Day (day * msPerDay + 4261000) = day)
    by (apply Day_within; unfold msPerDay; lia).
  assert (D2 : Day (day * msPerDay + 39661000) = day)
    by (apply Day_within; unfold msPerDay; lia).
  assert (H1 : HourFromTime (day * msPerDay + 4261000) = 1).
  { rewrite T1. apply HourFromTime_within;
      unfold msPerHour, msPerMinute, msPerSecond; lia. }
  assert (M1 : MinFromTime (day * msPerDay + 4261000) = 11).
  { rewrite T1. apply MinFromTime_within;
      unfold msPerMinute, msPerSecond; lia. }
  assert (S1 : SecFromTime (day * msPerDay + 4261000) = 1).
  { rewrite T1. apply SecFromTime_within; unfold msPerSecond; lia. }
  assert (H2 : HourFromTime (day * msPerDay + 39661000) = 11).
  { rewrite T2. apply HourFromTime_within;
      unfold msPerHour, msPerMinute, msPerSecond; lia. }
  assert (M2 : MinFromTime (day * msPerDay + 39661000) = 1).
  { rewrite T2. apply MinFromTime_within;
      unfold msPerMinute, msPerSecond; lia. }
  assert (S2 : SecFromTime (day * msPerDay + 39661000) = 1).
  { rewrite T2. apply SecFromTime_within; unfold msPerSecond; lia. }
  assert (L : forall t, LocalTime utc t = t)
    by (intros t; unfold LocalTime, utc; lia).
  unfold first, second, startedAt. cbn [Log.start].
  split; [intros H; injection H; lia|].
  unfold getHours, getMinutes, getSeconds. cbn [getTime]. rewrite !L.
  split; [now rewrite H1, M1, S1|].
  split; [now rewrite H2, M2, S2|].
  unfold filePath. cbn [Log.start Log.logsPath Log.title].
  rewrite !dateToString_yyyy, !dateToString_mm, !dateToString_dd,
    !dateToString_fileStamp.
  unfold getFullYear, getMonth, getDate, getHours, getMinutes, getSeconds,
    YearFromTime, MonthFromTime, DateFromTime.
  cbn [getTime]. rewrite !L, D1, D2, H1, M1, S1, H2, M2, S2.
  reflexivity.
Qed.

(** X14.  [closeSection] does not seal a section: [info], [error] and
    [debug] on a closed section append their entry as on an open one and
    leave the end and the elapsed time as the close set them, the entry
    being dated by a later reading of the clock. *)
Theorem closed_section_takes_entries
        {FS : Type} {fsapi : FileSystem FS} (LocalTZA : Z -> Z)
        (w : World FS) (k v : string) (s : Sect.t) (type : LogType) :
  k <> "__proto__" ->
  lookup w k = JsObject.VSection s ->
  let w1 := snd (closeSection LocalTZA k w) in
  let w2 := snd (_pushLog LocalTZA type k v w1) in
  lookup w2 k =
    JsObject.VSection
      (Sect.make (Sect.key s) (Sect.name s) (Sect.start s)
                 (mkDate (clock w (ticks w)))
                 (Millis (clock w (ticks w) - getTime (Sect.start s)))
                 (Sect.logs s ++
                  [Entry.make type v
                              (_dateToString LocalTZA
                                 (mkDate (clock w (2 + ticks w)))
                                 pageFormat)])).
Proof.
  intros Hk Hs w1 w2.
  pose proof (closeSection_shape LocalTZA k s w Hs) as S1.
  fold w1 in S1.
  pose proof (lookup_written _ _ _ _ _ _ _ _ Hk S1) as L1.
  pose proof (pushLog_shape LocalTZA type k v _ w1 L1) as S2.
  fold w2 in S2.
  rewrite (lookup_written _ _ _ _ _ _ _ _ Hk S2).
  destruct S1 as (_ & C1 & T1 & _).
  unfold entryAt, Sect.close, Sect.push.
  cbn [Sect.key Sect.name Sect.start Sect.end_ Sect.elapsed Sect.logs getTime].
  now rewrite C1, T1.
Qed.

Lemma closed_section_takes_entries_witness :
  let w1 := snd (closeSection utc "P1" sampleOpen) in
  let w2 := snd (info utc "P1" "late" w1) in
  "P1" <> "__proto__" /\
  (exists s, lookup sampleOpen "P1" = JsObject.VSection s) /\
  exists s',
    lookup w2 "P1" = JsObject.VSection s' /\
    Sect.elapsed s' = Millis 3000 /\
    map Entry.dateTime (Sect.logs s') = ["05/03/2024 9:7:9"].
Proof.
  intros w1 w2.
  assert (Hk : "P1" <> "__proto__") by discriminate.
  split; [exact Hk|].
  split; [eexists; reflexivity|].
  eexists. split.
  - exact (closed_section_takes_entries utc sampleOpen "P1" "late" _ INFO Hk
             eq_refl).
  - split; vm_compute; reflexivity.
Defined.

(** X15.  An entry carries the reading of the clock taken at its own
    call.  When [info], [error] or [debug] is called on a section, after
    any calls on a new instance, the call takes two readings and stamps
    the entry it adds with the first of them, the one numbered by the
    count of the readings taken before the call; the entries the section
    has carry earlier readings, each later than the one before it; and
    through any later calls that do not create the section anew the entry
    stays where it was put, after those entries. *)
Theorem entries_stamped_in_call_order
        {FS : Type} {fsapi : FileSystem FS} (LocalTZA : Z -> Z)
        (title description logsPath : string) (disk0 : FS)
        (clock0 : nat -> Z) (ticks0 : nat) (polluted : bool)
        (earlier later : list Call) (type : LogType) (k v : string)
        (s : Sect.t) :
  k <> "__proto__" ->
  (forall c, In c later -> resets c k = false) ->
  let w1 := run LocalTZA earlier
                (constructor title description logsPath disk0 clock0 ticks0
                             polluted) in
  lookup w1 k = JsObject.VSection s ->
  let w2 := snd (_pushLog LocalTZA type k v w1) in
  let w := run LocalTZA later w2 in
  ticks w2 = (2 + ticks w1)%nat /\
  exists ns s' more,
    map Entry.dateTime (Sect.logs s) =
      map (fun n => _dateToString LocalTZA (mkDate (clock0 n)) pageFormat) ns /\
    increasing 0 ns /\
    Forall (fun n => (n < ticks w1)%nat) ns /\
    lookup w k = JsObject.VSection s' /\
    Sect.logs s' =
      (Sect.logs s ++
       Entry.make type v
                  (_dateToString LocalTZA (mkDate (clock0 (ticks w1)))
                                 pageFormat) :: more)%list.
Proof.
  intros Hk Hno w1 Hs w2 w.
  set (w0 := constructor title description logsPath disk0 clock0 ticks0
                         polluted) in *.
  assert (Hclock : clock w1 = clock0) by (unfold w1; now rewrite run_clock).
  assert (H0 : Everywhere (Stamped LocalTZA) w0) by constructor.
  pose proof (Everywhere_run LocalTZA (Stamped LocalTZA)
                (Stamped_later LocalTZA) (Stamped_created LocalTZA)
                (Stamped_closed LocalTZA) (Stamped_pushed LocalTZA)
                earlier w0 H0) as Hall.
  fold w1 in Hall. unfold Everywhere in Hall. rewrite Forall_forall in Hall.
  specialize (Hall s (lookup_records _ _ _ _ Hs)).
  rewrite Hclock in Hall. destruct Hall as (ns & A & B & D).
  pose proof (pushLog_shape LocalTZA type k v s w1 Hs) as S2. fold w2 in S2.
  pose proof (lookup_written _ _ _ _ _ _ _ _ Hk S2) as L2.
  destruct S2 as (_ & _ & T2 & _).
  split; [exact T2|].
  destruct (run_appends LocalTZA later k Hk w2 _ Hno L2) as (s' & more & H' & L').
  fold w in H'.
  exists ns, s', more.
  split; [exact A|]. split; [exact B|]. split; [exact D|].
  split; [exact H'|].
  rewrite L'. unfold Sect.push, entryAt. cbn [Sect.logs].
  rewrite Hclock. now rewrite <- app_assoc.
Qed.

Lemma entries_stamped_in_call_order_witness :
  let w1 := run utc [CreateSection "Phase 1" "P1"; Info "P1" "started"]
                (constructor "Import" "desc" "/tmp/logs" MemFs.empty
                             sampleClock 0 false) in
  let w2 := snd (_pushLog utc ERROR "P1" "bad row 4" w1) in
  let w := run utc [CloseSection "P1"; Debug "P1" "done"] w2 in
  "P1" <> "__proto__" /\
  (forall c, In c [CloseSection "P1"; Debug "P1" "done"] ->
             resets c "P1" = false) /\
  ticks w1 = 6%nat /\
  ticks w2 = 8%nat /\
  exists s',
    lookup w "P1" = JsObject.VSection s' /\
    exists earlier more,
      Sect.logs s' =
        (earlier ++
         Entry.make ERROR "bad row 4"
                    (_dateToString utc (mkDate (sampleClock 6)) pageFormat)
         :: more)%list.
Proof.
  intros w1 w2 w.
  assert (Hk : "P1" <> "__proto__") by discriminate.
  assert (Hno : forall c, In c [CloseSection "P1"; Debug "P1" "done"] ->
                          resets c "P1" = false).
  { intros c [<-|[<-|[]]]; reflexivity. }
  assert (Ht : ticks w1 = 6%nat) by (vm_compute; reflexivity).
  assert (Hs : exists s, lookup w1 "P1" = JsObject.VSection s)
    by (eexists; vm_compute; reflexivity).
  destruct Hs as (s & Hs).
  destruct (entries_stamped_in_call_order utc "Import" "desc" "/tmp/logs"
              MemFs.empty sampleClock 0 false _ _ ERROR "P1" "bad row 4" s
              Hk Hno Hs) as (T2 & ns & s' & more & _ & _ & _ & H' & L').
  fold w1 in T2, L'. rewrite Ht in T2, L'.
  split; [exact Hk|]. split; [exact Hno|]. split; [exact Ht|].
  split; [exact T2|].
  exists s'. split; [exact H'|].
  exists (Sect.logs s), more. exact L'.
Defined.

(** X16.  After every sequence of calls on a new instance, every section
    record is kept under the key it carries: the [key] field of the
    record a key leads to is that key, so the anchor of a section in the
    page is the key the calls address it by. *)
Theorem sections_kept_under_their_key
        {FS : Type} {fsapi : FileSystem FS} (LocalTZA : Z -> Z)
        (title description logsPath : string) (disk0 : FS)
        (clock0 : nat -> Z) (ticks0 : nat) (polluted : bool)
        (cs : list Call) (k : string) (s : Sect.t) :
  lookup (run LocalTZA cs
              (constructor title description logsPath disk0 clock0 ticks0
                           polluted)) k = JsObject.VSection s ->
  Sect.key s = k.
Proof.
  intros Hs.
  set (w0 := constructor title description logsPath disk0 clock0 ticks0
                         polluted) in *.
  pose proof (run_Trans LocalTZA (fun _ => True) (fun _ => True) cs
                        (fun _ _ _ _ => I) (fun _ _ _ _ => I) w0) as HT.
  apply Trans_keyed in HT; [|exact Keyed_empty].
  exact (Keyed_get _ _ _ _ HT Hs).
Qed.

Lemma sections_kept_under_their_key_witness :
  let w := run utc [CreateSection "Phase 1" "P1"; CreateSection "x" "__proto__";
                    CloseSection "P1"; Info "__proto__" "hidden"] sampleWorld in
  (exists s, lookup w "P1" = JsObject.VSection s /\ Sect.key s = "P1") /\
  (exists s, lookup w "__proto__" = JsObject.VSection s /\
             Sect.key s = "__proto__").
Proof.
  intros w.
  assert (H1 : exists s, lookup w "P1" = JsObject.VSection s)
    by (eexists; vm_compute; reflexivity).
  assert (H2 : exists s, lookup w "__proto__" = JsObject.VSection s)
    by (eexists; vm_compute; reflexivity).
  destruct H1 as (s1 & H1). destruct H2 as (s2 & H2).
  split.
  - exists s1. split; [exact H1|].
    exact (sections_kept_under_their_key utc "Import" "desc" "/tmp/logs"
             MemFs.empty sampleClock 0 false _ "P1" s1 H1).
  - exists s2. split; [exact H2|].
    exact (sections_kept_under_their_key utc "Import" "desc" "/tmp/logs"
             MemFs.empty sampleClock 0 false _ "__proto__" s2 H2).
Defined.

(** X17.  Sections created under keys that are array indices are shown
    first.  After every sequence of [createSection] calls with distinct
    keys other than [__proto__] on a new instance, the sections of the
    page rendered, in the table of contents and in the body, are first
    those whose keys are array indices, in ascending numeric order
    whatever the order of the calls, then the others in the order of
    their creation. *)
Theorem array_index_keys_come_first
        {FS : Type} {fsapi : FileSystem FS} (LocalTZA : Z -> Z)
        (title description logsPath : string) (disk0 : FS)
        (clock0 : nat -> Z) (ticks0 : nat) (nks : list (string * string)) :
  NoDup (map snd nks) ->
  (forall k, In k (map snd nks) -> k <> "__proto__") ->
  let w := run LocalTZA (creations nks)
               (constructor title description logsPath disk0 clock0 ticks0
                            false) in
  let shown := shownSections (objectPrototypeEnd w) (Log.sections (this w)) in
  (exists indices others,
      map Sect.key shown = (indices ++ others)%list /\
      Forall (fun k => JsObject.isArrayIndex k = true) indices /\
      ascending (map indexOf indices) /\
      Permutation indices (filter JsObject.isArrayIndex (map snd nks)) /\
      others = filter (fun k => negb (JsObject.isArrayIndex k)) (map snd nks)) /\
  (forall finished,
      Log.end_ (this w) = Some finished ->
      _render LocalTZA (objectPrototypeEnd w) (this w) =
        Ok (page LocalTZA (this w) finished shown)).
Proof.
  intros Hnd Hkeys w shown.
  set (w0 := constructor title description logsPath disk0 clock0 ticks0 false)
    in w.
  destruct (creations_own LocalTZA nks w0) as (recs & Hown & K1 & _);
    [exact Hkeys | exact Hnd | reflexivity |].
  fold w in Hown.
  change (JsObject.own (Log.sections (this w0)))
    with (@nil (string * Sect.t)) in Hown.
  cbn [app] in Hown.
  destruct (run_plain LocalTZA (creations nks) w0) as (Hp & Hpol).
  { intros c Hc. unfold creations in Hc.
    apply in_map_iff in Hc as ((n & k) & <- & Hin).
    unfold names. cbn [creates reads fst snd]. rewrite orb_false_r.
    apply String.eqb_neq. apply Hkeys. apply in_map_iff. now exists (n, k). }
  fold w in Hp, Hpol.
  change (JsObject.proto (Log.sections (this w0))) with (@None Sect.t) in Hp.
  change (objectPrototypeEnd w0) with false in Hpol.
  pose proof (run_keyed LocalTZA (creations nks) w0 Keyed_empty) as Hkeyed.
  fold w in Hkeyed.
  assert (Hks : map fst (JsObject.own (Log.sections (this w))) = map snd nks)
    by now rewrite Hown, K1.
  split.
  - exists (map snd (JsObject.indexKeys (map snd nks))).
    exists (filter (fun k => negb (JsObject.isArrayIndex k)) (map snd nks)).
    split.
    { unfold shown. rewrite Hpol, (shown_plain _ Hp).
      rewrite (keys_of_found _ _ Hkeyed (ownKeys_own _)).
      unfold JsObject.ownKeys. now rewrite Hks. }
    split.
    { pose proof (indexKeys_tagged (map snd nks)) as H.
      apply Forall_forall. intros k Hk.
      apply in_map_iff in Hk as ((n & k') & <- & Hin).
      rewrite Forall_forall in H. specialize (H _ Hin). cbn [fst snd] in *.
      unfold JsObject.isArrayIndex. now rewrite H. }
    split; [rewrite indexKeys_values; apply indexKeys_ascending|].
    split; [apply indexKeys_perm | reflexivity].
  - intros finished He. unfold shown. rewrite Hpol. now apply render_plain.
Qed.

Lemma array_index_keys_come_first_witness :
  let nks := [("B", "2"); ("K", "k"); ("A", "1")] in
  let w := run utc (creations nks)
               (constructor "Import" "desc" "/tmp/logs" MemFs.empty sampleClock
                            0 false) in
  let shown := shownSections (objectPrototypeEnd w) (Log.sections (this w)) in
  NoDup (map snd nks) /\
  (forall k, In k (map snd nks) -> k <> "__proto__") /\
  map Sect.key shown = ["1"; "2"; "k"] /\
  exists indices others,
    map Sect.key shown = (indices ++ others)%list /\
    others = ["k"].
Proof.
  intros nks w shown.
  assert (Hnd : NoDup (map snd nks)).
  { repeat constructor; simpl; intuition discriminate. }
  assert (Hkeys : forall k, In k (map snd nks) -> k <> "__proto__").
  { intros k [<-|[<-|[<-|[]]]]; discriminate. }
  destruct (array_index_keys_come_first utc "Import" "desc" "/tmp/logs"
              MemFs.empty sampleClock 0 nks Hnd Hkeys)
    as ((indices & others & E & _ & _ & _ & O) & _).
  split; [exact Hnd|]. split; [exact Hkeys|].
  split; [vm_compute; reflexivity|].
  exists indices, others. split; [exact E | exact O].
Defined.

(** X18.  The page shows what the calls recorded.  For every sequence of
    [createSection], [closeSection], [info], [error], [debug] and [save]
    calls none of which names the key [__proto__], made on a new instance
    while [Object.prototype] has no enumerable [end], the sections of the
    page rendered from the resulting instance are, each once, the
    sections of the journal of the calls, and the entries of each, by
    type and value and in their order, are the entries the calls recorded
    in that section; the block of a section holds one line per entry, in
    that order, showing type, date and value. *)
Theorem page_shows_recorded_entries
        {FS : Type} {fsapi : FileSystem FS} (LocalTZA : Z -> Z)
        (title description logsPath : string) (disk0 : FS)
        (clock0 : nat -> Z) (ticks0 : nat) (cs : list Call) :
  (forall c, In c cs -> isBasic c = true /\ names c "__proto__" = false) ->
  let w := run LocalTZA cs
               (constructor title description logsPath disk0 clock0 ticks0
                            false) in
  let shown := shownSections (objectPrototypeEnd w) (Log.sections (this w)) in
  Permutation (map summary shown) (Journal.after cs) /\
  NoDup (map fst (Journal.after cs)) /\
  (forall finished,
      Log.end_ (this w) = Some finished ->
      _render LocalTZA (objectPrototypeEnd w) (this w) =
        Ok (page LocalTZA (this w) finished shown)) /\
  (forall s, sectionBlock LocalTZA s =
             blockOpen ++ Sect.key s ++ blockName ++ Sect.name s ++
             blockStarted ++
             _dateToString LocalTZA (Sect.start s) pageFormat ++
             blockFinished ++
             _dateToString LocalTZA (Sect.end_ s) pageFormat ++
             blockLogs ++ joinAll (map entryLine (Sect.logs s)) ++
             blockClose) /\
  (forall e, entryLine e =
             logOpen ++ typeName (Entry.type e) ++ logClass ++
             typeName (Entry.type e) ++ logDate ++ Entry.dateTime e ++
             logValue ++ Entry.value e ++ logClose).
Proof.
  intros Hcs w shown.
  set (w0 := constructor title description logsPath disk0 clock0 ticks0 false)
    in w.
  destruct (run_wellformed LocalTZA cs w0 WellFormed_empty) as (Hnd & _).
  destruct (run_plain LocalTZA cs w0 (fun c Hc => proj2 (Hcs c Hc)))
    as (Hp & Hpol).
  pose proof (run_keyed LocalTZA cs w0 Keyed_empty) as Hkeyed.
  pose proof (told_run LocalTZA cs w0 Hcs) as Htold.
  fold w in Hnd, Hp, Hpol, Hkeyed, Htold.
  change (JsObject.proto (Log.sections (this w0))) with (@None Sect.t) in Hp.
  change (objectPrototypeEnd w0) with false in Hpol.
  change (fold_left Journal.record cs (told (Log.sections (this w0))))
    with (Journal.after cs) in Htold.
  split; [|split; [|split; [|split]]].
  - rewrite <- Htold, <- (summary_told _ Hkeyed Hnd).
    apply Permutation_map. unfold shown. rewrite Hpol.
    now apply shown_plain_perm.
  - rewrite <- Htold. unfold told. rewrite map_map. exact Hnd.
  - intros finished He. unfold shown. rewrite Hpol. now apply render_plain.
  - reflexivity.
  - reflexivity.
Qed.

Lemma page_shows_recorded_entries_witness :
  let cs := [CreateSection "Phase 1" "P1"; Info "P1" "started";
             Info "P9" "lost"; Error_ "P1" "bad row 4"; CloseSection "P1"] in
  let w := run utc cs
               (constructor "Import" "desc" "/tmp/logs" MemFs.empty sampleClock
                            0 false) in
  let shown := shownSections (objectPrototypeEnd w) (Log.sections (this w)) in
  (forall c, In c cs -> isBasic c = true /\ names c "__proto__" = false) /\
  Journal.after cs = [("P1", [(INFO, "started"); (ERROR, "bad row 4")])] /\
  Permutation (map summary shown)
              [("P1", [(INFO, "started"); (ERROR, "bad row 4")])] /\
  Log.end_ (this w) = Some (mkDate 1709629633000) /\
  _render utc (objectPrototypeEnd w) (this w) =
    Ok (page utc (this w) (mkDate 1709629633000) shown).
Proof.
  intros cs w shown.
  assert (Hcs : forall c, In c cs ->
                          isBasic c = true /\ names c "__proto__" = false).
  { intros c [<-|[<-|[<-|[<-|[<-|[]]]]]]; split; reflexivity. }
  destruct (page_shows_recorded_entries utc "Import" "desc" "/tmp/logs"
              MemFs.empty sampleClock 0 cs Hcs) as (Hperm & _ & Hr & _).
  assert (He : Log.end_ (this w) = Some (mkDate 1709629633000))
    by (vm_compute; reflexivity).
  split; [exact Hcs|].
  split; [reflexivity|].
  split; [exact Hperm|].
  split; [exact He|].
  exact (Hr _ He).
Defined.

(** X19.  For every key other than [__proto__], whether or not a section
    with that key exists, [createSection(name, key)] puts under the key a
    fresh record: start and end are the two readings of the clock taken
    while the literal is built, elapsed is empty, the entries are none,
    and a record that was there is replaced, its entries with it; the
    other keys lead where they led.  It throws nothing of its own: while
    [this.sections] has its first prototype and [Object.prototype] is
    untouched, the call is the making of the directories followed by the
    writing of the page, and throws only what they throw. *)
Theorem createSection_installs_fresh_record
        {FS : Type} {fsapi : FileSystem FS} (LocalTZA : Z -> Z)
        (w : World FS) (name key : string) :
  key <> "__proto__" ->
  lookup (snd (createSection LocalTZA name key w)) key =
    JsObject.VSection
      (Sect.make key name (mkDate (clock w (ticks w)))
                 (mkDate (clock w (S (ticks w)))) NotClosed []) /\
  (forall k, k <> key ->
             lookup (snd (createSection LocalTZA name key w)) k = lookup w k) /\
  (Plain w ->
   let log := saved (created name key w) in
   let html :=
     page LocalTZA log (mkDate (clock w (S (S (ticks w)))))
          (shownSections false (Log.sections log)) in
   createSection LocalTZA name key w =
   match _prepareSave LocalTZA (created name key w) with
   | (Ok fullFilePath, w1) => onDisk (writeFileSync fullFilePath html) w1
   | (Throw e, w1) => (Throw e, w1)
   end).
Proof.
  intros Hkey. rewrite createSection_unfold.
  split; [|split].
  - rewrite lookup_save. unfold lookup, created.
    cbn [this objectPrototypeEnd Log.sections Log.withSections].
    apply get_own. rewrite own_set by assumption. apply assoc_assign_same.
  - intros k Hk. rewrite lookup_save. unfold lookup, created.
    cbn [this objectPrototypeEnd Log.sections Log.withSections].
    now apply get_set_other.
  - intros [Hp Hpol] log html. rewrite save_unfold.
    pose proof (prepareSave_effect LocalTZA (created name key w))
      as (A & _ & _ & D & _).
    destruct (_prepareSave LocalTZA (created name key w)) as [[path|e] w1];
      cbn [snd] in *; [|reflexivity].
    rewrite D, A. unfold created at 1. cbn [objectPrototypeEnd]. rewrite Hpol.
    fold log.
    rewrite (render_plain LocalTZA log (mkDate (clock w (S (S (ticks w)))))).
    + reflexivity.
    + unfold log, saved, created.
      cbn [this Log.sections Log.withSections Log.withEnd].
      now rewrite proto_set.
    + reflexivity.
Qed.

Lemma createSection_installs_fresh_record_witness :
  "P1" <> "__proto__" /\
  Plain sampleOpen /\
  (exists old, lookup sampleOpen "P1" = JsObject.VSection old) /\
  lookup (snd (createSection utc "Again" "P1" sampleOpen)) "P1" =
    JsObject.VSection
      (Sect.make "P1" "Again" (mkDate 1709629627000) (mkDate 1709629628000)
                 NotClosed []) /\
  fst (_prepareSave utc (created "Again" "P1" sampleOpen)) =
    Ok "/tmp/logs/2024/03/05/Import_20240305_973.html" /\
  exists html w1,
    createSection utc "Again" "P1" sampleOpen =
    onDisk (writeFileSync "/tmp/logs/2024/03/05/Import_20240305_973.html" html)
           w1.
Proof.
  assert (Hk : "P1" <> "__proto__") by discriminate.
  assert (Hplain : Plain sampleOpen) by (split; reflexivity).
  destruct (createSection_installs_fresh_record utc sampleOpen "Again" "P1" Hk)
    as (Hnew & _ & Hrun).
  specialize (Hrun Hplain). cbv zeta in Hrun.
  assert (Hpath : fst (_prepareSave utc (created "Again" "P1" sampleOpen)) =
                  Ok "/tmp/logs/2024/03/05/Import_20240305_973.html")
    by (vm_compute; reflexivity).
  split; [exact Hk|]. split; [exact Hplain|].
  split; [eexists; reflexivity|].
  split; [exact Hnew|].
  split; [exact Hpath|].
  destruct (_prepareSave utc (created "Again" "P1" sampleOpen))
    as [[path|e] w1]; cbn [fst] in Hpath; [|discriminate].
  injection Hpath as ->.
  eexists. exists w1. exact Hrun.
Defined.

(** X20.  Nothing is escaped.  Every page [_render] returns holds,
    character for character, the title and the description of the
    instance and, for every section its loops render, the key, the name
    and the value of each entry; and when [info], [error] or [debug] on a
    section kept under a key other than [__proto__] returns, the page it
    has written holds the value it was given, whatever its characters. *)
Theorem render_embeds_verbatim
        {FS : Type} {fsapi : FileSystem FS} (LocalTZA : Z -> Z) :
  (forall p log html,
      _render LocalTZA p log = Ok html ->
      Infix (Log.title log) html /\
      Infix (Log.description log) html /\
      (forall s,
          In s (shownSections p (Log.sections log)) ->
          Infix (Sect.key s) html /\
          Infix (Sect.name s) html /\
          (forall e, In e (Sect.logs s) -> Infix (Entry.value e) html))) /\
  (forall (w : World FS) type k v s,
      k <> "__proto__" ->
      lookup w k = JsObject.VSection s ->
      fst (_pushLog LocalTZA type k v w) = Ok tt ->
      exists fileContent w1,
        _pushLog LocalTZA type k v w =
          onDisk (writeFileSync (filePath LocalTZA (this w)) fileContent) w1 /\
        Infix v fileContent).
Proof.
  assert (Hstatic : forall p log html,
             _render LocalTZA p log = Ok html ->
             Infix (Log.title log) html /\
             Infix (Log.description log) html /\
             (forall s,
                 In s (shownSections p (Log.sections log)) ->
                 Infix (Sect.key s) html /\
                 Infix (Sect.name s) html /\
                 (forall e, In e (Sect.logs s) -> Infix (Entry.value e) html))).
  { intros p log html H.
    apply render_ok in H as (finished & _ & _ & ->).
    destruct (page_parts LocalTZA (renderSection LocalTZA p) log finished
                (shownSections p (Log.sections log))) as (Ht & Hd & Hs).
    split; [exact Ht|]. split; [exact Hd|].
    intros s Hin.
    destruct (Hs s Hin) as (Htoc & Hblock).
    split; [exact (Infix_trans _ _ _ (key_in_toc s) Htoc)|].
    split; [exact (Infix_trans _ _ _ (name_in_toc s) Htoc)|].
    intros e He.
    exact (Infix_trans _ _ _ (value_in_block LocalTZA p s e He) Hblock). }
  split; [exact Hstatic|].
  intros w type k v s Hk Hs Hok.
  rewrite pushLog_unfold, Hs in Hok |- *.
  destruct (save_ok LocalTZA _ Hok) as (html & w1 & Hr & _ & E).
  exists html, w1. split; [exact E|].
  destruct (Hstatic _ _ _ Hr) as (_ & _ & Hsec).
  specialize (Hsec (Sect.push (entryAt LocalTZA type v w) s)).
  destruct Hsec as (_ & _ & Hv).
  - apply (own_shown _ _ k). unfold saved, pushed.
    cbn [this Log.sections Log.withSections Log.withEnd].
    rewrite own_set by assumption. apply assoc_assign_same.
  - apply (Hv (entryAt LocalTZA type v w)).
    unfold Sect.push. cbn [Sect.logs]. apply in_or_app. right. now left.
Qed.

Lemma render_embeds_verbatim_witness :
  "P1" <> "__proto__" /\
  (exists s, lookup sampleOpen "P1" = JsObject.VSection s) /\
  fst (_pushLog utc INFO "P1" "<b>bold</b>" sampleOpen) = Ok tt /\
  exists fileContent w1,
    _pushLog utc INFO "P1" "<b>bold</b>" sampleOpen =
      onDisk (writeFileSync (filePath utc (this sampleOpen)) fileContent) w1 /\
    Infix "<b>bold</b>" fileContent.
Proof.
  pose proof (render_embeds_verbatim (fsapi := memFs) utc) as (_ & Hpush).
  assert (Hk : "P1" <> "__proto__") by discriminate.
  assert (Hok : fst (_pushLog utc INFO "P1" "<b>bold</b>" sampleOpen) = Ok tt)
    by (vm_compute; reflexivity).
  split; [exact Hk|].
  split; [eexists; reflexivity|].
  split; [exact Hok|].
  exact (Hpush sampleOpen INFO "P1" "<b>bold</b>" _ Hk eq_refl Hok).
Defined.
